(* ===== verification/_CoqProject ===== *)
-Q . S2P
Prelude.v
Values.v
Coerce.v
Schemas.v
Store.v
Api.v
ApiTheorems.v
Server.v
Race.v
Examples.v
