(* ===== verification/Prelude.v ===== *)
(** * Campus Karma Exchange backend: a verification development

    ** The program

    src/main.py is a FastAPI service over a MongoDB database; src/schemas.py
    declares its Pydantic models.  It has five parts:
    - the domain models [Pro], [Skill], [Request], [User] (schemas.py):
      each constructor call [Cls( **d)] validates every declared field
      with Pydantic's lax coercions and its [ge]/[le] constraints, and
      reports every failing field at once;
    - the document-store adapter database.py ([db], [create_document],
      [get_documents]): imported by main.py but not under src/, so it is
      modelled from spec section 4.1;
    - the route handlers of main.py: [read_root] (GET /), [test_database]
      (GET /test), [seed_demo] (POST /seed), [list_pros], [list_skills],
      [list_requests] (GET /pros, /skills, /requests, with a [limit]
      query parameter);
    - FastAPI's dispatch: routes, query parameter parsing (422 on a bad
      [limit]), [HTTPException] and uncaught exceptions as responses;
    - the process: [app] with its CORS middleware (main.py lines 11-19)
      and the start-up reading [PORT] (lines 106-109).
    The handlers call the adapter and the models; the only state is the
    database, shared by all requests, which run concurrently.  A request
    passes Starlette's [ServerErrorMiddleware], then the CORS layer, then
    FastAPI's [ExceptionMiddleware] and the router ([Api.route]).

    ** Files

    - [Prelude] (this file): the result type [result E A] (exceptions as
      values) with do-notation [x <- c ;; k]; the accumulating applicative
      [<**>] (Pydantic's error collection); [mapR], a comprehension whose
      body may raise; the state-and-exception monad [st S E A] with
      [let! x := c in k], where writes made before an exception persist
      (no rollback, as in Python); tactics [inv_res], [vap_inv],
      [not_in_literal]; hint databases [ckx] and [ckx_rw].
    - [Values]: Python values of decoded BSON ([pyval]), documents as
      ordered association lists, [dict_get], and [strip_id], the dict
      comprehension of main.py lines 94, 99, 104.
    - [Coerce]: Pydantic's coercion of one field ([coerce_str],
      [coerce_int], [coerce_float], [coerce_bool], [coerce_opt_str],
      [coerce_str_list]), the constraints [check_ge_Z]/[check_ge_Q]/
      [check_le_Q], the field reader [field] (value, default or
      [missing]), the decimal parser/printer [parse_int]/[print_int],
      pydantic-core's [str_as_int] and Rust's float grammar.
    - [Schemas]: Modules [Pro], [Skill], [Request], [User], each with its
      Record [t], [validate] (the constructor), [dump] ([model_dump()]),
      and [wf] (the [Field] constraints).  [User] is parameterised by the
      email validator (a library).
    - [Store]: the interface the handlers use: Class [DocStore] (the
      MongoDB operations through [db]: [count_documents], [insert_one],
      [find], [list_collection_names], and the contents view [coll]) and
      its contract in three classes: [DocStoreCore] (every law but the
      order in which [find] returns documents), [DocStoreLaws] (plus
      insertion order) and [DocStoreAnyOrder] (plus "[min(limit,
      matches)] matching documents in an order the store chooses", spec
      section 4.1 read literally), with the instance that every
      [DocStoreLaws] store is a [DocStoreAnyOrder] store;
      [create_document] and [get_documents]; Module [MemStore], an
      in-memory store (a gmap from collection names to document lists
      and an ObjectId counter), an instance of [DocStoreLaws]; Module
      [RevStore], the same store answering [find] newest first, an
      instance of [DocStoreAnyOrder] and provably not of [DocStoreLaws].
    - [Api]: the handlers as computations in [st S exn] over any
      [DocStore S]; the demo records of [seed_demo] as the keyword
      arguments of main.py; [route], the router with [ExceptionMiddleware]
      (a result or an uncaught exception), and [handle], [route] inside
      [ServerErrorMiddleware]; the functional specification of seeding.
      Every theorem is proved from the store contract only, each from the
      weakest class it needs: seeding from [DocStoreCore].
    - [ApiTheorems]: listing, the invariants every request keeps,
      routing, and the end-to-end scenarios of the spec.  Seeding, the
      invariants and the health check need [DocStoreCore]; listing
      totality and length and routing need [DocStoreAnyOrder]; only the
      theorems that name the profiles a listing returns (or which stored
      document it reaches) need [DocStoreLaws].
    - [Server]: Module [Startup] ([int(os.getenv("PORT", 8000))] with
      Python's [int(str)], and the port range of the socket bind) and
      Module [Cors] (the middleware configuration of main.py, Starlette's
      [CORSMiddleware] with case-insensitive header maps, and [app], the
      assembled middleware stack).
    - [Race]: concurrent [POST /seed] calls: each call is a thread of
      atomic store operations ([ACheck]: count then maybe insert,
      [AInsert]); [step] interleaves threads (an Inductive, with stdpp's
      [rtc], [nsteps], [nf] and [sn]); [run] executes a schedule; the
      store a configuration holds is the state a concurrent listing
      reads.
    - [Examples]: concrete stores and one witness per theorem with
      hypotheses, evaluated on [MemStore] (and on [RevStore] for the
      any-order listing).

    ** What is proved

    - Models: a validated [Pro] satisfies its bounds (rating in [0,5],
      reviews and karma_rate >= 0), and so do [Request] and [User];
      [validate (dump x) = Ok x] for valid [x]; out-of-range and missing
      fields are rejected with the error Pydantic reports (a numeric
      rating is accepted exactly on [[0, 5]], both bounds included, and
      rejected with [greater_than_equal] below and [less_than_equal]
      above); validation ignores ["_id"].
    - Seeding: its full functional specification on a reachable store;
      idempotence; the exact demo contents from an empty store; 500 with
      no write on an unconfigured or unreachable store.
    - Listing: the result of [GET /pros] is exactly [min(limit, stored)]
      profiles, and [/skills] and [/requests] never fail on a valid
      store; a stored profile without its required [name] turns [/pros]
      into a 500 with no partial result; the ["_id"] strip is
      redundant.  The [limit] parameter is read by pydantic-core's
      [str_as_int]: [str(n)] with whitespace around it is read back as
      [n] (up to the 4300-character limit), a value without a digit is
      a 422 [int_parsing] before the store is touched.  Spec section 8's "[GET
      /pros?limit=2] after seeding returns exactly 2 of the 3 seeded
      profiles" holds in every store order: [min(k, 3)] profiles, a
      sub-multiset of the demo ones; in insertion order they are the
      first two, newest first the last two.
    - Invariants: every request keeps "every stored document of the three
      collections validates", hence listing never fails on the service's
      own data.  Two further lemmas follow from the store interface more
      than from the handlers, which can only insert: every request keeps
      every stored document a dict with distinct keys that starts with
      its ["_id"], and each collection only grows by appending.
    - Routing: on the routes of the spec's HTTP table (section 6,
      [spec_table]) [handle] refines the table: 422 exactly on a list
      endpoint whose [limit] Pydantic cannot read as an int, and
      otherwise a status the table allows ([GET /] and [GET /test] 200,
      the others 200 or 500).  Lemmas on Starlette's router, which hold
      for any route table: a request matching no route leaves the store
      alone and is a 405, a 307 redirect or a 404; a routed request is a
      200, a 422 or a 500.
    - Process: without an [Origin] header the CORS layer is transparent,
      whatever its configuration; a preflight from any
      origin is answered with that origin and credentials, and succeeds
      exactly for the seven methods ["*"] stands for; a cross-origin
      response keeps the status, body and store of [handle] and gains the
      CORS headers, except the 500 of an uncaught exception, which has
      none; [PORT] holding [str(n)] with any whitespace around it starts
      the server on port [n].
    - Health check: always 200; with an unreachable store it reports a
      truncated error; with a reachable one it lists at most ten
      non-empty collections; it echoes [DATABASE_NAME].
    - Store: [MemStore] satisfies [DocStoreLaws] and [RevStore]
      [DocStoreAnyOrder] (refinements of the interface by
      implementations); [DocStoreLaws] refines [DocStoreAnyOrder]; in
      every state [MemStore] reaches, every stored document carries an
      id, distinct within its collection.
    - Concurrency: a call running alone performs exactly [seed_demo]'s
      updates (refinement); however [n] calls interleave, a collection
      that holds a document when they start is never written (the
      emptiness check; rule induction with "no pending insert into it");
      once [n >= 1] calls on an empty store have all finished, it holds
      [3k] profiles with [1 <= k <= n] (each call inserts all three or
      none, at least one inserts; rule induction with the invariant
      [quiet_inv]); and [k = n] happens: for every [n] some interleaving
      has every call insert (the race spec section 4.2 accepts; the
      interleaving is built by induction, all checks first); a [GET
      /pros] interleaved at any point of the race answers 200 (rule
      induction with the invariant [race_valid]: each insert writes one
      complete valid document).  Lemmas that hold of every program of
      the action language, not only of [seed_prog]: every interleaving
      stops (a weight every step decreases; [sn step]), and none is
      stuck before all calls have finished.

    ** Bounds and fuel

    [print_uint] uses the binary size of [n] as fuel: a number has at
    least as many binary as decimal digits, and [digits_rev_spec] proves
    the fuel never runs out.  Every other function is structurally
    recursive.  Python floats are modelled by the exact rationals they
    denote; the only float operations of the program are the
    comparisons [ge=0] and [le=5], which are exact on doubles.  Python
    ints are unbounded, as [Z] is.

    ** Not modelled

    Serving itself ([uvicorn.run]'s event loop and sockets): I/O, with no
    logic of this program.  The content of the documentation pages, the
    absolute URL of a redirect's [Location] and the [Allow] header of a
    405: output FastAPI and Starlette generate from the route table,
    which the model keeps (the routes, the status, the redirect's path
    and query); the [Allow] header joins a Python set, whose order is
    not fixed.  FastAPI's re-serialisation through [response_model] and
    the JSON text of a response: the handlers already return model
    instances, which the body holds.  The CORS middleware's
    [allow_origin_regex] (unused) and the content headers of responses.
    In Pydantic's lax mode, the float strings inf, infinity and nan and
    underscores in float strings (the service writes numbers, never
    numeric strings); non-ASCII digits and whitespace in [int(str)] and
    in Pydantic's parsers; bytes in a [str] field; bytes, datetime and
    nested values are opaque ([VOther]); the email syntax check (the
    email_validator library: a parameter); string slicing counts bytes,
    not code points.
*)
From stdpp Require Export base list strings gmap.
From Stdlib Require Export ZArith QArith_base Lia.
(** [lia] handles [/] and [mod] by constants once these instances are loaded. *)
From Stdlib Require Export ZifyN ZifyNat.

Declare Scope ckx_scope.
Delimit Scope ckx_scope with ckx.
Open Scope ckx_scope.

Create HintDb ckx.
Create Rewrite HintDb ckx_rw.

(** ** Results: Python exceptions as values *)

Inductive result (E A : Type) : Type :=
  | Ok (a : A)
  | Err (e : E).
Arguments Ok {E A} a.
Arguments Err {E A} e.

(** The value of a success, forgetting the error. *)
Definition ok_of {E A} (r : result E A) : option A :=
  match r with Ok a => Some a | Err _ => None end.

Definition rbind {E A B} (r : result E A) (k : A -> result E B) : result E B :=
  match r with
  | Ok a => k a
  | Err e => Err e
  end.

Definition rmap {E A B} (f : A -> B) (r : result E A) : result E B :=
  match r with
  | Ok a => Ok (f a)
  | Err e => Err e
  end.

Notation "x <- c ;; k" := (rbind c (fun x => k))
  (at level 100, c at next level, right associativity) : ckx_scope.

Definition is_ok {E A} (r : result E A) : bool :=
  match r with Ok _ => true | Err _ => false end.

(** [mapR f l]: a list comprehension [[f(x) for x in l]] whose body may
    raise; the first exception aborts the whole comprehension. *)
Fixpoint mapR {E A B} (f : A -> result E B) (l : list A) : result E (list B) :=
  match l with
  | [] => Ok []
  | x :: l' => y <- f x ;; ys <- mapR f l' ;; Ok (y :: ys)
  end.

(** ** Accumulating validation (Pydantic collects every field error) *)

Definition vap {E A B} (rf : result (list E) (A -> B)) (ra : result (list E) A)
  : result (list E) B :=
  match rf, ra with
  | Ok f, Ok a => Ok (f a)
  | Ok _, Err e => Err e
  | Err e, Ok _ => Err e
  | Err e1, Err e2 => Err (e1 ++ e2)
  end.
Notation "rf <**> ra" := (vap rf ra) (at level 50, left associativity) : ckx_scope.

(** [has_err x r]: [r] failed and reported [x] among its errors. *)
Definition has_err {E A} (x : E) (r : result (list E) A) : Prop :=
  match r with
  | Err es => x ∈ es
  | Ok _ => False
  end.

(** ** State and exceptions: a handler that raises keeps the writes it
    already made (there is no rollback). *)

Definition st (S E A : Type) : Type := S -> result E A * S.

Definition sret {S E A} (a : A) : st S E A := fun s => (Ok a, s).

Definition sthrow {S E A} (e : E) : st S E A := fun s => (Err e, s).

Definition sbind {S E A B} (m : st S E A) (k : A -> st S E B) : st S E B :=
  fun s => match m s with
           | (Ok a, s') => k a s'
           | (Err e, s') => (Err e, s')
           end.

(** A pure computation that may raise, run without touching the state. *)
Definition slift {S E A} (r : result E A) : st S E A := fun s => (r, s).

Notation "'let!' x ':=' c 'in' k" := (sbind c (fun x => k))
  (at level 10, x name, c at level 100, k at level 200) : ckx_scope.

(** ** Tactics *)

Ltac inv_res :=
  repeat match goal with
  | H : Ok _ = Ok _ |- _ => injection H as H; subst
  | H : Err _ = Err _ |- _ => injection H as H; subst
  | H : Ok _ = Err _ |- _ => discriminate H
  | H : Err _ = Ok _ |- _ => discriminate H
  end.

(** Case on the result being bound in a hypothesis or in the goal. *)
Ltac simpl_res :=
  repeat (match goal with
  | H : context [rbind ?c _] |- _ =>
      let E := fresh "E" in destruct c eqn:E; cbn [rbind] in H
  | |- context [rbind ?c _] =>
      let E := fresh "E" in destruct c eqn:E; cbn [rbind]
  end; inv_res).

(** ** Generic lemmas *)

Lemma rbind_Ok_iff {E A B} (c : result E A) (k : A -> result E B) b :
  rbind c k = Ok b <-> exists a, c = Ok a /\ k a = Ok b.
Proof.
  destruct c as [a|e]; cbn; split.
  - eauto.
  - intros (? & [= ->] & ?). done.
  - discriminate.
  - intros (? & ? & ?). discriminate.
Qed.

Section ResultLemmas.
Context {E A B : Type}.

Lemma mapR_Ok_iff (f : A -> result E B) l ys :
  mapR f l = Ok ys <-> Forall2 (fun x y => f x = Ok y) l ys.
Proof.
  revert ys. induction l as [|x l IH]; intros ys; cbn [mapR].
  - split; [intros [= <-]; constructor | intros H; inversion H; done].
  - rewrite rbind_Ok_iff. split.
    + intros (y & Hy & Hk). apply rbind_Ok_iff in Hk as (ys' & Hys & [= <-]).
      constructor; [done | by apply IH].
    + intros H. inversion H as [|? y ? ys' Hy Hys]; subst.
      exists y. split; [done|]. apply rbind_Ok_iff. exists ys'.
      split; [by apply IH | done].
Qed.

Lemma mapR_length (f : A -> result E B) l ys :
  mapR f l = Ok ys -> length ys = length l.
Proof. intros H%mapR_Ok_iff. symmetry. by eapply Forall2_length. Qed.

(** A comprehension fails exactly when some element fails. *)
Lemma mapR_Err_exists (f : A -> result E B) l e :
  mapR f l = Err e -> exists x, x ∈ l /\ f x = Err e.
Proof.
  induction l as [|x l IH]; cbn; [discriminate|].
  destruct (f x) as [y|e'] eqn:Hx; cbn.
  - destruct (mapR f l) as [ys|e'']; cbn; [discriminate|].
    intros [= ->]. destruct IH as (z & Hz & Hfz); [done|].
    exists z. split; [by right|done].
  - intros [= ->]. exists x. split; [left|done].
Qed.

(** A successful comprehension keeps one value per element. *)
Lemma mapR_omap (f : A -> result E B) l ys :
  mapR f l = Ok ys -> omap (fun x => ok_of (f x)) l = ys.
Proof.
  intros H%mapR_Ok_iff. induction H as [|x y l ys Hy _ IH]; [done|].
  rewrite <- IH. unfold omap, list_omap. simpl. by rewrite Hy.
Qed.

Lemma mapR_map (g : A -> B) l : mapR (fun x => Ok (g x)) l = @Ok E _ (map g l).
Proof. induction l as [|x l IH]; cbn; [done|]. by rewrite IH. Qed.

Lemma vap_Ok_iff {C} (rf : result (list C) (A -> B)) ra b :
  vap rf ra = Ok b <-> exists f a, rf = Ok f /\ ra = Ok a /\ b = f a.
Proof.
  destruct rf, ra; cbn; split; try discriminate;
    try (intros (? & ? & ? & ? & ?); discriminate).
  - intros [= <-]. eauto.
  - intros (? & ? & [= ->] & [= ->] & ->). done.
Qed.
End ResultLemmas.

#[export] Hint Rewrite @mapR_map : ckx_rw.

(** [omap] is monotone for the sub-multiset order. *)
Lemma submseteq_omap {A B} (g : A -> option B) l k : l ⊆+ k -> omap g l ⊆+ omap g k.
Proof.
  induction 1 as [|x l k _ IH|x y l|x l k _ IH|l1 l2 l3 _ IH1 _ IH2]; simpl.
  - done.
  - destruct (g x); [by apply submseteq_skip|done].
  - destruct (g x), (g y); [apply submseteq_swap|done..].
  - destruct (g x); [by apply submseteq_cons|done].
  - by etrans.
Qed.


Lemma has_err_Err {E A} (x : E) (r : result (list E) A) : has_err x r -> exists es, r = Err es.
Proof. destruct r; [done|eauto]. Qed.

Section HasErr.
Context {E A B : Type} (x : E).

Lemma has_err_vap_l (rf : result (list E) (A -> B)) ra :
  has_err x rf -> has_err x (vap rf ra).
Proof. destruct rf, ra; cbn; [done..| intros; apply elem_of_app; by left]. Qed.

Lemma has_err_vap_r (rf : result (list E) (A -> B)) ra :
  has_err x ra -> has_err x (vap rf ra).
Proof. destruct rf, ra; cbn; [done..| intros; apply elem_of_app; by right]. Qed.

Lemma has_err_Err_singleton : @has_err E A x (Err [x]).
Proof. cbn. by left. Qed.

Lemma has_err_not_Ok (r : result (list E) A) : has_err x r -> forall a, r <> Ok a.
Proof. by intros H a ->. Qed.
End HasErr.

#[export] Hint Resolve has_err_Err_singleton : ckx.

(** Split [vap (.. (Ok f <**> r1) ..) rn = Ok b] into one [ri = Ok ai]
    hypothesis per field. *)
Ltac vap_inv H :=
  repeat match type of H with
  | vap _ _ = Ok _ =>
      let Hr := fresh "Hfield" in
      apply vap_Ok_iff in H as (? & ? & H & Hr & ->)
  end; inv_res.


Lemma sbind_Ok {S E A B} (m : st S E A) (k : A -> st S E B) s a s' :
  m s = (Ok a, s') -> sbind m k s = k a s'.
Proof. unfold sbind. by intros ->. Qed.

Lemma sbind_Err {S E A B} (m : st S E A) (k : A -> st S E B) s e s' :
  m s = (Err e, s') -> sbind m k s = (Err e, s').
Proof. unfold sbind. by intros ->. Qed.

(** [x ∉ l] for a literal list of literals. *)
Ltac not_in_literal :=
  let Hin := fresh "Hin" in
  intros Hin; repeat (apply elem_of_cons in Hin as [Hin|Hin]; [discriminate|]);
  by apply elem_of_nil in Hin.

Lemma mapR_Err_of_elem {E A B} (f : A -> result E B) l x e :
  x ∈ l -> f x = Err e -> exists e', mapR f l = Err e'.
Proof.
  induction l as [|y l IH]; [by intros ?%elem_of_nil|].
  intros [->|Hin]%elem_of_cons Hx; cbn.
  - rewrite Hx. eauto.
  - destruct (f y); cbn; [|eauto]. destruct IH as [e' ->]; [done..|]. cbn. eauto.
Qed.

Lemma filter_all {A} (P : A -> Prop) `{forall x, Decision (P x)} (l : list A) :
  (forall x, P x) -> filter P l = l.
Proof. intros HP. induction l as [|x l IH]; [done|]. rewrite filter_cons_True; [|done]. by rewrite IH. Qed.

Lemma mapR_ext {E A B} (f g : A -> result E B) l :
  (forall x, f x = g x) -> mapR f l = mapR g l.
Proof. intros Hfg. induction l as [|x l IH]; cbn; [done|]. by rewrite Hfg, IH. Qed.
