(* ===== verification/Values.v ===== *)
(** * Values and documents

    The values a MongoDB document holds once pymongo has decoded it into
    Python objects, and documents as Python dicts (ordered association
    lists with unique keys).  [strip_id] is the dict comprehension
    [{k: v for k, v in d.items() if k != "_id"}] of main.py (lines 94,
    99, 104); [truthy_env] is Python truthiness of an [os.getenv] result
    (main.py lines 39-40). *)
From S2P Require Import Prelude.
Local Close Scope Q_scope.

(** ** Python values *)

(** [VFloat] carries the exact rational value of a finite double: the
    only float comparisons the program makes are Pydantic's [ge=0] and
    [le=5], which are exact on doubles.  [VOid] is a BSON ObjectId and
    [VOther] stands for every value no schema field accepts (datetime,
    nested dict, bytes), identified by a tag. *)
Inductive pyval : Type :=
  | VNone
  | VBool (b : bool)
  | VInt (z : Z)
  | VFloat (q : Q)
  | VStr (s : string)
  | VList (vs : list pyval)
  | VOid (n : N)
  | VOther (tag : string).

(** A document: the key/value pairs of a Python dict in insertion order. *)
Abbreviation document := (list (string * pyval)).

Definition keys (d : document) : list string := map fst d.

(** Every dict has pairwise distinct keys. *)
Definition dict_wf (d : document) : Prop := NoDup (keys d).

(** [d.get(k)] *)
Fixpoint dict_get (k : string) (d : document) : option pyval :=
  match d with
  | [] => None
  | (k', v) :: d' => if String.eqb k k' then Some v else dict_get k d'
  end.

(** [{k: v for k, v in d.items() if k != "_id"}] *)
Definition strip_id (d : document) : document :=
  filter (fun kv => kv.1 <> "_id") d.

(** Python truthiness of [os.getenv(name)]: unset and [""] are falsy. *)
Definition truthy_env (o : option string) : bool :=
  match o with
  | Some s => negb (String.eqb s "")
  | None => false
  end.

(** BSON equality, as the store compares a filter value with a field:
    ints and doubles compare by numeric value. *)
Fixpoint bson_eqb (x y : pyval) : bool :=
  match x, y with
  | VNone, VNone => true
  | VBool a, VBool b => Bool.eqb a b
  | VInt a, VInt b => Z.eqb a b
  | VInt a, VFloat q => Qeq_bool (inject_Z a) q
  | VFloat q, VInt a => Qeq_bool q (inject_Z a)
  | VFloat p, VFloat q => Qeq_bool p q
  | VStr a, VStr b => String.eqb a b
  | VList xs, VList ys =>
      (fix go (xs ys : list pyval) : bool :=
         match xs, ys with
         | [], [] => true
         | x :: xs', y :: ys' => bson_eqb x y && go xs' ys'
         | _, _ => false
         end) xs ys
  | VOid a, VOid b => N.eqb a b
  | VOther a, VOther b => String.eqb a b
  | _, _ => false
  end.

(** A query [{k: q}] matches a field equal to [q], or an array field
    with an element equal to [q]; a missing field does not match. *)
Definition field_matches (v q : pyval) : bool :=
  bson_eqb v q ||
  match v with VList vs => existsb (fun x => bson_eqb x q) vs | _ => false end.

Definition filter_doc := list (string * pyval).

Definition doc_matches (f : filter_doc) (d : document) : bool :=
  forallb (fun kq => match dict_get kq.1 d with
                     | Some v => field_matches v kq.2
                     | None => false
                     end) f.

(** ** Lemmas *)

Lemma dict_get_Some_In k d v : dict_get k d = Some v -> (k, v) ∈ d.
Proof.
  induction d as [|[k' v'] d IH]; cbn; [discriminate|].
  destruct (String.eqb_spec k k') as [->|]; [intros [= ->]; left|].
  intros H. right. by apply IH.
Qed.

Lemma dict_get_None k d : dict_get k d = None <-> k ∉ keys d.
Proof.
  induction d as [|[k' v'] d IH]; cbn; [split; [intros _; apply not_elem_of_nil|done]|].
  rewrite not_elem_of_cons, <- IH.
  destruct (String.eqb_spec k k') as [->|]; naive_solver.
Qed.

Lemma dict_get_In_wf k d v : dict_wf d -> (k, v) ∈ d -> dict_get k d = Some v.
Proof.
  unfold dict_wf, keys. induction d as [|[k' v'] d IH]; cbn;
    [intros _ ?%elem_of_nil; done|].
  intros [Hn Hnd]%NoDup_cons Hin%elem_of_cons.
  destruct (String.eqb_spec k k') as [->|Hne].
  - destruct Hin as [[= ->]|Hin]; [done|].
    exfalso. apply Hn. apply list_elem_of_fmap. by exists (k', v).
  - destruct Hin as [[= -> ->]|Hin]; [done|]. by apply IH.
Qed.

Lemma strip_id_get k d : k <> "_id" -> dict_get k (strip_id d) = dict_get k d.
Proof.
  intros Hk. unfold strip_id. induction d as [|[k' v] d IH]; [done|].
  rewrite filter_cons. cbn [fst].
  case_decide as Hk'; cbn; rewrite IH; [done|].
  destruct (String.eqb_spec k k'); congruence.
Qed.

Lemma strip_id_get_id d : dict_get "_id" (strip_id d) = None.
Proof.
  apply dict_get_None. unfold strip_id, keys.
  intros ([k v] & -> & Hin)%list_elem_of_fmap. apply list_elem_of_filter in Hin.
  naive_solver.
Qed.

Lemma strip_id_keys d : keys (strip_id d) = filter (fun k => k <> "_id") (keys d).
Proof.
  unfold strip_id, keys. induction d as [|[k v] d IH]; [done|].
  rewrite !filter_cons. cbn. case_decide; cbn; by rewrite IH.
Qed.

Lemma strip_id_wf d : dict_wf d -> dict_wf (strip_id d).
Proof. unfold dict_wf. rewrite strip_id_keys. apply NoDup_filter. Qed.

Lemma strip_id_idem d : strip_id (strip_id d) = strip_id d.
Proof. unfold strip_id. rewrite list_filter_filter. apply list_filter_iff. naive_solver. Qed.

Lemma strip_id_no_id d : "_id" ∉ keys d -> strip_id d = d.
Proof.
  unfold strip_id, keys. induction d as [|[k v] d IH]; [done|].
  cbn [map fst]. intros [Hk Hd]%not_elem_of_cons. rewrite filter_cons_True; [|done].
  by rewrite IH.
Qed.

Lemma strip_id_cons_id v d : strip_id (("_id", v) :: d) = strip_id d.
Proof. unfold strip_id. rewrite filter_cons_False; naive_solver. Qed.

Lemma doc_matches_nil d : doc_matches [] d = true.
Proof. done. Qed.

#[export] Hint Rewrite strip_id_get_id strip_id_idem strip_id_cons_id doc_matches_nil : ckx_rw.
#[export] Hint Resolve strip_id_wf : ckx.
