(* ===== verification/Coerce.v ===== *)
(** * Pydantic field coercion

    How Pydantic v2 (lax mode, Python input) turns one dict value into a
    field of the type src/schemas.py declares: [str], [Optional[str]],
    [int], [float], [bool], [List[str]], with the [ge]/[le] constraints of
    [Field(...)], and the error it reports otherwise (its error type and
    location).  The decimal parser [parse_int] is also how FastAPI reads
    the [limit: int] query parameter of the list endpoints (main.py lines
    91, 97, 102).

    A numeric string is read as pydantic-core reads it: an int by
    [str_as_int] (whitespace trimmed, at most 4300 characters,
    [[+-]digits], a tail of zeros after a point, underscores between
    digits), a float by Rust's [f64::from_str] on the trimmed string
    ([[+-]] digits with an optional point and exponent), as an exact
    rational.  Not modelled: the strings inf, infinity and nan (rejected
    here; Pydantic reads them as floats and then fails the bounds of
    [rating] with another error type), underscores in a float, and
    non-ASCII digits and whitespace. *)
From S2P Require Import Prelude Values.
From Stdlib Require Import Ascii.
Local Close Scope Q_scope.

(** ** Validation errors *)

Inductive err_type : Type :=
  | Missing | StringType | IntType | IntFromFloat | IntParsing | IntParsingSize
  | FloatType | FloatParsing | BoolType | BoolParsing | ListType
  | GreaterThanEqual | LessThanEqual | ValueError.

Inductive loc_part : Type :=
  | LKey (k : string)
  | LIdx (i : nat).

Record field_error : Type := FieldError {
  fe_loc : list loc_part;
  fe_type : err_type
}.

Abbreviation vres A := (result (list field_error) A).

Definition ferr {A} (loc : list loc_part) (t : err_type) : vres A :=
  Err [FieldError loc t].

(** ** Decimal numerals *)

Definition digit_val (c : ascii) : option Z :=
  let n := nat_of_ascii c in
  if (48 <=? n)%nat && (n <=? 57)%nat then Some (Z.of_nat n - 48)%Z else None.

Fixpoint parse_digits (acc : Z) (s : string) : option Z :=
  match s with
  | EmptyString => Some acc
  | String c s' =>
      match digit_val c with
      | Some d => parse_digits (10 * acc + d)%Z s'
      | None => None
      end
  end.

(** One or more digits. *)
Definition parse_uint (s : string) : option Z :=
  match s with
  | EmptyString => None
  | _ => parse_digits 0 s
  end.

(** [[+-]digits] *)
Definition parse_int (s : string) : option Z :=
  match s with
  | String "-" s' => Z.opp <$> parse_uint s'
  | String "+" s' => parse_uint s'
  | _ => parse_uint s
  end.

(** The part before the first character satisfying [p], and what
    follows it if there is one. *)
Definition is_digit (c : ascii) : bool :=
  match digit_val c with Some _ => true | None => false end.

Definition has_digit (s : string) : bool := existsb is_digit (String.list_ascii_of_string s).

(** The characters of [a] all occur in [b]. *)
Definition chars_in (a b : string) : Prop :=
  forall c, c ∈ String.list_ascii_of_string a -> c ∈ String.list_ascii_of_string b.

Fixpoint split_at (p : ascii -> bool) (s : string) : string * option string :=
  match s with
  | EmptyString => (EmptyString, None)
  | String c s' => if p c then (EmptyString, Some s') else let '(a, b) := split_at p s' in (String c a, b)
  end.

Definition digits_or_empty (s : string) : option Z :=
  match s with
  | EmptyString => Some 0%Z
  | _ => parse_uint s
  end.

(** [Digit+ | Digit+ '.' Digit* | Digit* '.' Digit+] as an exact rational. *)
Definition parse_mantissa (s : string) : option Q :=
  match split_at (fun c => Ascii.eqb c ".") s with
  | (ip, None) => inject_Z <$> parse_uint ip
  | (ip, Some fp) =>
      if String.eqb ip "" && String.eqb fp "" then None else
      match digits_or_empty ip, digits_or_empty fp with
      | Some i, Some f => Some (Qplus (inject_Z i) (Qmake f (Z.to_pos (10 ^ Z.of_nat (String.length fp)))))
      | _, _ => None
      end
  end.

Definition pow10 (e : Z) : Q :=
  if (0 <=? e)%Z then inject_Z (10 ^ e) else Qinv (inject_Z (10 ^ (- e))).

(** Rust's [f64::from_str] without its sign: a mantissa and an optional
    exponent [(e|E)[+-]digits]. *)
Definition parse_ufloat (s : string) : option Q :=
  match split_at (fun c => Ascii.eqb c "e" || Ascii.eqb c "E") s with
  | (m, None) => parse_mantissa m
  | (m, Some e) =>
      match parse_mantissa m, parse_int e with
      | Some q, Some z => Some (Qmult q (pow10 z))
      | _, _ => None
      end
  end.

Definition parse_float (s : string) : option Q :=
  match s with
  | String "-" s' => Qopp <$> parse_ufloat s'
  | String "+" s' => parse_ufloat s'
  | _ => parse_ufloat s
  end.

(** Printing, as [str(n)] does: decimal digits, least significant first,
    with the binary size of [n] as fuel (a number has no more decimal
    than binary digits). *)
Fixpoint digits_rev (fuel : nat) (n : N) : list N :=
  match fuel with
  | O => [n]
  | S f => if (n <? 10)%N then [n] else (n mod 10)%N :: digits_rev f (n / 10)%N
  end.

Definition digit_char (d : N) : ascii := ascii_of_N (48 + d).

Definition print_uint (n : N) : string :=
  String.string_of_list_ascii (map digit_char (rev (digits_rev (N.to_nat (N.size n)) n))).

Definition print_int (z : Z) : string :=
  match z with
  | Zneg p => String "-" (print_uint (Npos p))
  | _ => print_uint (Z.to_N z)
  end.

(** ** Stripping *)

(** [s.lstrip(chars)]: the leading characters satisfying [f] removed. *)
Fixpoint lstrip_with (f : ascii -> bool) (s : string) : string :=
  match s with
  | EmptyString => EmptyString
  | String c s' => if f c then lstrip_with f s' else s
  end.

(** [s.rstrip(chars)]: the trailing characters satisfying [f] removed. *)
Fixpoint rstrip_with (f : ascii -> bool) (s : string) : string :=
  match s with
  | EmptyString => EmptyString
  | String c s' =>
      let r := rstrip_with f s' in
      if f c && String.eqb r "" then EmptyString else String c r
  end.

Definition strip_with (f : ascii -> bool) (s : string) : string := rstrip_with f (lstrip_with f s).

(** Rust's [char::is_whitespace] on ASCII: \t \n \v \f \r (9-13) and
    space. *)
Definition rust_space (c : ascii) : bool :=
  let n := nat_of_ascii c in
  ((9 <=? n)%nat && (n <=? 13)%nat) || (n =? 32)%nat.

(** [str::trim] *)
Definition trim (s : string) : string := strip_with rust_space s.

(** ** Pydantic's reading of a string as an int

    pydantic-core's [str_as_int] (src/input/shared.rs): the trimmed
    string is rejected with [int_parsing_size] beyond 4300 characters;
    it is read as [[+-]digits] ([_parse_str]); failing that, when all
    that follows its first ['.'] is zeros, the part before the point is
    read ([strip_decimal_zeros]); failing that, unless it starts or
    ends with ['_'], it is read with its underscores removed
    ([strip_underscores]). *)
Fixpoint strip_decimal_zeros (s : string) : option string :=
  match s with
  | EmptyString => None
  | String c s' =>
      if Ascii.eqb c "." then
        if forallb (fun c' => Ascii.eqb c' "0") (String.list_ascii_of_string s') then Some EmptyString else None
      else String c <$> strip_decimal_zeros s'
  end.

Definition is_underscore (c : ascii) : bool := Ascii.eqb c "_".

Definition strip_underscores (s : string) : option string :=
  let l := String.list_ascii_of_string s in
  if existsb is_underscore (option_list (head l)) || existsb is_underscore (option_list (last l))
  then None
  else Some (String.string_of_list_ascii (List.filter (fun c => negb (is_underscore c)) l)).

Definition int_parsed (o : option Z) : result err_type Z :=
  match o with
  | Some z => Ok z
  | None => Err IntParsing
  end.

Definition str_as_int (s : string) : result err_type Z :=
  let t := trim s in
  if (4300 <? String.length t)%nat then Err IntParsingSize else
  match parse_int t with
  | Some z => Ok z
  | None =>
      match strip_decimal_zeros t with
      | Some t' => int_parsed (parse_int t')
      | None =>
          match strip_underscores t with
          | Some t' => int_parsed (parse_int t')
          | None => Err IntParsing
          end
      end
  end.

(** ** Coercions, one per field type *)

Definition coerce_str (loc : list loc_part) (v : pyval) : vres string :=
  match v with
  | VStr s => Ok s
  | _ => ferr loc StringType
  end.

Definition coerce_opt_str (loc : list loc_part) (v : pyval) : vres (option string) :=
  match v with
  | VNone => Ok None
  | _ => rmap Some (coerce_str loc v)
  end.

Definition coerce_int (loc : list loc_part) (v : pyval) : vres Z :=
  match v with
  | VInt z => Ok z
  | VBool b => Ok (if b then 1 else 0)%Z
  | VFloat q =>
      if Z.eqb (Z.modulo (Qnum q) (Zpos (Qden q))) 0
      then Ok (Z.div (Qnum q) (Zpos (Qden q)))
      else ferr loc IntFromFloat
  | VStr s =>
      match str_as_int s with
      | Ok z => Ok z
      | Err t => ferr loc t
      end
  | _ => ferr loc IntType
  end.

Definition coerce_float (loc : list loc_part) (v : pyval) : vres Q :=
  match v with
  | VFloat q => Ok q
  | VInt z => Ok (inject_Z z)
  | VBool b => Ok (if b then 1 else 0)%Q
  | VStr s =>
      match parse_float (trim s) with
      | Some q => Ok q
      | None => ferr loc FloatParsing
      end
  | _ => ferr loc FloatType
  end.

Definition lower_ascii (c : ascii) : ascii :=
  let n := nat_of_ascii c in
  if (65 <=? n)%nat && (n <=? 90)%nat then ascii_of_nat (n + 32) else c.

Definition lower (s : string) : string :=
  String.string_of_list_ascii (map lower_ascii (String.list_ascii_of_string s)).

Definition true_strings : list string := ["1"; "on"; "t"; "true"; "y"; "yes"].
Definition false_strings : list string := ["0"; "off"; "f"; "false"; "n"; "no"].

Definition coerce_bool (loc : list loc_part) (v : pyval) : vres bool :=
  match v with
  | VBool b => Ok b
  | VInt 0 => Ok false
  | VInt 1 => Ok true
  | VInt _ => ferr loc BoolParsing
  | VFloat q =>
      if Qeq_bool q 0 then Ok false
      else if Qeq_bool q 1 then Ok true
      else ferr loc BoolParsing
  | VStr s =>
      let s' := lower s in
      if existsb (String.eqb s') true_strings then Ok true
      else if existsb (String.eqb s') false_strings then Ok false
      else ferr loc BoolParsing
  | _ => ferr loc BoolType
  end.

(** Items are validated one by one and every failing index is reported. *)
Fixpoint coerce_items {A} (co : list loc_part -> pyval -> vres A)
    (loc : list loc_part) (i : nat) (vs : list pyval) : vres (list A) :=
  match vs with
  | [] => Ok []
  | v :: vs' => Ok cons <**> co (loc ++ [LIdx i]) v <**> coerce_items co loc (S i) vs'
  end.

Definition coerce_str_list (loc : list loc_part) (v : pyval) : vres (list string) :=
  match v with
  | VList vs => coerce_items coerce_str loc 0 vs
  | _ => ferr loc ListType
  end.

(** [Field(ge=lo)] and [Field(le=hi)] *)
Definition check_ge_Z (loc : list loc_part) (lo z : Z) : vres Z :=
  if Z.leb lo z then Ok z else ferr loc GreaterThanEqual.

Definition check_ge_Q (loc : list loc_part) (lo q : Q) : vres Q :=
  if Qle_bool lo q then Ok q else ferr loc GreaterThanEqual.

Definition check_le_Q (loc : list loc_part) (hi q : Q) : vres Q :=
  if Qle_bool q hi then Ok q else ferr loc LessThanEqual.

(** A declared field read from the keyword arguments: present, it is
    coerced; absent, it takes its default, or is reported missing when
    the field is required ([Field(...)] or no default). *)
Definition field {A} (d : document) (k : string) (dflt : option A)
    (co : list loc_part -> pyval -> vres A) : vres A :=
  match dict_get k d with
  | Some v => co [LKey k] v
  | None =>
      match dflt with
      | Some a => Ok a
      | None => ferr [LKey k] Missing
      end
  end.

(** The value of a digit list, least significant first. *)
Definition digits_value (ds : list N) : N :=
  fold_right (fun d acc => 10 * acc + d)%N 0%N ds.

(** How [model_dump] writes an [Optional[str]]. *)
Definition opt_str_val (o : option string) : pyval :=
  match o with
  | Some s => VStr s
  | None => VNone
  end.

(** ** Lemmas: numerals *)


Lemma digits_rev_spec fuel n :
  (n < 2 ^ N.of_nat fuel)%N ->
  Forall (fun d => d < 10)%N (digits_rev fuel n) /\ digits_value (digits_rev fuel n) = n.
Proof.
  revert n. induction fuel as [|f IH]; intros n Hn; cbn [digits_rev].
  - cbn in Hn. split; [constructor; [lia|constructor] | cbn; lia].
  - destruct (N.ltb_spec n 10).
    + split; [constructor; [lia|constructor] | cbn; lia].
    + rewrite Nat2N.inj_succ, N.pow_succ_r' in Hn.
      destruct (IH (n / 10)%N) as [Hd Hv].
      { generalize dependent (2 ^ N.of_nat f)%N. intros P HP. lia. }
      split; [constructor; [lia|done]|].
      change (10 * digits_value (digits_rev f (n / 10)) + n mod 10 = n)%N.
      rewrite Hv. lia.
Qed.

(** A goal about one decimal digit [d < 10], checked digit by digit. *)
Ltac digit_cases Hd :=
  match type of Hd with
  | (?d < 10)%N =>
      let Hc := fresh "Hc" in
      assert (d = 0 \/ d = 1 \/ d = 2 \/ d = 3 \/ d = 4 \/ d = 5 \/ d = 6 \/ d = 7
              \/ d = 8 \/ d = 9)%N as Hc by lia;
      repeat destruct Hc as [-> | Hc]; try reflexivity; subst; reflexivity
  end.

Lemma digit_val_char d : (d < 10)%N -> digit_val (digit_char d) = Some (Z.of_N d).
Proof. intros Hd. digit_cases Hd. Qed.

Lemma parse_digits_chars acc ds :
  Forall (fun d => d < 10)%N ds ->
  parse_digits acc (String.string_of_list_ascii (map digit_char ds))
  = Some (fold_left (fun a d => 10 * a + Z.of_N d)%Z ds acc).
Proof.
  revert acc. induction ds as [|d ds IH]; intros acc Hds; [done|].
  inversion Hds; subst. cbn. rewrite digit_val_char by done. by apply IH.
Qed.

Lemma fold_left_digits_rev ds :
  fold_left (fun a d => 10 * a + Z.of_N d)%Z (rev ds) 0%Z = Z.of_N (digits_value ds).
Proof.
  induction ds as [|d ds IH]; [done|].
  cbn [rev]. rewrite fold_left_app, IH. cbn [fold_left].
  change (digits_value (d :: ds)) with (10 * digits_value ds + d)%N. lia.
Qed.

(** The printed digits, most significant first. *)
Lemma print_uint_digits n :
  exists ds, Forall (fun d => d < 10)%N ds /\ ds <> [] /\
    print_uint n = String.string_of_list_ascii (map digit_char ds) /\
    fold_left (fun a d => 10 * a + Z.of_N d)%Z ds 0%Z = Z.of_N n.
Proof.
  destruct (digits_rev_spec (N.to_nat (N.size n)) n) as [Hd Hv].
  { rewrite N2Nat.id. apply N.size_gt. }
  exists (rev (digits_rev (N.to_nat (N.size n)) n)). split_and!.
  - by apply Forall_rev.
  - destruct (N.to_nat (N.size n)); cbn; [done|].
    destruct (N.ltb n 10); cbn; [done|]. intros ?%app_eq_nil. naive_solver.
  - done.
  - by rewrite fold_left_digits_rev, Hv.
Qed.

(** A string that starts with a digit has no sign to read. *)
Lemma parse_int_digit_head d s :
  (d < 10)%N -> parse_int (String (digit_char d) s) = parse_uint (String (digit_char d) s).
Proof.
  intros Hd. digit_cases Hd.
Qed.

Lemma parse_uint_print n : parse_uint (print_uint n) = Some (Z.of_N n).
Proof.
  destruct (print_uint_digits n) as (ds & Hd & Hne & -> & Hv).
  destruct ds as [|d ds]; [done|]. cbn [map String.string_of_list_ascii].
  unfold parse_uint. rewrite <- Hv.
  change (String (digit_char d) (String.string_of_list_ascii (map digit_char ds)))
    with (String.string_of_list_ascii (map digit_char (d :: ds))).
  by apply parse_digits_chars.
Qed.

(** [int(str(z)) == z]: the decimal form of every integer parses back
    to it. *)
Theorem parse_int_print_int z : parse_int (print_int z) = Some z.
Proof.
  destruct z as [|p|p]; cbn [print_int].
  - reflexivity.
  - destruct (print_uint_digits (Z.to_N (Zpos p))) as (ds & Hd & Hne & Hs & _).
    destruct ds as [|d ds]; [done|]. inversion Hd; subst.
    transitivity (parse_uint (print_uint (Z.to_N (Zpos p)))); [|by rewrite parse_uint_print].
    rewrite Hs. cbn [map String.string_of_list_ascii]. by apply parse_int_digit_head.
  - cbn [parse_int]. by rewrite parse_uint_print.
Qed.

Lemma parse_int_cons c s :
  parse_int (String c s) =
  if Ascii.eqb c "-" then Z.opp <$> parse_uint s
  else if Ascii.eqb c "+" then parse_uint s else parse_uint (String c s).
Proof. destruct c as [[] [] [] [] [] [] [] []]; reflexivity. Qed.

(** ** Lemmas: stripping *)

Lemma append_empty_r s : s +:+ "" = s.
Proof. induction s as [|c s IH]; [done|]. change (String c (s +:+ "") = String c s). by rewrite IH. Qed.

Section Strip.
Variable f : ascii -> bool.

Lemma lstrip_with_all ws s :
  forallb f (String.list_ascii_of_string ws) = true -> lstrip_with f (ws +:+ s) = lstrip_with f s.
Proof.
  induction ws as [|c ws IH]; [done|]. cbn [String.list_ascii_of_string forallb].
  intros [Hc Hws]%andb_prop. simpl. rewrite Hc. by apply IH.
Qed.

Lemma rstrip_with_all ws : forallb f (String.list_ascii_of_string ws) = true -> rstrip_with f ws = "".
Proof.
  induction ws as [|c ws IH]; [done|]. cbn [String.list_ascii_of_string forallb].
  intros [Hc Hws]%andb_prop. cbn [rstrip_with]. by rewrite IH, Hc.
Qed.

Lemma rstrip_with_pad x ws :
  forallb (fun c => negb (f c)) (String.list_ascii_of_string x) = true ->
  forallb f (String.list_ascii_of_string ws) = true -> rstrip_with f (x +:+ ws) = x.
Proof.
  induction x as [|c x IH]; intros Hx Hws; [by apply rstrip_with_all|].
  cbn [String.list_ascii_of_string forallb] in Hx.
  apply andb_prop in Hx as [Hc Hx]. apply negb_true_iff in Hc.
  simpl. rewrite IH, Hc; done.
Qed.

(** Stripping removes exactly the padding of a word. *)
Lemma strip_with_pad ws x ws' :
  forallb f (String.list_ascii_of_string ws) = true -> forallb f (String.list_ascii_of_string ws') = true ->
  forallb (fun c => negb (f c)) (String.list_ascii_of_string x) = true -> x <> "" ->
  strip_with f (ws +:+ x +:+ ws') = x.
Proof.
  intros Hws Hws' Hx Hne. unfold strip_with. rewrite lstrip_with_all by done.
  destruct x as [|c x]; [done|]. pose proof Hx as Hx'.
  cbn [String.list_ascii_of_string forallb] in Hx'.
  apply andb_prop in Hx' as [Hc _]. apply negb_true_iff in Hc.
  simpl. rewrite Hc. by apply (rstrip_with_pad (String c x)).
Qed.

Lemma strip_with_sub s : chars_in (strip_with f s) s.
Proof.
  unfold strip_with, chars_in. intros c Hc.
  assert (Hr : forall t, chars_in (rstrip_with f t) t).
  { induction t as [|c' t IH]; intros c0; [done|]. cbn [rstrip_with].
    destruct (f c' && String.eqb (rstrip_with f t) ""); [cbn; set_solver|].
    cbn [String.list_ascii_of_string]. rewrite !elem_of_cons. naive_solver. }
  apply Hr in Hc. clear Hr. revert Hc. induction s as [|c' s IH]; [done|].
  cbn [lstrip_with]. destruct (f c'); [|done]. intros Hc. right. by apply IH.
Qed.

Lemma strip_with_length s : String.length (strip_with f s) <= String.length s.
Proof.
  unfold strip_with.
  assert (Hr : forall t, String.length (rstrip_with f t) <= String.length t).
  { induction t as [|c t IH]; [done|]. cbn [rstrip_with].
    destruct (f c && String.eqb (rstrip_with f t) ""); cbn; lia. }
  etrans; [apply Hr|]. clear Hr. induction s as [|c s IH]; [done|]. cbn [lstrip_with].
  destruct (f c); cbn; lia.
Qed.
End Strip.

Lemma print_int_chars (f : ascii -> bool) z :
  f "-"%char = true -> (forall d, (d < 10)%N -> f (digit_char d) = true) ->
  forallb f (String.list_ascii_of_string (print_int z)) = true /\ print_int z <> "".
Proof.
  intros Hm Hd.
  assert (Hu : forall n, forallb f (String.list_ascii_of_string (print_uint n)) = true /\ print_uint n <> "").
  { intros n. destruct (print_uint_digits n) as (ds & Hds & Hne & -> & _).
    rewrite String.list_ascii_of_string_of_list_ascii. split.
    - apply forallb_forall. intros c (d & -> & Hin)%list_elem_of_In%list_elem_of_fmap.
      apply Hd. rewrite Forall_forall in Hds. by apply Hds.
    - destruct ds; [done|]. discriminate. }
  destruct z as [|p|p]; cbn [print_int]; [apply Hu|apply Hu|].
  cbn [String.list_ascii_of_string forallb]. rewrite Hm. split; [apply Hu|discriminate].
Qed.

(** ** Lemmas: Pydantic's [str_as_int] *)

(** [str(z)], padded with whitespace and at most 4300 characters long,
    is read back as [z]. *)
Lemma str_as_int_print ws z ws' :
  forallb rust_space (String.list_ascii_of_string ws) = true ->
  forallb rust_space (String.list_ascii_of_string ws') = true ->
  (String.length (print_int z) <= 4300)%nat ->
  str_as_int (ws +:+ print_int z +:+ ws') = Ok z.
Proof.
  intros Hws Hws' Hlen.
  destruct (print_int_chars (fun c => negb (rust_space c)) z) as [Hns Hne];
    [done|intros d Hd; digit_cases Hd|].
  unfold str_as_int, trim. rewrite strip_with_pad by done.
  destruct (Nat.ltb_spec 4300 (String.length (print_int z))); [lia|].
  by rewrite parse_int_print_int.
Qed.

Lemma has_digit_sub a b : has_digit a = true -> chars_in a b -> has_digit b = true.
Proof.
  unfold has_digit, chars_in. rewrite !existsb_exists.
  intros (c & Hc & Hd) Hab. exists c. split; [|done]. apply list_elem_of_In, Hab, list_elem_of_In, Hc.
Qed.

Lemma parse_uint_digit s z : parse_uint s = Some z -> has_digit s = true.
Proof.
  destruct s as [|c s]; [discriminate|]. cbn [parse_uint parse_digits].
  unfold has_digit, is_digit. cbn [String.list_ascii_of_string existsb].
  destruct (digit_val c); [done|discriminate].
Qed.

(** A string [str_as_int] accepts has a digit. *)
Lemma parse_int_digit s z : parse_int s = Some z -> has_digit s = true.
Proof.
  destruct s as [|c s]; [discriminate|]. rewrite parse_int_cons.
  assert (Hs : has_digit s = true -> has_digit (String c s) = true)
    by (unfold has_digit; cbn; intros ->; apply orb_true_r).
  destruct (Ascii.eqb c "-"); [|destruct (Ascii.eqb c "+")].
  - destruct (parse_uint s) eqn:E; [|discriminate]. intros _. eapply Hs, parse_uint_digit, E.
  - intros E. eapply Hs, parse_uint_digit, E.
  - apply parse_uint_digit.
Qed.

Lemma strip_decimal_zeros_sub s t : strip_decimal_zeros s = Some t -> chars_in t s.
Proof.
  revert t. induction s as [|c s IH]; intros t; [discriminate|]. cbn [strip_decimal_zeros].
  destruct (Ascii.eqb c ".").
  { destruct (forallb _ _); [|discriminate]. intros [= <-] ? Hc. by apply elem_of_nil in Hc. }
  destruct (strip_decimal_zeros s) as [t'|] eqn:E; [|discriminate]. intros [= <-] c' Hc.
  cbn [String.list_ascii_of_string] in *. apply elem_of_cons in Hc as [->|Hc]; [left|right]. by apply (IH t').
Qed.

Lemma strip_underscores_sub s t : strip_underscores s = Some t -> chars_in t s.
Proof.
  unfold strip_underscores. destruct (_ || _); [discriminate|]. intros [= <-] c.
  rewrite String.list_ascii_of_string_of_list_ascii, !list_elem_of_In, filter_In. naive_solver.
Qed.

Lemma int_parsed_digit t z : int_parsed (parse_int t) = Ok z -> has_digit t = true.
Proof. unfold int_parsed. destruct (parse_int t) eqn:E; [intros _; by eapply parse_int_digit|discriminate]. Qed.

Lemma str_as_int_digit s z : str_as_int s = Ok z -> has_digit s = true.
Proof.
  intros E. apply (has_digit_sub (trim s)); [|apply strip_with_sub]. revert E. unfold str_as_int.
  destruct (_ <? _)%nat; [discriminate|].
  destruct (parse_int (trim s)) eqn:E1; [intros _; by eapply parse_int_digit|].
  destruct (strip_decimal_zeros (trim s)) as [t|] eqn:E2.
  - intros E. eapply has_digit_sub; [by eapply int_parsed_digit|by apply strip_decimal_zeros_sub].
  - destruct (strip_underscores (trim s)) as [t|] eqn:E3; [|discriminate].
    intros E. eapply has_digit_sub; [by eapply int_parsed_digit|by apply strip_underscores_sub].
Qed.

(** A string of at most 4300 characters without a digit is an
    [int_parsing] error. *)
Lemma str_as_int_no_digit s :
  has_digit s = false -> (String.length s <= 4300)%nat -> str_as_int s = Err IntParsing.
Proof.
  intros Hd Hlen. destruct (str_as_int s) as [z|t] eqn:E.
  { apply str_as_int_digit in E. congruence. }
  revert E. unfold str_as_int. pose proof (strip_with_length rust_space s) as Ht. fold (trim s) in Ht.
  destruct (Nat.ltb_spec 4300 (String.length (trim s))); [lia|].
  destruct (parse_int (trim s)); [discriminate|].
  destruct (strip_decimal_zeros (trim s)); [unfold int_parsed; destruct (parse_int _); congruence|].
  destruct (strip_underscores (trim s)); [unfold int_parsed; destruct (parse_int _)|]; congruence.
Qed.

Lemma existsb_eqb_elem x l : existsb (String.eqb x) l = true <-> x ∈ l.
Proof.
  rewrite existsb_exists. split.
  - intros (y & Hy & ->%String.eqb_eq). by apply list_elem_of_In.
  - intros Hx. exists x. split; [by apply list_elem_of_In|apply String.eqb_refl].
Qed.

(** ** Lemmas: coercions of the values [model_dump] produces *)


Lemma coerce_opt_str_val loc o : coerce_opt_str loc (opt_str_val o) = Ok o.
Proof. by destruct o. Qed.

Lemma coerce_items_str loc i l :
  coerce_items coerce_str loc i (map VStr l) = Ok l.
Proof. revert i. induction l as [|s l IH]; intros i; cbn; [done|]. by rewrite IH. Qed.

Lemma coerce_str_list_val loc l : coerce_str_list loc (VList (map VStr l)) = Ok l.
Proof. apply coerce_items_str. Qed.

Lemma check_ge_Z_Ok loc lo z z' : check_ge_Z loc lo z = Ok z' <-> (lo <= z)%Z /\ z' = z.
Proof. unfold check_ge_Z. destruct (Z.leb_spec lo z); split; naive_solver lia. Qed.

Lemma Qle_bool_false x y : (y < x)%Q -> Qle_bool x y = false.
Proof.
  intros H. destruct (Qle_bool x y) eqn:E; [|done].
  apply Qle_bool_iff in E. exfalso. by apply (Qlt_not_le y x).
Qed.

Lemma check_ge_Q_Ok loc lo q q' : check_ge_Q loc lo q = Ok q' <-> (lo <= q)%Q /\ q' = q.
Proof.
  unfold check_ge_Q. destruct (Qle_bool lo q) eqn:E.
  - apply Qle_bool_iff in E. naive_solver.
  - split; [discriminate|]. intros [H%Qle_bool_iff _]. congruence.
Qed.

Lemma check_le_Q_Ok loc hi q q' : check_le_Q loc hi q = Ok q' <-> (q <= hi)%Q /\ q' = q.
Proof.
  unfold check_le_Q. destruct (Qle_bool q hi) eqn:E.
  - apply Qle_bool_iff in E. naive_solver.
  - split; [discriminate|]. intros [H%Qle_bool_iff _]. congruence.
Qed.

Lemma field_present {A} d k dflt (co : list loc_part -> pyval -> vres A) v :
  dict_get k d = Some v -> field d k dflt co = co [LKey k] v.
Proof. unfold field. by intros ->. Qed.

Lemma field_absent {A} d k (dflt : option A) co :
  dict_get k d = None ->
  field d k dflt co = match dflt with Some a => Ok a | None => ferr [LKey k] Missing end.
Proof. unfold field. by intros ->. Qed.

#[export] Hint Rewrite coerce_opt_str_val coerce_str_list_val : ckx_rw.
