(* ===== verification/Schemas.v ===== *)
(** * The domain models of src/schemas.py

    One Module per Pydantic class: its Record (the declared fields in
    declaration order), the validator [validate] that models the
    constructor call [Cls( **d)] (fields read by name, each coerced by
    [Coerce], defaults for absent optional fields, every failing field
    reported), the serialiser [dump] that models [model_dump()], and the
    validity predicate [wf] that states the [Field] constraints. *)
From S2P Require Import Prelude Values Coerce.
Local Close Scope Q_scope.

(** [Field(..., ge=0)] on an int *)
Definition coerce_nonneg (loc : list loc_part) (v : pyval) : vres Z :=
  z <- coerce_int loc v ;; check_ge_Z loc 0 z.

(** The error a failing field reports surfaces in the validator's
    result, whatever the other fields do. *)
Ltac field_err solve :=
  repeat first [apply has_err_vap_r; solve | apply has_err_vap_l].

(** A declared field with a default keeps every property that the
    default and every coerced value have. *)
Lemma field_default_inv {A} (P : A -> Prop) d k (dflt : A) co a :
  P dflt -> (forall l v x, co l v = Ok x -> P x) ->
  field d k (Some dflt) co = Ok a -> P a.
Proof. unfold field. destruct (dict_get k d); [eauto | naive_solver]. Qed.

Lemma coerce_nonneg_Ok l v z : coerce_nonneg l v = Ok z -> (0 <= z)%Z.
Proof.
  unfold coerce_nonneg. destruct (coerce_int l v); cbn; [|discriminate].
  intros ?%check_ge_Z_Ok. lia.
Qed.

Lemma coerce_nonneg_VInt l z : (0 <= z)%Z -> coerce_nonneg l (VInt z) = Ok z.
Proof. intros Hz. apply check_ge_Z_Ok. lia. Qed.

Lemma field_nonneg_Ok d k z0 z :
  (0 <= z0)%Z -> field d k (Some z0) coerce_nonneg = Ok z -> (0 <= z)%Z.
Proof. intros H0. apply (field_default_inv (fun z => 0 <= z)%Z); eauto using coerce_nonneg_Ok. Qed.

(** Two documents that agree on the declared fields validate alike. *)
Lemma field_ext {A} d1 d2 k dflt (co : list loc_part -> pyval -> vres A) :
  dict_get k d1 = dict_get k d2 -> field d1 k dflt co = field d2 k dflt co.
Proof. unfold field. by intros ->. Qed.

Ltac unfold_fields :=
  lazymatch goal with |- ?x ∈ ?l => let l' := eval red in l in change (x ∈ l') end.

Ltac fields_ext Hext :=
  repeat match goal with
  | |- vap _ _ = vap _ _ => f_equal
  | |- field _ ?k _ _ = field _ ?k _ _ =>
      apply field_ext, Hext; unfold_fields; by repeat constructor
  end.

Module Pro.

(** class Pro(BaseModel), schemas.py lines 12-26 *)
Record t : Type := mk {
  name : string;
  avatar : option string;
  university : option string;
  department : option string;
  bio : option string;
  tags : list string;
  rating : Q;
  reviews : Z;
  verified : bool;
  karma_rate : Z
}.

Definition fields : list string :=
  ["name"; "avatar"; "university"; "department"; "bio"; "tags"; "rating";
   "reviews"; "verified"; "karma_rate"].

(** [rating: float = Field(4.5, ge=0, le=5)] *)
Definition coerce_rating (loc : list loc_part) (v : pyval) : vres Q :=
  q <- coerce_float loc v ;; q <- check_ge_Q loc 0 q ;; check_le_Q loc 5 q.

(** [Pro( **d)] *)
Definition validate (d : document) : vres t :=
  Ok mk
  <**> field d "name" None coerce_str
  <**> field d "avatar" (Some None) coerce_opt_str
  <**> field d "university" (Some None) coerce_opt_str
  <**> field d "department" (Some None) coerce_opt_str
  <**> field d "bio" (Some None) coerce_opt_str
  <**> field d "tags" (Some []) coerce_str_list
  <**> field d "rating" (Some (45 # 10)%Q) coerce_rating
  <**> field d "reviews" (Some 0%Z) coerce_nonneg
  <**> field d "verified" (Some false) coerce_bool
  <**> field d "karma_rate" (Some 10%Z) coerce_nonneg.

(** [p.model_dump()] *)
Definition dump (p : t) : document :=
  [("name", VStr (name p));
   ("avatar", opt_str_val (avatar p));
   ("university", opt_str_val (university p));
   ("department", opt_str_val (department p));
   ("bio", opt_str_val (bio p));
   ("tags", VList (map VStr (tags p)));
   ("rating", VFloat (rating p));
   ("reviews", VInt (reviews p));
   ("verified", VBool (verified p));
   ("karma_rate", VInt (karma_rate p))].

(** The [Field] constraints of the class. *)
Definition wf (p : t) : Prop :=
  (0 <= rating p <= 5)%Q /\ (0 <= reviews p)%Z /\ (0 <= karma_rate p)%Z.

Definition wfb (p : t) : bool :=
  Qle_bool 0 (rating p) && Qle_bool (rating p) 5 &&
  Z.leb 0 (reviews p) && Z.leb 0 (karma_rate p).


Lemma coerce_rating_VFloat l q : (0 <= q <= 5)%Q -> coerce_rating l (VFloat q) = Ok q.
Proof.
  intros [H0 H5]. unfold coerce_rating. cbn.
  rewrite (proj2 (check_ge_Q_Ok l 0 q q)) by done. cbn.
  by apply check_le_Q_Ok.
Qed.


Lemma validate_ext d1 d2 :
  (forall k, k ∈ fields -> dict_get k d1 = dict_get k d2) ->
  validate d1 = validate d2.
Proof. intros Hext. unfold validate. fields_ext Hext. Qed.

(** ** Properties *)


(** C6. [Pro( **p.model_dump())] gives back [p] for every valid [p]. *)
Theorem validate_dump p : wf p -> validate (dump p) = Ok p.
Proof.
  intros (Hr & Hv & Hk). destruct p; cbn in *. unfold validate, dump.
  cbn -[coerce_rating coerce_nonneg coerce_opt_str coerce_str_list opt_str_val].
  rewrite !coerce_opt_str_val, coerce_str_list_val, coerce_rating_VFloat,
    !coerce_nonneg_VInt by done.
  reflexivity.
Qed.

(** Validation ignores ["_id"]: stripping it (main.py line 94) does not
    change the outcome. *)
Theorem validate_strip_id d : validate (strip_id d) = validate d.
Proof.
  apply validate_ext. intros k Hk. apply strip_id_get.
  intros ->. revert Hk. not_in_literal.
Qed.

(** Only [name] is required; every other field takes its default. *)
Theorem validate_defaults n :
  validate [("name", VStr n)] =
  Ok (mk n None None None None [] (45 # 10)%Q 0%Z false 10%Z).
Proof. reflexivity. Qed.

(** [name] has no length constraint: the empty name is accepted. *)
Theorem validate_empty_name :
  exists p, validate [("name", VStr "")] = Ok p /\ name p = "".
Proof. by eexists. Qed.

(** C25. A rating given as a number is checked against both bounds of
    [Field(4.5, ge=0, le=5)]: below 0 it is rejected with
    [greater_than_equal], above 5 with [less_than_equal]; whenever the
    document is accepted, the profile's rating is that number and lies
    in [[0, 5]]; and every number of [[0, 5]], both bounds included, is
    accepted by the field as it is. *)
Theorem validate_rating_bounds d q :
  dict_get "rating" d = Some (VFloat q) ->
  ((q < 0)%Q -> has_err (FieldError [LKey "rating"] GreaterThanEqual) (validate d)) /\
  ((5 < q)%Q -> has_err (FieldError [LKey "rating"] LessThanEqual) (validate d)) /\
  (forall p, validate d = Ok p -> rating p = q /\ (0 <= q <= 5)%Q) /\
  ((0 <= q <= 5)%Q -> field d "rating" (Some (45 # 10)%Q) coerce_rating = Ok q).
Proof.
  intros Hd. split_and!.
  - intros Hq. unfold validate.
    field_err ltac:(rewrite (field_present _ _ _ _ _ Hd); unfold coerce_rating;
      cbn [coerce_float rbind]; unfold check_ge_Q; rewrite (Qle_bool_false 0 q) by done; cbn; by left).
  - intros Hq. unfold validate.
    assert (H0 : (0 <= q)%Q) by (apply Qlt_le_weak, Qle_lt_trans with 5%Q; [by apply Qle_bool_iff | exact Hq]).
    field_err ltac:(rewrite (field_present _ _ _ _ _ Hd); unfold coerce_rating; cbn [coerce_float rbind];
      rewrite (proj2 (check_ge_Q_Ok _ 0 q q)) by done; cbn [rbind];
      unfold check_le_Q; rewrite (Qle_bool_false q 5) by done; cbn; by left).
  - intros p H. unfold validate in H. vap_inv H. cbn.
    rewrite (field_present _ _ _ _ _ Hd) in *. unfold coerce_rating in *. cbn [coerce_float rbind] in *.
    match goal with E : rbind (check_ge_Q _ _ _) _ = Ok _ |- _ => apply rbind_Ok_iff in E as (q1 & E1 & E2) end.
    apply check_ge_Q_Ok in E1 as [? ->]. apply check_le_Q_Ok in E2 as [? ->]. done.
  - intros Hq. rewrite (field_present _ _ _ _ _ Hd). by apply coerce_rating_VFloat.
Qed.

(** A negative review count is rejected with [greater_than_equal]. *)
Theorem validate_reviews_neg d z :
  dict_get "reviews" d = Some (VInt z) -> (z < 0)%Z ->
  has_err (FieldError [LKey "reviews"] GreaterThanEqual) (validate d).
Proof.
  intros Hd Hz. unfold validate.
  field_err ltac:(rewrite (field_present _ _ _ _ _ Hd); unfold coerce_nonneg, check_ge_Z; cbn;
    destruct (Z.leb_spec 0 z); [lia | cbn; by left]).
Qed.

Lemma validate_name_absent d : dict_get "name" d = None -> exists es, validate d = Err es.
Proof.
  intros Hd. apply (has_err_Err (FieldError [LKey "name"] Missing)). unfold validate.
  field_err ltac:(rewrite (field_absent _ _ _ _ Hd); cbn; by left).
Qed.

(** C26. A document without ["name"] is rejected with [missing]. *)
Theorem validate_name_missing d :
  dict_get "name" d = None -> has_err (FieldError [LKey "name"] Missing) (validate d).
Proof.
  intros Hd. unfold validate.
  field_err ltac:(rewrite (field_absent _ _ _ _ Hd); cbn; by left).
Qed.

End Pro.

Module Skill.

(** class Skill(BaseModel), schemas.py lines 28-38 *)
Record t : Type := mk {
  title : string;
  category : string;
  level : string;
  description : option string;
  owner_name : option string;
  featured : bool
}.

Definition fields : list string :=
  ["title"; "category"; "level"; "description"; "owner_name"; "featured"].

(** [Skill( **d)] *)
Definition validate (d : document) : vres t :=
  Ok mk
  <**> field d "title" None coerce_str
  <**> field d "category" None coerce_str
  <**> field d "level" (Some "Beginner") coerce_str
  <**> field d "description" (Some None) coerce_opt_str
  <**> field d "owner_name" (Some None) coerce_opt_str
  <**> field d "featured" (Some false) coerce_bool.

(** [s.model_dump()] *)
Definition dump (s : t) : document :=
  [("title", VStr (title s));
   ("category", VStr (category s));
   ("level", VStr (level s));
   ("description", opt_str_val (description s));
   ("owner_name", opt_str_val (owner_name s));
   ("featured", VBool (featured s))].

Lemma skill_validate_ext d1 d2 :
  (forall k, k ∈ fields -> dict_get k d1 = dict_get k d2) ->
  validate d1 = validate d2.
Proof. intros Hext. unfold validate. fields_ext Hext. Qed.

(** [Skill] has no constraint: every skill round-trips. *)
Theorem skill_validate_dump s : validate (dump s) = Ok s.
Proof.
  destruct s; unfold validate, dump. cbn -[coerce_opt_str opt_str_val].
  by rewrite !coerce_opt_str_val.
Qed.

Theorem skill_validate_strip_id d : validate (strip_id d) = validate d.
Proof.
  apply skill_validate_ext. intros k Hk. apply strip_id_get.
  intros ->. revert Hk. not_in_literal.
Qed.

End Skill.

Module Request.

(** class Request(BaseModel), schemas.py lines 40-51 *)
Record t : Type := mk {
  title : string;
  details : option string;
  category : string;
  urgency : string;
  requester_name : option string;
  offered_karma : Z;
  status : string
}.

Definition fields : list string :=
  ["title"; "details"; "category"; "urgency"; "requester_name";
   "offered_karma"; "status"].

(** [Request( **d)] *)
Definition validate (d : document) : vres t :=
  Ok mk
  <**> field d "title" None coerce_str
  <**> field d "details" (Some None) coerce_opt_str
  <**> field d "category" None coerce_str
  <**> field d "urgency" (Some "Normal") coerce_str
  <**> field d "requester_name" (Some None) coerce_opt_str
  <**> field d "offered_karma" (Some 0%Z) coerce_nonneg
  <**> field d "status" (Some "open") coerce_str.

(** [r.model_dump()] *)
Definition dump (r : t) : document :=
  [("title", VStr (title r));
   ("details", opt_str_val (details r));
   ("category", VStr (category r));
   ("urgency", VStr (urgency r));
   ("requester_name", opt_str_val (requester_name r));
   ("offered_karma", VInt (offered_karma r));
   ("status", VStr (status r))].

Definition wf (r : t) : Prop := (0 <= offered_karma r)%Z.

Lemma request_validate_ext d1 d2 :
  (forall k, k ∈ fields -> dict_get k d1 = dict_get k d2) ->
  validate d1 = validate d2.
Proof. intros Hext. unfold validate. fields_ext Hext. Qed.

Theorem request_validate_wf d r : validate d = Ok r -> wf r.
Proof.
  intros H. unfold validate in H. vap_inv H. unfold wf; cbn.
  eapply field_nonneg_Ok; [|eassumption]. lia.
Qed.

Theorem request_validate_dump r : wf r -> validate (dump r) = Ok r.
Proof.
  intros Hk. destruct r; cbn in *. unfold validate, dump.
  cbn -[coerce_nonneg coerce_opt_str opt_str_val].
  by rewrite !coerce_opt_str_val, coerce_nonneg_VInt.
Qed.

Theorem request_validate_strip_id d : validate (strip_id d) = validate d.
Proof.
  apply request_validate_ext. intros k Hk. apply strip_id_get.
  intros ->. revert Hk. not_in_literal.
Qed.

(** The lifecycle of [status] ("open", "in_progress", "completed") is
    advisory only: the model accepts any string. *)
Theorem request_validate_status_any d s :
  dict_get "status" d = Some (VStr s) ->
  (exists r, validate d = Ok r) -> exists r, validate d = Ok r /\ status r = s.
Proof.
  intros Hs [r Hr]. exists r. split; [done|].
  unfold validate in Hr. vap_inv Hr. cbn.
  rewrite (field_present _ _ _ _ _ Hs) in *. cbn in *. by inv_res.
Qed.

End Request.

Module User.

(** class User(BaseModel), schemas.py lines 54-59.  [EmailStr] is
    checked by the [email_validator] library, which returns the
    normalised address or rejects the input: it is a parameter
    [email_check] of this section. *)
Section WithEmail.
Variable email_check : string -> option string.

Record t : Type := mk {
  name : string;
  email : string;
  university : option string;
  karma_balance : Z;
  is_active : bool
}.

Definition coerce_email (loc : list loc_part) (v : pyval) : vres string :=
  s <- coerce_str loc v ;;
  match email_check s with
  | Some e => Ok e
  | None => ferr loc ValueError
  end.

(** [User( **d)] *)
Definition validate (d : document) : vres t :=
  Ok mk
  <**> field d "name" None coerce_str
  <**> field d "email" None coerce_email
  <**> field d "university" (Some None) coerce_opt_str
  <**> field d "karma_balance" (Some 0%Z) coerce_nonneg
  <**> field d "is_active" (Some true) coerce_bool.

Definition wf (u : t) : Prop := (0 <= karma_balance u)%Z.

Theorem user_validate_wf d u : validate d = Ok u -> wf u.
Proof.
  intros H. unfold validate in H. vap_inv H. unfold wf; cbn.
  eapply field_nonneg_Ok; [|eassumption]. lia.
Qed.

(** The stored address is the one the email validator returned. *)
Theorem user_validate_email d u :
  validate d = Ok u -> exists s, dict_get "email" d = Some (VStr s) /\ email_check s = Some (email u).
Proof.
  intros H. unfold validate in H. vap_inv H. cbn. unfold field in *.
  destruct (dict_get "email" d) as [[]|]; cbn in *; inv_res; try discriminate.
  exists s. destruct (email_check s); inv_res; done.
Qed.
End WithEmail.

End User.
