(* ===== verification/Store.v ===== *)
(** * The document store

    - [DocStore]: the MongoDB operations main.py and database.py use
      through the [db] handle ([count_documents], [insert_one], [find],
      [list_collection_names]), with an abstract view [coll s c] of the
      documents collection [c] holds, in natural order.
    - [DocStoreCore], [DocStoreLaws], [DocStoreAnyOrder]: what the store
      promises the API layer, without a promise on the order of [find],
      with insertion order, and with any order; the API's theorems are
      proved against these classes only.
    - [create_document], [get_documents]: the adapter functions of
      database.py (not under src/: modelled from spec section 4.1).
    - [MemStore]: an in-memory store (a gmap from collection names to
      document lists, and an ObjectId counter) that discharges the laws,
      and the invariant that store-assigned ids are unique.
    - [RevStore]: the same store answering [find] newest first, which
      satisfies [DocStoreAnyOrder] but not [DocStoreLaws].

    Exceptions are values of [exn]. *)
From S2P Require Import Prelude Values Coerce.
Local Close Scope Q_scope.

Inductive exn : Type :=
  | ValidationError (model : string) (errs : list field_error)
  | StoreError (msg : string)
  | ServerError (msg : string)
  | HTTPException (status : Z) (detail : string).

Abbreviation res A := (result exn A).

(** The process environment read by database.py at startup and by
    [test_database]. *)
Record env : Type := Env {
  DATABASE_URL : option string;
  DATABASE_NAME : option string
}.

(** database.py creates the client only when both values are set. *)
Definition configured (e : env) : bool :=
  truthy_env (DATABASE_URL e) && truthy_env (DATABASE_NAME e).

Class DocStore (S : Type) : Type := {
  db_ready : S -> bool;
  db_live : S -> bool;
  coll : S -> string -> list document;
  list_collection_names : S -> res (list string);
  count_documents : string -> S -> res nat;
  insert_one : string -> document -> S -> res (document * S);
  find : string -> filter_doc -> Z -> S -> res (list document)
}.

Definition unreachable {A} (r : res A) : Prop :=
  exists m, r = Err (ServerError m).

(** What the store promises the API layer, except the order [find]
    returns its results in. *)
Class DocStoreCore (S : Type) `{DocStore S} : Prop := {
  count_live s c :
    db_ready s = true -> db_live s = true -> count_documents c s = Ok (length (coll s c));
  count_down s c : db_live s = false -> unreachable (count_documents c s);
  insert_live s c d :
    db_ready s = true -> db_live s = true -> "_id" ∉ keys d ->
    exists oid s', insert_one c d s = Ok (("_id", VOid oid) :: d, s') /\
      coll s' c = coll s c ++ [("_id", VOid oid) :: d] /\
      (forall c', c' <> c -> coll s' c' = coll s c') /\
      db_ready s' = db_ready s /\ db_live s' = db_live s;
  insert_effect s c d d' s' :
    insert_one c d s = Ok (d', s') ->
    coll s' c = coll s c ++ [d'] /\ (forall c', c' <> c -> coll s' c' = coll s c') /\
    db_ready s' = db_ready s /\ db_live s' = db_live s;
  insert_down s c d : db_live s = false -> unreachable (insert_one c d s);
  find_down s c f lim : db_live s = false -> unreachable (find c f lim s);
  names_live s :
    db_ready s = true -> db_live s = true ->
    exists l, list_collection_names s = Ok l /\ (forall c, c ∈ l <-> coll s c <> []);
  names_down s : db_live s = false -> unreachable (list_collection_names s)
}.

(** [find] in insertion order: MongoDB's natural order on a collection
    that is only ever appended to, as in this service. *)
Class DocStoreLaws (S : Type) `{DocStore S} : Prop := {
  laws_core :: DocStoreCore S;
  find_live s c f lim :
    db_ready s = true -> db_live s = true ->
    find c f lim s = Ok (take (Z.to_nat lim) (filter (fun d => doc_matches f d = true) (coll s c)))
}.

(** Spec section 4.1 read literally: up to [limit] matching documents "in
    store-native order (insertion order in practice, not contractually
    guaranteed)": [min(limit, matches)] of them, in an order the store
    chooses. *)
Class DocStoreAnyOrder (S : Type) `{DocStore S} : Prop := {
  any_core :: DocStoreCore S;
  find_any s c f lim :
    db_ready s = true -> db_live s = true ->
    exists l, find c f lim s = Ok l /\
      l ⊆+ filter (fun d => doc_matches f d = true) (coll s c) /\
      length l = Nat.min (Z.to_nat lim) (length (filter (fun d => doc_matches f d = true) (coll s c)))
}.

(** Refinement of the contract: insertion order is one of the orders the
    spec allows. *)
#[global] Instance laws_any_order {S} `{DocStoreLaws S} : DocStoreAnyOrder S.
Proof.
  split; [exact _|]. intros s c f lim Hr Hl. rewrite find_live by done.
  eexists. split; [reflexivity|]. split; [|apply length_take].
  apply sublist_submseteq, sublist_take.
Qed.

Section Adapter.
Context {S : Type} `{DocStore S}.

Definition not_configured : exn :=
  StoreError "Database not available. Check DATABASE_URL and DATABASE_NAME environment variables".

(** [create_document(collection_name, data)]: [data.model_dump()] is
    inserted; the store assigns the ["_id"]. *)
Definition create_document (c : string) (data : document) (s : S) : res (document * S) :=
  if db_ready s then insert_one c data s else Err not_configured.

(** [get_documents(collection_name, filter_dict, limit)] *)
Definition get_documents (c : string) (f : filter_doc) (lim : Z) (s : S) : res (list document) :=
  if db_ready s then find c f lim s else Err not_configured.
End Adapter.

(** ** An in-memory MongoDB *)

Module MemStore.

Record t : Type := MStore {
  ms_ready : bool;
  ms_live : bool;
  ms_colls : gmap string (list document);
  ms_next : N
}.

Definition down_msg : string := "ServerSelectionTimeoutError".

Definition get (s : t) (c : string) : list document :=
  default [] (ms_colls s !! c).

(** The client database.py opens at startup. *)
Definition connect (e : env) : t := MStore (configured e) true ∅ 0%N.

Definition with_colls (s : t) (m : gmap string (list document)) (n : N) : t :=
  MStore (ms_ready s) (ms_live s) m n.

Definition names (s : t) : list string :=
  map fst (filter (fun kv => kv.2 <> []) (map_to_list (ms_colls s))).

#[global] Instance mem_store : DocStore t := {
  db_ready := ms_ready;
  db_live := ms_live;
  coll := get;
  list_collection_names s :=
    if ms_live s then Ok (names s) else Err (ServerError down_msg);
  count_documents c s :=
    if ms_live s then Ok (length (get s c)) else Err (ServerError down_msg);
  insert_one c d s :=
    if ms_live s then
      let d' := ("_id", VOid (ms_next s)) :: d in
      Ok (d', with_colls s (<[c := get s c ++ [d']]> (ms_colls s)) (N.succ (ms_next s)))
    else Err (ServerError down_msg);
  find c f lim s :=
    if ms_live s
    then Ok (take (Z.to_nat lim) (filter (fun d => doc_matches f d = true) (get s c)))
    else Err (ServerError down_msg)
}.

(** The ObjectId a stored document carries. *)
Definition oid_of (d : document) : option N :=
  match dict_get "_id" d with Some (VOid o) => Some o | _ => None end.

(** Every stored document carries a store-assigned id; within a
    collection these ids are distinct and below the counter. *)
Definition ids_wf (s : t) : Prop :=
  forall c, exists os, map oid_of (get s c) = map Some os /\ NoDup os /\
    Forall (fun o => (o < ms_next s)%N) os.

(** The states the client reaches from [connect] through [insert_one];
    the other operations leave the state unchanged. *)
Inductive reach : t -> Prop :=
  | reach_connect e : reach (connect e)
  | reach_insert s c d d' s' : reach s -> insert_one c d s = Ok (d', s') -> reach s'.

Lemma names_spec s c : c ∈ names s <-> get s c <> [].
Proof.
  unfold names, get. rewrite list_elem_of_fmap. split.
  - intros ([c' l] & -> & Hin). apply list_elem_of_filter in Hin as [Hne Hin].
    apply elem_of_map_to_list in Hin. cbn in *. by rewrite Hin.
  - destruct (ms_colls s !! c) as [l|] eqn:Hc; cbn; [|done]. intros Hne.
    exists (c, l). split; [done|]. apply list_elem_of_filter. split; [done|].
    by apply elem_of_map_to_list.
Qed.

Lemma get_insert_eq s c l : get (with_colls s (<[c := l]> (ms_colls s)) (N.succ (ms_next s))) c = l.
Proof. unfold get. cbn. by rewrite lookup_insert_eq. Qed.

Lemma get_insert_ne s c c' l n :
  c' <> c -> get (with_colls s (<[c := l]> (ms_colls s)) n) c' = get s c'.
Proof. intros Hne. unfold get. cbn. by rewrite lookup_insert_ne. Qed.

(** The in-memory store implements the interface. *)
#[global] Instance mem_store_core : DocStoreCore t.
Proof.
  split; cbn; intros s; unfold unreachable.
  - intros c _ ->. done.
  - intros c ->. eauto.
  - intros c d _ Hl _. rewrite Hl. eexists _, _. split; [reflexivity|].
    split; [apply get_insert_eq|]. split; [|done].
    intros c' Hne. by apply get_insert_ne.
  - intros c d d' s'. destruct (ms_live s) eqn:Hl; [|discriminate]. intros [= <- <-].
    split; [apply get_insert_eq|]. split; [intros c' Hne; by apply get_insert_ne | cbn; auto].
  - intros c d ->. eauto.
  - intros c f lim ->. eauto.
  - intros _ ->. eexists. split; [done|]. apply names_spec.
  - intros ->. eauto.
Qed.

#[global] Instance mem_store_laws : DocStoreLaws t.
Proof. split; [exact _|]. cbn. intros s c f lim _ ->. done. Qed.

(** Refinement: the in-memory store satisfies every law the API layer
    assumes of MongoDB. *)
Theorem refines : DocStoreLaws t.
Proof. exact _. Qed.

Lemma insert_ids_wf s c d d' s' : ids_wf s -> insert_one c d s = Ok (d', s') -> ids_wf s'.
Proof.
  intros Hwf. cbn. destruct (ms_live s); [|discriminate]. intros [= <- <-] c0.
  destruct (Hwf c0) as (os & Hos & Hnd & Hlt).
  destruct (decide (c0 = c)) as [->|Hne].
  - rewrite get_insert_eq. exists (os ++ [ms_next s]). rewrite !map_app, Hos. split_and!; [done| |].
    + apply NoDup_app. split_and!; [done| |apply NoDup_singleton].
      intros o Ho ->%list_elem_of_singleton. rewrite Forall_forall in Hlt. specialize (Hlt _ Ho). lia.
    + apply Forall_app. split; [eapply Forall_impl; [exact Hlt|]; cbn; lia|constructor; [cbn; lia|done]].
  - rewrite get_insert_ne by done. exists os. split_and!; [done|done|]. eapply Forall_impl; [exact Hlt|]; cbn; lia.
Qed.

(** In every reachable state, the ids MongoDB would enforce as unique
    are unique within each collection. *)
Theorem reach_ids_wf s : reach s -> ids_wf s.
Proof.
  induction 1 as [e|s c d d' s' _ IH Hins].
  - intros c. exists []. unfold get. cbn. rewrite lookup_empty. split_and!; constructor.
  - by apply (insert_ids_wf s c d d').
Qed.

End MemStore.

(** ** A store that returns the newest documents first

    MongoDB's natural order is "not contractually guaranteed" (spec
    section 4.1); a server may as well answer [find] newest first.
    [RevStore] is the in-memory store with that [find]: it satisfies
    [DocStoreAnyOrder] but not [DocStoreLaws], so a theorem proved
    against [DocStoreAnyOrder] does not rely on insertion order. *)
Module RevStore.

Record t : Type := Rev { inner : MemStore.t }.

#[global] Instance rev_store : DocStore t := {
  db_ready s := db_ready (inner s);
  db_live s := db_live (inner s);
  coll s := coll (inner s);
  list_collection_names s := list_collection_names (inner s);
  count_documents c s := count_documents c (inner s);
  insert_one c d s := rmap (fun r => (r.1, Rev r.2)) (insert_one c d (inner s));
  find c f lim s :=
    if db_live (inner s)
    then Ok (take (Z.to_nat lim) (reverse (filter (fun d => doc_matches f d = true) (coll (inner s) c))))
    else Err (ServerError MemStore.down_msg)
}.

#[global] Instance rev_store_core : DocStoreCore t.
Proof.
  split; intros [s]; cbn [db_ready db_live coll count_documents insert_one find
    list_collection_names rev_store inner]; unfold unreachable.
  - apply count_live.
  - apply count_down.
  - intros c d Hr Hl Hd. destruct (insert_live s c d Hr Hl Hd) as (oid & s' & E & Hc & Ho & Hr' & Hl').
    exists oid, (Rev s'). by rewrite E.
  - intros c d d' [s'] E. destruct (insert_one c d s) as [[d0 s0]|] eqn:E0; [|discriminate].
    injection E as <- <-. exact (insert_effect s c d d0 s0 E0).
  - intros c d Hl. destruct (insert_down s c d Hl) as [m E]. exists m. by rewrite E.
  - intros c f lim ->. eauto.
  - apply names_live.
  - apply names_down.
Qed.

#[global] Instance rev_store_any : DocStoreAnyOrder t.
Proof.
  split; [exact _|]. intros [s] c f lim _ Hl. cbn [db_live find rev_store inner] in *. rewrite Hl.
  eexists. split; [reflexivity|]. split; [|by rewrite length_take, length_reverse].
  etrans; [apply sublist_submseteq, sublist_take|]. by rewrite reverse_Permutation.
Qed.

(** Two documents [find] returns in the reverse of their insertion
    order. *)
Definition two_docs : t :=
  Rev (MemStore.MStore true true {[ "c" := [[("_id", VOid 0%N)]; [("_id", VOid 1%N)]] ]} 2%N).

Theorem not_insertion_order : ~ DocStoreLaws t.
Proof.
  intros HL. pose proof (find_live two_docs "c" [] 2%Z eq_refl eq_refl) as E.
  vm_compute in E. discriminate.
Qed.

End RevStore.

