(* ===== verification/Api.v ===== *)
(** * The API layer of src/main.py

    Each route handler of main.py as a computation in the state and
    exception monad [st S exn] over any store [S] with the [DocStore]
    operations: [read_root], [test_database], [seed_demo] and the three
    list endpoints; [route] dispatches a request as FastAPI's router and
    [ExceptionMiddleware] do (query parameter parsing, [HTTPException]
    turned into a response, any other exception left uncaught), and
    [handle] adds Starlette's [ServerErrorMiddleware] (an uncaught
    exception becomes a 500).  The theorems assume only [DocStoreLaws]. *)
From S2P Require Import Prelude Values Coerce Schemas Store.
From Stdlib Require Import Ascii.
Local Close Scope Q_scope.

(** ** Responses *)

(** The JSON bodies main.py returns. *)
Record test_report : Type := TestReport {
  backend : string;
  database : string;
  database_url : string;
  database_name : string;
  connection_status : string;
  collections : list string
}.

Inductive body : Type :=
  | BMessage (message : string)
  | BStatus (status message : string)
  | BTest (r : test_report)
  | BPros (ps : list Pro.t)
  | BSkills (ss : list Skill.t)
  | BRequests (rs : list Request.t)
  | BDetail (detail : string)
  | BText (text : string)
  | BDocs (path : string)
  | BRedirect (path : string) (query : list (string * string))
  | BQueryErrors (errs : list field_error).

Record response : Type := Resp {
  status_code : Z;
  resp_body : body
}.

(** [str(e)] of an exception. *)
Definition exn_str (e : exn) : string :=
  match e with
  | ValidationError m _ => String.append m " validation error"
  | StoreError m | ServerError m => m
  | HTTPException _ d => d
  end.

(** A validation failure of [Cls( **d)] raised as [ValidationError]. *)
Definition lift_v {A} (model : string) (r : vres A) : res A :=
  match r with
  | Ok a => Ok a
  | Err es => Err (ValidationError model es)
  end.

(** ** The demonstration records of [seed_demo] *)

(** The keyword arguments of the [Pro(...)] calls, main.py lines 62-64. *)
Definition pro_kwargs : list document :=
  [[("name", VStr "Aisha Khan"); ("university", VStr "State University");
    ("department", VStr "CS"); ("bio", VStr "ML tutor and Python mentor.");
    ("tags", VList [VStr "Python"; VStr "ML"; VStr "Data"]);
    ("rating", VFloat (49 # 10)); ("reviews", VInt 112); ("verified", VBool true);
    ("karma_rate", VInt 25)];
   [("name", VStr "Marco Silva"); ("university", VStr "Tech U");
    ("department", VStr "Design"); ("bio", VStr "Figma and UI polish.");
    ("tags", VList [VStr "Figma"; VStr "UI"; VStr "Branding"]);
    ("rating", VFloat (48 # 10)); ("reviews", VInt 76); ("verified", VBool true);
    ("karma_rate", VInt 20)];
   [("name", VStr "Yuki Tanaka"); ("university", VStr "Polytechnic");
    ("department", VStr "Math"); ("bio", VStr "Calculus made friendly.");
    ("tags", VList [VStr "Calculus"; VStr "Linear Algebra"]);
    ("rating", VFloat (47 # 10)); ("reviews", VInt 54); ("verified", VBool false);
    ("karma_rate", VInt 15)]].

(** The [Skill(...)] calls, main.py lines 71-73. *)
Definition skill_kwargs : list document :=
  [[("title", VStr "Intro to Python"); ("category", VStr "Coding");
    ("level", VStr "Beginner"); ("owner_name", VStr "Aisha"); ("featured", VBool true)];
   [("title", VStr "Figma Essentials"); ("category", VStr "Design");
    ("level", VStr "Intermediate"); ("owner_name", VStr "Marco")];
   [("title", VStr "Exam Prep: Calc I"); ("category", VStr "Tutoring");
    ("level", VStr "Advanced"); ("owner_name", VStr "Yuki")]].

(** The [Request(...)] calls, main.py lines 80-82. *)
Definition request_kwargs : list document :=
  [[("title", VStr "Debug my JS app"); ("category", VStr "Coding");
    ("urgency", VStr "High"); ("requester_name", VStr "Sam"); ("offered_karma", VInt 30)];
   [("title", VStr "Logo critique"); ("category", VStr "Design");
    ("urgency", VStr "Normal"); ("requester_name", VStr "Priya"); ("offered_karma", VInt 15)];
   [("title", VStr "Calc homework help"); ("category", VStr "Tutoring");
    ("urgency", VStr "Low"); ("requester_name", VStr "Leo"); ("offered_karma", VInt 10)]].

(** [demo_pros = [Pro(...), ...]]: each constructor call validates. *)
Definition demo_pros : res (list Pro.t) := mapR (fun kw => lift_v "Pro" (Pro.validate kw)) pro_kwargs.
Definition demo_skills : res (list Skill.t) := mapR (fun kw => lift_v "Skill" (Skill.validate kw)) skill_kwargs.
Definition demo_requests : res (list Request.t) :=
  mapR (fun kw => lift_v "Request" (Request.validate kw)) request_kwargs.

(** ** Requests *)

Inductive method : Type := GET | POST | HEAD | OPTIONS | PUT | PATCH | DELETE.

#[global] Instance method_eq_dec : EqDecision method.
Proof. solve_decision. Defined.

(** The pages [FastAPI(...)] adds to the app (main.py line 11): the
    OpenAPI schema, Swagger UI, its OAuth2 redirect page and ReDoc.  They
    are Starlette routes of plain functions, which answer GET and HEAD. *)
Definition docs_paths : list string := ["/openapi.json"; "/docs"; "/docs/oauth2-redirect"; "/redoc"].

(** The routes of the app, in registration order: the documentation
    pages, then those main.py declares: [@app.get("/")],
    [@app.get("/test")], [@app.post("/seed")], [@app.get("/pros")],
    [@app.get("/skills")], [@app.get("/requests")] (FastAPI's own routes
    answer only the declared method). *)
Definition routes : list (method * string) :=
  flat_map (fun p => [(GET, p); (HEAD, p)]) docs_paths ++
  [(GET, "/"); (GET, "/test"); (POST, "/seed"); (GET, "/pros"); (GET, "/skills"); (GET, "/requests")].

(** The HTTP surface of spec section 6: each route of main.py with the
    statuses the spec allows it to answer. *)
Definition spec_table : list (method * string * list Z) :=
  [(GET, "/", [200%Z]); (GET, "/test", [200%Z]); (POST, "/seed", [200%Z; 500%Z]);
   (GET, "/pros", [200%Z; 500%Z]); (GET, "/skills", [200%Z; 500%Z]); (GET, "/requests", [200%Z; 500%Z])].

Definition routed (path : string) : bool := existsb (String.eqb path) (map snd routes).

Record request : Type := Req {
  req_method : method;
  req_path : string;
  req_query : list (string * string)
}.

(** Starlette's [request.query_params.get(k)]: the last occurrence. *)
Definition query_get (k : string) (q : list (string * string)) : option string :=
  fold_left (fun acc kv => if String.eqb kv.1 k then Some kv.2 else acc) q None.

(** FastAPI's reading of [limit: int = dflt]. *)
Definition query_int (k : string) (dflt : Z) (q : list (string * string)) : vres Z :=
  match query_get k q with
  | None => Ok dflt
  | Some v => coerce_int [LKey "query"; LKey k] (VStr v)
  end.

(** What the application inside the middleware stack produces: a
    response, or an exception no handler caught. *)
Inductive outcome : Type :=
  | Answer (r : response)
  | Uncaught (ex : exn).

Section Handlers.
Context {S : Type} `{DocStore S}.

(** *** Store access in the monad *)

Definition st_ready : st S exn bool := fun s => (Ok (db_ready s), s).

Definition st_count (c : string) : st S exn nat := fun s => (count_documents c s, s).

Definition st_create (c : string) (d : document) : st S exn document :=
  fun s => match create_document c d s with
           | Ok (d', s') => (Ok d', s')
           | Err e => (Err e, s)
           end.

Definition st_get (c : string) (f : filter_doc) (lim : Z) : st S exn (list document) :=
  fun s => (get_documents c f lim s, s).

(** [for d in docs: create_document(c, d)] *)
Fixpoint create_all (c : string) (docs : list document) : st S exn unit :=
  match docs with
  | [] => sret tt
  | d :: ds => let! _ := st_create c d in create_all c ds
  end.

(** *** GET / (main.py lines 21-23) *)
Definition read_root : body := BMessage "Campus Karma Exchange Backend Running".

(** *** GET /test (main.py lines 26-51) *)
Definition initial_report : test_report :=
  TestReport "✅ Running" "❌ Not Available" "❌ Not Set" "❌ Not Set" "Not Connected" [].

Definition test_database (e : env) (s : S) : test_report :=
  if db_ready s then
    let url := if truthy_env (DATABASE_URL e) then "✅ Set" else "❌ Not Set" in
    let name := match DATABASE_NAME e with
                | Some n => if truthy_env (Some n) then n else "❌ Not Set"
                | None => "❌ Not Set"
                end in
    match list_collection_names s with
    | Ok l => TestReport "✅ Running" "✅ Connected & Working" url name "Connected" (take 10 l)
    | Err ex =>
        TestReport "✅ Running"
          (String.append "⚠️ Connected but Error: " (String.substring 0 50 (exn_str ex)))
          url name "Connected" []
    end
  else
    TestReport "✅ Running" "⚠️ Available but not initialized" "❌ Not Set" "❌ Not Set"
      "Not Connected" [].

(** *** POST /seed (main.py lines 54-87) *)

(** One collection: [if db[c].count_documents({}) == 0:] build the demo
    records, then [create_document(c, x)] for each. *)
Definition seed_coll {A} (c : string) (recs : res (list A)) (dump : A -> document)
  : st S exn unit :=
  let! n := st_count c in
  if Nat.eqb n 0 then
    let! xs := slift recs in
    create_all c (map dump xs)
  else sret tt.

Definition seed_demo : st S exn body :=
  let! ready := st_ready in
  if negb ready then sthrow (HTTPException 500 "Database not configured") else
  let! _ := seed_coll "pro" demo_pros Pro.dump in
  let! _ := seed_coll "skill" demo_skills Skill.dump in
  let! _ := seed_coll "request" demo_requests Request.dump in
  sret (BStatus "ok" "Seeded if collections were empty").

(** *** The list endpoints (main.py lines 90-104):
    [[Cls( **{k: v for k, v in d.items() if k != "_id"}) for d in docs]] *)
Definition list_pros (limit : Z) (s : S) : res (list Pro.t) :=
  docs <- get_documents "pro" [] limit s ;;
  mapR (fun d => lift_v "Pro" (Pro.validate (strip_id d))) docs.

Definition list_skills (limit : Z) (s : S) : res (list Skill.t) :=
  docs <- get_documents "skill" [] limit s ;;
  mapR (fun d => lift_v "Skill" (Skill.validate (strip_id d))) docs.

Definition list_requests (limit : Z) (s : S) : res (list Request.t) :=
  docs <- get_documents "request" [] limit s ;;
  mapR (fun d => lift_v "Request" (Request.validate (strip_id d))) docs.

(** *** FastAPI's dispatch *)

(** FastAPI's [ExceptionMiddleware]: an [HTTPException] becomes its
    status and detail; any other exception propagates, uncaught. *)
Definition error_response (ex : exn) : outcome :=
  match ex with
  | HTTPException c d => Answer (Resp c (BDetail d))
  | _ => Uncaught ex
  end.

(** A handler's return value is a 200 response. *)
Definition respond_o (r : res body) : outcome :=
  match r with
  | Ok b => Answer (Resp 200 b)
  | Err ex => error_response ex
  end.

(** [limit: int = dflt]: a value that is not an integer is FastAPI's 422
    before the handler runs. *)
Definition with_limit_o (q : list (string * string)) (dflt : Z) (k : Z -> res body) : outcome :=
  match query_int "limit" dflt q with
  | Ok lim => respond_o (k lim)
  | Err es => Answer (Resp 422 (BQueryErrors es))
  end.

Definition ends_with_slash (s : string) : bool :=
  match String.get (pred (String.length s)) s with
  | Some c => Ascii.eqb c "/"%char
  | None => false
  end.

(** Starlette's router when no route matches both method and path: 405
    when the path is routed for another method; otherwise, as
    [redirect_slashes] is on, a 307 to the path without its trailing
    slashes (or with one added) when that path is routed, keeping the
    query; otherwise 404. *)
Definition no_route (rq : request) : response :=
  let p := req_path rq in
  if routed p then Resp 405 (BDetail "Method Not Allowed")
  else if String.eqb p "/" then Resp 404 (BDetail "Not Found")
  else
    let p' := if ends_with_slash p then rstrip_with (fun c => Ascii.eqb c "/"%char) p else p +:+ "/" in
    if routed p' then Resp 307 (BRedirect p' (req_query rq)) else Resp 404 (BDetail "Not Found").

(** The application inside its middleware: the router and the route
    handlers of main.py. *)
Definition route (e : env) (rq : request) (s : S) : outcome * S :=
  if existsb (String.eqb (req_path rq)) docs_paths &&
     (bool_decide (req_method rq = GET) || bool_decide (req_method rq = HEAD))
  then (Answer (Resp 200 (BDocs (req_path rq))), s) else
  match req_method rq with
  | GET =>
      if String.eqb (req_path rq) "/" then (Answer (Resp 200 read_root), s)
      else if String.eqb (req_path rq) "/test" then (Answer (Resp 200 (BTest (test_database e s))), s)
      else if String.eqb (req_path rq) "/pros" then
        (with_limit_o (req_query rq) 12 (fun lim => rmap BPros (list_pros lim s)), s)
      else if String.eqb (req_path rq) "/skills" then
        (with_limit_o (req_query rq) 20 (fun lim => rmap BSkills (list_skills lim s)), s)
      else if String.eqb (req_path rq) "/requests" then
        (with_limit_o (req_query rq) 20 (fun lim => rmap BRequests (list_requests lim s)), s)
      else (Answer (no_route rq), s)
  | POST =>
      if String.eqb (req_path rq) "/seed" then
        let '(r, s') := seed_demo s in (respond_o r, s')
      else (Answer (no_route rq), s)
  | _ => (Answer (no_route rq), s)
  end.

(** Starlette's outermost [ServerErrorMiddleware]: an uncaught exception
    becomes a plain 500 "Internal Server Error". *)
Definition server_error (o : outcome) : response :=
  match o with
  | Answer r => r
  | Uncaught _ => Resp 500 (BText "Internal Server Error")
  end.

Definition respond (r : res body) : response := server_error (respond_o r).

Definition with_limit (q : list (string * string)) (dflt : Z) (k : Z -> res body) : response :=
  server_error (with_limit_o q dflt k).

(** The whole application, without the CORS layer ([Server]). *)
Definition handle (e : env) (rq : request) (s : S) : response * S :=
  let '(o, s') := route e rq s in (server_error o, s').
End Handlers.

(** ** Relations and predicates the theorems use *)

(** [docs'] are [docs] with a store-assigned ["_id"] in front of each. *)
Definition stamped (docs docs' : list document) : Prop :=
  Forall2 (fun d d' => exists oid, d' = ("_id", VOid oid) :: d) docs docs'.

(** What [seed_coll] does to one collection: an empty collection receives
    the demo documents, a non-empty one is left alone. *)
Definition seeded (before after demo : list document) : Prop :=
  (before = [] /\ stamped demo after) \/ (before <> [] /\ after = before).

Definition values_of {A} (r : res (list A)) : list A :=
  match r with Ok l => l | Err _ => [] end.

Definition seed_ok : body := BStatus "ok" "Seeded if collections were empty".

(** Documents every one of which the model accepts. *)
Definition coll_valid {A} (validate : document -> vres A) (l : list document) : Prop :=
  Forall (fun d => exists x, validate d = Ok x) l.

(** The list endpoints' comprehension, for any model. *)
Definition validate_all {A} (model : string) (validate : document -> vres A) (docs : list document)
  : res (list A) :=
  mapR (fun d => lift_v model (validate (strip_id d))) docs.

(** The demo documents [seed_demo] writes to collection [c]. *)
Definition demo_docs (c : string) : list document :=
  if String.eqb c "pro" then map Pro.dump (values_of demo_pros)
  else if String.eqb c "skill" then map Skill.dump (values_of demo_skills)
  else if String.eqb c "request" then map Request.dump (values_of demo_requests)
  else [].

(** A stored document: a dict with pairwise distinct keys whose first
    entry is the ["_id"] the store assigned. *)
Definition doc_wf (d : document) : Prop :=
  dict_wf d /\ exists oid d', d = ("_id", VOid oid) :: d'.

Definition store_wf {S : Type} `{DocStore S} (s : S) : Prop := forall c, Forall doc_wf (coll s c).

(** The only [HTTPException] a computation raises is a 500. *)
Definition raises_500 {A} (r : res A) : Prop :=
  forall c d, r = Err (HTTPException c d) -> c = 500%Z.

(** Every stored document of the three collections validates against
    its model. *)
Definition valid_store {S : Type} `{DocStore S} (s : S) : Prop :=
  coll_valid Pro.validate (coll s "pro") /\
  coll_valid Skill.validate (coll s "skill") /\
  coll_valid Request.validate (coll s "request").

Section Dispatch.
Context {S : Type} `{DocStore S}.

(** Dispatch, route by route. *)
Lemma handle_get_pros e q s :
  handle e (Req GET "/pros" q) s = (with_limit q 12 (fun lim => rmap BPros (list_pros lim s)), s).
Proof. reflexivity. Qed.

Lemma handle_get_test e q s :
  handle e (Req GET "/test" q) s = (Resp 200 (BTest (test_database e s)), s).
Proof. reflexivity. Qed.

Lemma handle_post_seed e q s :
  handle e (Req POST "/seed" q) s = let '(r, s') := seed_demo s in (respond r, s').
Proof. unfold handle, route. cbn [req_method req_path String.eqb]. by destruct (seed_demo s). Qed.

Lemma handle_get_root e q s : handle e (Req GET "/" q) s = (Resp 200 read_root, s).
Proof. reflexivity. Qed.

Lemma handle_get_skills e q s :
  handle e (Req GET "/skills" q) s = (with_limit q 20 (fun lim => rmap BSkills (list_skills lim s)), s).
Proof. reflexivity. Qed.

Lemma handle_get_requests e q s :
  handle e (Req GET "/requests" q) s
  = (with_limit q 20 (fun lim => rmap BRequests (list_requests lim s)), s).
Proof. reflexivity. Qed.

(** Only [POST /seed] changes the store. *)
Lemma handle_state e rq s : (handle e rq s).2 = s \/ (handle e rq s).2 = (seed_demo s).2.
Proof. unfold handle, route. destruct (req_method rq); repeat case_match; simplify_eq/=; auto. Qed.

Lemma with_limit_print q dflt v n k :
  query_get "limit" q = Some v -> str_as_int v = Ok n -> with_limit q dflt k = respond (k n).
Proof. intros Hq Hv. unfold with_limit, with_limit_o, query_int. rewrite Hq. cbn [coerce_int]. by rewrite Hv. Qed.
End Dispatch.

(** ** Lemmas on the store operations *)


Section StoreLemmas.
Context {S : Type} `{DocStoreCore S}.

Lemma create_all_spec c docs s :
  db_ready s = true -> db_live s = true -> Forall (fun d => "_id" ∉ keys d) docs ->
  exists s' new, create_all c docs s = (Ok tt, s') /\ stamped docs new /\
    coll s' c = coll s c ++ new /\ (forall c', c' <> c -> coll s' c' = coll s c') /\
    db_ready s' = true /\ db_live s' = true.
Proof.
  revert s. induction docs as [|d ds IH]; intros s Hr Hl Hd.
  - exists s, []. split_and!; try done; [constructor | by rewrite app_nil_r].
  - inversion Hd as [|? ? Hd0 Hds]; subst.
    destruct (insert_live s c d Hr Hl Hd0) as (oid & s1 & Hins & Hc & Ho & Hr1 & Hl1).
    destruct (IH s1) as (s2 & new & Hrun & Hst & Hc2 & Ho2 & Hr2 & Hl2); [congruence..|done|].
    exists s2, ((("_id", VOid oid) :: d) :: new). split_and!; [|by constructor; eauto|..|done|done].
    + cbn [create_all]. unfold sbind, st_create, create_document. by rewrite Hr, Hins.
    + by rewrite Hc2, Hc, <- app_assoc.
    + intros c' Hne. by rewrite Ho2, Ho.
Qed.

Lemma seed_coll_spec {A} c (recs : list A) (dump : A -> document) s :
  db_ready s = true -> db_live s = true -> Forall (fun x => "_id" ∉ keys (dump x)) recs ->
  exists s', seed_coll c (Ok recs) dump s = (Ok tt, s') /\
    seeded (coll s c) (coll s' c) (map dump recs) /\
    (forall c', c' <> c -> coll s' c' = coll s c') /\
    db_ready s' = true /\ db_live s' = true.
Proof.
  intros Hr Hl Hd. unfold seed_coll, sbind at 1, st_count. rewrite (count_live s c Hr Hl).
  destruct (coll s c) as [|d0 l] eqn:Hc; cbn [length Nat.eqb].
  - destruct (create_all_spec c (map dump recs) s) as (s' & new & Hrun & Hst & Hc' & Ho & Hr' & Hl');
      [done|done|by apply Forall_map|].
    exists s'. split_and!; [done| |done..]. left. split; [done|]. by rewrite Hc', Hc.
  - exists s. split_and!; [done| |done..]. right. by rewrite Hc.
Qed.

(** A failing count aborts [seed_coll] before any write. *)
Lemma seed_coll_down {A} c (recs : res (list A)) dump s :
  db_live s = false -> exists m, seed_coll c recs dump s = (Err (ServerError m), s).
Proof.
  intros Hl. destruct (count_down s c Hl) as [m Hm]. exists m.
  unfold seed_coll, sbind at 1, st_count. by rewrite Hm.
Qed.

End StoreLemmas.

Section FindLemmas.

Lemma get_documents_live {S} `{DocStoreLaws S} c lim s :
  db_ready s = true -> db_live s = true ->
  get_documents c [] lim s = Ok (take (Z.to_nat lim) (coll s c)).
Proof.
  intros Hr Hl. unfold get_documents. rewrite Hr, find_live by done.
  f_equal. f_equal. by apply filter_all.
Qed.

(** Under the any-order contract [get_documents] with the empty filter
    returns [min(limit, size)] documents of the collection, each as
    often as it is stored at most. *)
Lemma get_documents_any {S} `{DocStoreAnyOrder S} c lim s :
  db_ready s = true -> db_live s = true ->
  exists l, get_documents c [] lim s = Ok l /\ l ⊆+ coll s c /\
    length l = Nat.min (Z.to_nat lim) (length (coll s c)).
Proof.
  intros Hr Hl. unfold get_documents. rewrite Hr.
  destruct (find_any s c [] lim Hr Hl) as (l & -> & Hsub & Hlen).
  rewrite filter_all in Hsub, Hlen by done. eauto.
Qed.
End FindLemmas.

(** ** The demo records are valid *)


Lemma demo_pros_Ok : demo_pros = Ok (values_of demo_pros).
Proof. reflexivity. Qed.
Lemma demo_skills_Ok : demo_skills = Ok (values_of demo_skills).
Proof. reflexivity. Qed.
Lemma demo_requests_Ok : demo_requests = Ok (values_of demo_requests).
Proof. reflexivity. Qed.

Lemma dump_no_id_pro (p : Pro.t) : "_id" ∉ keys (Pro.dump p).
Proof. cbn. not_in_literal. Qed.
Lemma dump_no_id_skill (x : Skill.t) : "_id" ∉ keys (Skill.dump x).
Proof. cbn. not_in_literal. Qed.
Lemma dump_no_id_request (r : Request.t) : "_id" ∉ keys (Request.dump r).
Proof. cbn. not_in_literal. Qed.

Lemma stamped_length docs docs' : stamped docs docs' -> length docs' = length docs.
Proof. intros H. symmetry. by eapply Forall2_length. Qed.

Lemma stamped_strip docs docs' :
  stamped docs docs' -> Forall (fun d => "_id" ∉ keys d) docs -> map strip_id docs' = docs.
Proof.
  induction 1 as [|d d' ds ds' [oid ->] _ IH]; intros Hd; [done|].
  inversion Hd; subst. cbn [map]. rewrite strip_id_cons_id, strip_id_no_id by done. by rewrite IH.
Qed.

Lemma seeded_nonempty before after demo :
  seeded before after demo -> demo <> [] -> after <> [].
Proof.
  intros [[_ Hs]|[Hne ->]] Hd; [|done].
  intros ->. apply Hd. by inversion Hs.
Qed.

Section Seed.
Context {S : Type} `{DocStoreCore S}.


(** *** Seeding: the functional specification *)

(** On a configured, reachable store [seed_demo] succeeds; each of the
    three collections receives the three demo documents if it was
    empty and is left unchanged otherwise; no other collection
    changes. *)
Lemma seed_demo_live_spec s :
  db_ready s = true -> db_live s = true ->
  exists s', seed_demo s = (Ok seed_ok, s') /\
    seeded (coll s "pro") (coll s' "pro") (map Pro.dump (values_of demo_pros)) /\
    seeded (coll s "skill") (coll s' "skill") (map Skill.dump (values_of demo_skills)) /\
    seeded (coll s "request") (coll s' "request")
      (map Request.dump (values_of demo_requests)) /\
    (forall c, c ∉ ["pro"; "skill"; "request"] -> coll s' c = coll s c) /\
    db_ready s' = true /\ db_live s' = true.
Proof.
  intros Hr Hl. unfold seed_demo.
  rewrite (sbind_Ok _ _ s (db_ready s) s) by done. rewrite Hr. cbn [negb].
  rewrite demo_pros_Ok, demo_skills_Ok, demo_requests_Ok.
  destruct (seed_coll_spec "pro" (values_of demo_pros) Pro.dump s)
    as (s1 & E1 & P1 & O1 & R1 & L1); [done|done|apply Forall_forall; intros; apply dump_no_id_pro|].
  destruct (seed_coll_spec "skill" (values_of demo_skills) Skill.dump s1)
    as (s2 & E2 & P2 & O2 & R2 & L2); [done|done|apply Forall_forall; intros; apply dump_no_id_skill|].
  destruct (seed_coll_spec "request" (values_of demo_requests) Request.dump s2)
    as (s3 & E3 & P3 & O3 & R3 & L3); [done|done|apply Forall_forall; intros; apply dump_no_id_request|].
  rewrite (sbind_Ok _ _ _ _ _ E1), (sbind_Ok _ _ _ _ _ E2), (sbind_Ok _ _ _ _ _ E3).
  exists s3. split_and!; [done| | | |intros c Hc| done | done].
  - by rewrite O3, O2.
  - by rewrite O3, <- (O1 "skill").
  - by rewrite <- (O1 "request"), <- (O2 "request").
  - rewrite O3, O2, O1; [done|..]; intros ->; apply Hc; set_solver.
Qed.

Lemma seed_demo_Ok_ready s b s' : seed_demo s = (Ok b, s') -> db_ready s = true /\ db_live s = true.
Proof.
  unfold seed_demo. rewrite (sbind_Ok _ _ s (db_ready s) s) by done.
  destruct (db_ready s); cbn [negb]; [|discriminate].
  destruct (db_live s) eqn:Hl; [done|].
  destruct (seed_coll_down "pro" demo_pros Pro.dump s Hl) as [m Hm].
  by rewrite (sbind_Err _ _ _ _ _ Hm).
Qed.

(** C3. Seeding is idempotent: a second call succeeds the same way and
    changes no collection. *)
Theorem seed_demo_idempotent s b s1 :
  seed_demo s = (Ok b, s1) ->
  exists s2, seed_demo s1 = (Ok b, s2) /\ forall c, coll s2 c = coll s1 c.
Proof.
  intros E. destruct (seed_demo_Ok_ready s b s1 E) as [Hr Hl].
  destruct (seed_demo_live_spec s Hr Hl) as (s1' & E' & P & K & Q & O & R1 & L1).
  rewrite E in E'. inversion E'; subst s1' b.
  destruct (seed_demo_live_spec s1 R1 L1) as (s2 & E2 & P2 & K2 & Q2 & O2 & _ & _).
  assert (N1 : coll s1 "pro" <> []) by (eapply seeded_nonempty; [exact P | by vm_compute]).
  assert (N2 : coll s1 "skill" <> []) by (eapply seeded_nonempty; [exact K | by vm_compute]).
  assert (N3 : coll s1 "request" <> []) by (eapply seeded_nonempty; [exact Q | by vm_compute]).
  exists s2. split; [done|]. intros c.
  destruct (decide (c ∈ ["pro"; "skill"; "request"])) as [Hc|Hc]; [|by apply O2].
  repeat (apply elem_of_cons in Hc as [->|Hc]); [..|by apply elem_of_nil in Hc];
    [destruct P2 as [[Hn _]|[_ ->]] | destruct K2 as [[Hn _]|[_ ->]]
    | destruct Q2 as [[Hn _]|[_ ->]]]; congruence.
Qed.
End Seed.

Lemma stamped_get k docs new :
  k <> "_id" -> stamped docs new -> map (dict_get k) new = map (dict_get k) docs.
Proof.
  intros Hk. induction 1 as [|d d' ds ds' [oid ->] _ IH]; [done|]. cbn [map dict_get].
  destruct (String.eqb_spec k "_id"); [done|]. by rewrite IH.
Qed.
