(* ===== verification/ApiTheorems.v ===== *)
(** * Theorems of the API layer

    What the handlers of [Api] guarantee over any store satisfying the
    store contract, each section under the weakest class it needs
    ([DocStoreCore], [DocStoreAnyOrder] or [DocStoreLaws]): the listing endpoints (exact results, totality on a
    valid store, the 500 on an invalid document, the redundant ["_id"]
    strip), the invariants every request keeps (valid documents,
    well-formed dicts, append-only collections), routing (404/405 and
    the statuses of routed requests), and end-to-end scenarios of the
    spec (seed then list in insertion order and in any order, [GET
    /test], the [limit] parameter). *)
From S2P Require Import Prelude Values Coerce Schemas Store Api.
Local Close Scope Q_scope.


(** The query carries a [limit] that Pydantic cannot read as an int. *)
Definition limit_malformed (q : list (string * string)) : Prop :=
  exists v t, query_get "limit" q = Some v /\ str_as_int v = Err t.

(** ** Listing *)


Section Listing.
Context {A : Type} (model : string) (validate : document -> vres A) (dump : A -> document).
Hypothesis validate_strip : forall d, validate (strip_id d) = validate d.


Lemma validate_all_valid docs :
  coll_valid validate docs -> exists xs, validate_all model validate docs = Ok xs /\ length xs = length docs.
Proof.
  induction 1 as [|d ds [x Hx] _ (xs & Hxs & Hlen)]; [by exists []|].
  exists (x :: xs). unfold validate_all in *. cbn. rewrite validate_strip, Hx. cbn. rewrite Hxs. cbn. by rewrite Hlen.
Qed.

(** One invalid document fails the whole listing. *)
Lemma validate_all_Err docs d es :
  d ∈ docs -> validate d = Err es ->
  exists es', validate_all model validate docs = Err (ValidationError model es').
Proof.
  intros Hin Hd. destruct (mapR_Err_of_elem (fun d => lift_v model (validate (strip_id d))) docs d
    (ValidationError model es)) as [e' He']; [done|by rewrite validate_strip, Hd|].
  destruct (mapR_Err_exists _ _ _ He') as (y & _ & Hy).
  unfold validate_all. rewrite He'. destruct (validate (strip_id y)); cbn in Hy; inv_res. eauto.
Qed.

Lemma validate_all_stamped xs new n :
  (forall x, x ∈ xs -> validate (dump x) = Ok x) -> (forall x, "_id" ∉ keys (dump x)) ->
  stamped (map dump xs) new -> validate_all model validate (take n new) = Ok (take n xs).
Proof.
  intros Hrt Hno Hst. revert n. remember (map dump xs) as docs eqn:Hdocs.
  revert xs Hrt Hdocs. induction Hst as [|d d' ds ds' [oid ->] _ IH];
    intros [|x xs] Hrt Hdocs n; try discriminate; [by rewrite !take_nil|].
  injection Hdocs as -> ->. destruct n as [|n]; [done|]. unfold validate_all in *.
  cbn [take mapR]. rewrite strip_id_cons_id, strip_id_no_id, Hrt by (done || by left).
  cbn [lift_v rbind]. rewrite (IH xs); [done | intros y Hy; apply Hrt; by right | done].
Qed.

Lemma coll_valid_seeded before after xs :
  coll_valid validate before -> (forall x, x ∈ xs -> validate (dump x) = Ok x) ->
  (forall x, "_id" ∉ keys (dump x)) ->
  seeded before after (map dump xs) -> coll_valid validate after.
Proof.
  intros Hb Hrt Hno [[_ Hst]|[_ ->]]; [|done].
  unfold coll_valid. eapply Forall_impl with (P := fun d => exists x, validate (strip_id d) = Ok x);
    [|intros d; by rewrite validate_strip].
  rewrite <- (Forall_map strip_id (fun d => exists x, validate d = Ok x)).
  rewrite (stamped_strip _ _ Hst) by (apply Forall_forall; intros ? (? & -> & _)%list_elem_of_fmap; done).
  apply Forall_map, Forall_forall. intros x Hx. exists x. by apply Hrt.
Qed.

Lemma coll_valid_sub l k : coll_valid validate k -> l ⊆+ k -> coll_valid validate l.
Proof.
  unfold coll_valid. rewrite !Forall_forall. intros Hk Hsub d Hd.
  apply Hk. by eapply elem_of_submseteq.
Qed.

(** Any sub-multiset of a freshly seeded collection validates to a
    sub-multiset of the seeded records: the listing's result does not
    depend on the order the store returns documents in. *)
Lemma validate_all_sub xs new l :
  (forall x, x ∈ xs -> validate (dump x) = Ok x) -> (forall x, "_id" ∉ keys (dump x)) ->
  stamped (map dump xs) new -> l ⊆+ new ->
  exists ys, validate_all model validate l = Ok ys /\ ys ⊆+ xs /\ length ys = length l.
Proof.
  intros Hrt Hno Hst Hsub.
  pose proof (validate_all_stamped xs new (length new) Hrt Hno Hst) as Hall.
  rewrite !take_ge in Hall by (rewrite ?(stamped_length _ _ Hst), ?length_map; lia).
  destruct (validate_all_valid l) as (ys & E & Hlen).
  { assert (Hv : coll_valid validate new)
      by (eapply coll_valid_seeded with (before := []); [constructor|done..|by left]).
    by eapply coll_valid_sub. }
  exists ys. split_and!; [done| |done].
  apply mapR_omap in E, Hall. rewrite <- E, <- Hall. by apply submseteq_omap.
Qed.
End Listing.

Lemma demo_pros_valid x : x ∈ values_of demo_pros -> Pro.validate (Pro.dump x) = Ok x.
Proof.
  intros Hx. vm_compute in Hx.
  repeat (apply elem_of_cons in Hx as [->|Hx]; [reflexivity|]). by apply elem_of_nil in Hx.
Qed.

Lemma demo_requests_valid x : x ∈ values_of demo_requests -> Request.validate (Request.dump x) = Ok x.
Proof.
  intros Hx. vm_compute in Hx.
  repeat (apply elem_of_cons in Hx as [->|Hx]; [reflexivity|]). by apply elem_of_nil in Hx.
Qed.

Section ApiTheorems.
Context {S : Type} `{DocStoreCore S}.


Lemma seed_demo_not_ready s :
  db_ready s = false -> seed_demo s = (Err (HTTPException 500 "Database not configured"), s).
Proof. intros Hr. unfold seed_demo. rewrite (sbind_Ok _ _ s (db_ready s) s) by done. by rewrite Hr. Qed.

Lemma seed_demo_down s :
  db_ready s = true -> db_live s = false -> exists m, seed_demo s = (Err (ServerError m), s).
Proof.
  intros Hr Hl. destruct (seed_coll_down "pro" demo_pros Pro.dump s Hl) as [m Hm].
  exists m. unfold seed_demo. rewrite (sbind_Ok _ _ s (db_ready s) s) by done. rewrite Hr.
  cbn [negb]. by rewrite (sbind_Err _ _ _ _ _ Hm).
Qed.

(** *** The store invariant *)

Theorem seed_demo_valid s r s' : valid_store s -> seed_demo s = (r, s') -> valid_store s'.
Proof.
  intros (Vp & Vs & Vr) E. destruct (db_ready s) eqn:Hr.
  - destruct (db_live s) eqn:Hl.
    + destruct (seed_demo_live_spec s Hr Hl) as (s1 & E1 & P & K & Q & _).
      rewrite E in E1. inversion E1; subst s1. split_and!.
      * eapply coll_valid_seeded; [exact Pro.validate_strip_id|exact Vp|exact demo_pros_valid
                               |exact dump_no_id_pro|exact P].
      * eapply coll_valid_seeded; [exact Skill.skill_validate_strip_id|exact Vs|intros; apply Skill.skill_validate_dump
                                   |exact dump_no_id_skill|exact K].
      * eapply coll_valid_seeded; [exact Request.request_validate_strip_id|exact Vr|exact demo_requests_valid
                                   |exact dump_no_id_request|exact Q].
    + destruct (seed_demo_down s Hr Hl) as [m Hm]. rewrite Hm in E. inversion E; subst.
      by split_and!.
  - rewrite seed_demo_not_ready in E by done. inversion E; subst. by split_and!.
Qed.

(** C4. Every request leaves the invariant in place: only [POST /seed]
    writes, and it writes valid documents. *)
Theorem handle_valid e rq s : valid_store s -> valid_store (snd (handle e rq s)).
Proof.
  intros V. destruct (handle_state e rq s) as [->| ->]; [done|].
  destruct (seed_demo s) as [r s'] eqn:E. by eapply seed_demo_valid.
Qed.

End ApiTheorems.

(** *** Listing *)

Section ListingAny.
Context {S : Type} `{DocStoreAnyOrder S}.

(** A list endpoint reads [min(limit, stored)] documents of its
    collection, in some order, and validates them. *)
Lemma list_any {A} c model (validate : document -> vres A) lim s :
  db_ready s = true -> db_live s = true ->
  exists l, (docs <- get_documents c [] lim s ;; mapR (fun d => lift_v model (validate (strip_id d))) docs)
    = validate_all model validate l /\ l ⊆+ coll s c /\
    length l = Nat.min (Z.to_nat lim) (length (coll s c)).
Proof. intros Hr Hl. destruct (get_documents_any c lim s Hr Hl) as (l & -> & ? & ?). eauto. Qed.

Lemma list_any_total {A} c model (validate : document -> vres A) lim s :
  (forall d, validate (strip_id d) = validate d) -> coll_valid validate (coll s c) ->
  db_ready s = true -> db_live s = true ->
  exists xs, (docs <- get_documents c [] lim s ;; mapR (fun d => lift_v model (validate (strip_id d))) docs)
    = Ok xs.
Proof.
  intros Hv Hc Hr Hl. destruct (list_any c model validate lim s Hr Hl) as (l & -> & Hsub & _).
  destruct (validate_all_valid model validate Hv l) as (xs & E & _); [by eapply coll_valid_sub|]. eauto.
Qed.

(** C17. [GET /pros?limit=n] returns at most [n] profiles: exactly
    [min(n, stored)], when it succeeds. *)
Theorem list_pros_length lim s ps :
  db_ready s = true -> db_live s = true -> list_pros lim s = Ok ps ->
  length ps = Nat.min (Z.to_nat lim) (length (coll s "pro")).
Proof.
  intros Hr Hl E. destruct (list_any "pro" "Pro" Pro.validate lim s Hr Hl) as (l & El & _ & <-).
  unfold list_pros in E. rewrite El in E. by apply mapR_length in E.
Qed.

(** C5. On a store that satisfies the invariant the listing never fails. *)
Theorem list_pros_total lim s :
  valid_store s -> db_ready s = true -> db_live s = true ->
  exists ps, list_pros lim s = Ok ps.
Proof.
  intros (Vp & _) Hr Hl. exact (list_any_total "pro" "Pro" Pro.validate lim s Pro.validate_strip_id Vp Hr Hl).
Qed.

(** C18. The skill and request listings never fail on a store satisfying
    the invariant either. *)
Theorem list_skills_requests_total lim s :
  valid_store s -> db_ready s = true -> db_live s = true ->
  (exists xs, list_skills lim s = Ok xs) /\ (exists rs, list_requests lim s = Ok rs).
Proof.
  intros (_ & Vs & Vr) Hr Hl. split.
  - exact (list_any_total "skill" "Skill" Skill.validate lim s Skill.skill_validate_strip_id Vs Hr Hl).
  - exact (list_any_total "request" "Request" Request.validate lim s
             Request.request_validate_strip_id Vr Hr Hl).
Qed.

End ListingAny.

Section ListingInOrder.
Context {S : Type} `{DocStoreLaws S}.

Lemma list_pros_eq lim s :
  db_ready s = true -> db_live s = true ->
  list_pros lim s = validate_all "Pro" Pro.validate (take (Z.to_nat lim) (coll s "pro")).
Proof. intros Hr Hl. unfold list_pros. by rewrite get_documents_live. Qed.

(** C16. A stored profile without a [name], which [Pro] requires, makes
    [GET /pros] answer 500 when the listing reaches it, with no partial
    result and the store unchanged. *)
Theorem list_pros_invalid_500 e q lim s d :
  db_ready s = true -> db_live s = true -> query_int "limit" 12 q = Ok lim ->
  d ∈ take (Z.to_nat lim) (coll s "pro") -> dict_get "name" d = None ->
  handle e (Req GET "/pros" q) s = (Resp 500 (BText "Internal Server Error"), s).
Proof.
  intros Hr Hl Hq Hin Hd. destruct (Pro.validate_name_absent d Hd) as [es Hes].
  rewrite handle_get_pros. unfold with_limit, with_limit_o. rewrite Hq.
  destruct (validate_all_Err "Pro" Pro.validate Pro.validate_strip_id _ d es Hin Hes) as [es' E].
  rewrite list_pros_eq, E by done. done.
Qed.
End ListingInOrder.

Section Routing.
Context {S : Type} `{DocStoreAnyOrder S}.

Lemma rbind_500 {A B} (r : res A) (k : A -> res B) :
  raises_500 r -> (forall a, raises_500 (k a)) -> raises_500 (rbind r k).
Proof. intros Hr Hk c d. destruct r as [a|ex]; cbn; [apply Hk|intros [= ->]; by apply (Hr c d)]. Qed.

Lemma rmap_500 {A B} (f : A -> B) (r : res A) : raises_500 r -> raises_500 (rmap f r).
Proof. intros Hr c d. destruct r; cbn; [discriminate|intros [= ->]; by apply (Hr c d)]. Qed.

Lemma get_documents_500 c f lim (s : S) : raises_500 (get_documents c f lim s).
Proof.
  intros c' d'. unfold get_documents. destruct (db_ready s) eqn:Hr; [|discriminate].
  destruct (db_live s) eqn:Hl; [by destruct (find_any s c f lim Hr Hl) as (? & -> & _)|].
  by destruct (find_down s c f lim Hl) as [m ->].
Qed.

Lemma validate_all_500 {A} model (validate : document -> vres A) docs :
  raises_500 (validate_all model validate docs).
Proof.
  intros c d E. apply mapR_Err_exists in E as (x & _ & Hx).
  unfold lift_v in Hx. by destruct (validate (strip_id x)).
Qed.

Lemma list_docs_500 {A} coll_name model (validate : document -> vres A) lim (s : S) :
  raises_500 (docs <- get_documents coll_name [] lim s ;; validate_all model validate docs).
Proof. apply rbind_500; [apply get_documents_500|intros; apply validate_all_500]. Qed.

Lemma seed_demo_500 (s : S) : raises_500 (seed_demo s).1.
Proof.
  destruct (db_ready s) eqn:Hr; [destruct (db_live s) eqn:Hl|].
  - destruct (seed_demo_live_spec s Hr Hl) as (s' & -> & _). discriminate.
  - destruct (seed_demo_down s Hr Hl) as [m ->]. discriminate.
  - rewrite seed_demo_not_ready by done. by intros c d [= -> _].
Qed.

Lemma respond_status r : raises_500 r -> status_code (respond r) ∈ [200; 500]%Z.
Proof.
  intros Hr. destruct r as [b|[model errs|m|m|c d]]; cbn; [set_solver..|].
  rewrite (Hr c d eq_refl). set_solver.
Qed.

(** A list endpoint answers 422 exactly when its [limit] is malformed,
    and 200 or 500 otherwise. *)
Lemma with_limit_status q dflt k :
  (forall lim, raises_500 (k lim)) ->
  (status_code (with_limit q dflt k) = 422%Z <-> limit_malformed q) /\
  (status_code (with_limit q dflt k) <> 422%Z -> status_code (with_limit q dflt k) ∈ [200; 500]%Z).
Proof.
  intros Hk. unfold with_limit, with_limit_o, limit_malformed, query_int.
  destruct (query_get "limit" q) as [v|] eqn:Hq.
  - cbn [coerce_int]. destruct (str_as_int v) as [n|t] eqn:Hv.
    + pose proof (respond_status _ (Hk n)) as Hs. unfold respond in Hs.
      split; [|done]. split; [intros E; rewrite E in Hs; set_solver|].
      intros (v' & t & [= <-] & Ht). congruence.
    + split; [|done]. split; [eauto|done].
  - pose proof (respond_status _ (Hk dflt)) as Hs. unfold respond in Hs.
    split; [|done]. split; [intros E; rewrite E in Hs; set_solver|].
    intros (v' & t & ? & _). discriminate.
Qed.

Lemma with_limit_status3 q dflt k :
  (forall lim, raises_500 (k lim)) -> status_code (with_limit q dflt k) ∈ [200; 422; 500]%Z.
Proof.
  intros Hk. destruct (with_limit_status q dflt k Hk) as [_ Hs].
  destruct (decide (status_code (with_limit q dflt k) = 422%Z)) as [->|Hne]; [set_solver|].
  specialize (Hs Hne). set_solver.
Qed.


Lemma seeded_prefix before after demo : seeded before after demo -> before `prefix_of` after.
Proof. intros [[-> _]|[_ ->]]; [apply prefix_nil|done]. Qed.

(** What [seed_demo] does to any one collection: nothing, or seed it
    with its demo documents as [seed_coll] does. *)
Lemma seed_demo_seeded (s : S) c :
  coll (seed_demo s).2 c = coll s c \/ seeded (coll s c) (coll (seed_demo s).2 c) (demo_docs c).
Proof.
  destruct (db_ready s) eqn:Hr; [destruct (db_live s) eqn:Hl|].
  - destruct (seed_demo_live_spec s Hr Hl) as (s' & -> & Hp & Hs & Hq & Ho & _). cbn [snd].
    unfold demo_docs. destruct (String.eqb_spec c "pro") as [->|?]; [by right|].
    destruct (String.eqb_spec c "skill") as [->|?]; [by right|].
    destruct (String.eqb_spec c "request") as [->|?]; [by right|].
    left. apply Ho. set_solver.
  - left. by destruct (seed_demo_down s Hr Hl) as [m ->].
  - left. by rewrite seed_demo_not_ready.
Qed.

Lemma seed_demo_prefix (s : S) c : coll s c `prefix_of` coll (seed_demo s).2 c.
Proof. destruct (seed_demo_seeded s c) as [->|Hs]; [done|by eapply seeded_prefix]. Qed.

Lemma demo_docs_wf c d : d ∈ demo_docs c -> dict_wf d /\ "_id" ∉ keys d.
Proof.
  unfold demo_docs, dict_wf. repeat case_match; [..|by intros ?%elem_of_nil];
    intros (x & -> & _)%list_elem_of_fmap;
    (split; [cbn; apply (bool_decide_unpack _); vm_compute; reflexivity|]);
    [apply dump_no_id_pro|apply dump_no_id_skill|apply dump_no_id_request].
Qed.

Lemma stamped_doc_wf docs docs' :
  stamped docs docs' -> (forall d, d ∈ docs -> dict_wf d /\ "_id" ∉ keys d) -> Forall doc_wf docs'.
Proof.
  induction 1 as [|d d' docs docs' (oid & ->) _ IH]; intros Hd; constructor.
  - destruct (Hd d ltac:(by left)) as [Hwf Hno].
    split; [by constructor|eauto].
  - apply IH. intros x Hx. apply Hd. by right.
Qed.

(** A route that is not there: [(m, p) ∉ routes] for a concrete pair. *)
Ltac not_a_route Hn := exfalso; apply Hn; apply (bool_decide_unpack _); vm_compute; reflexivity.

Lemma handle_docs e m p q s :
  p ∈ docs_paths -> m = GET \/ m = HEAD -> handle e (Req m p q) s = (Resp 200 (BDocs p), s).
Proof.
  intros Hp Hm. unfold handle, route. cbn [req_method req_path].
  apply existsb_eqb_elem in Hp as ->. by destruct Hm as [->| ->].
Qed.

(** Routing: a request whose method and path match no route of the app
    leaves the store unchanged and is answered by Starlette's fallback:
    405 when the path is routed for another method, else a 307 redirect
    when the path with its trailing slashes removed is routed, else
    404. *)
Theorem handle_no_route e rq s :
  (req_method rq, req_path rq) ∉ routes -> handle e rq s = (no_route rq, s).
Proof.
  destruct rq as [m p q]. cbn [req_method req_path]. intros Hn. unfold handle, route. cbn [req_method req_path].
  destruct (existsb (String.eqb p) docs_paths) eqn:Ed.
  - apply existsb_eqb_elem in Ed.
    repeat (apply elem_of_cons in Ed as [->|Ed]); [..|by apply elem_of_nil in Ed];
      destruct m; first [reflexivity|not_a_route Hn].
  - cbn [andb]. destruct m;
      repeat match goal with
      | |- context [String.eqb p ?lit] =>
          destruct (String.eqb_spec p lit) as [->|?]; [not_a_route Hn|]
      end; reflexivity.
Qed.

(** Routing: a request that matches a route of the app is answered 200,
    422 (a [limit] that is not an integer) or 500 (an exception in the
    handler), never by the router's 404, 405 or 307. *)
Theorem handle_routed_status e rq s :
  (req_method rq, req_path rq) ∈ routes -> status_code (handle e rq s).1 ∈ [200; 422; 500]%Z.
Proof.
  destruct rq as [m p q]. cbn [req_method req_path]. unfold routes. cbn [flat_map docs_paths app].
  intros Hin. repeat (apply elem_of_cons in Hin as [Hin|Hin]; [injection Hin as -> ->|]);
    [..|by apply elem_of_nil in Hin];
    try (rewrite handle_docs; [set_solver|set_solver|auto]).
  - rewrite handle_get_root. set_solver.
  - rewrite handle_get_test. set_solver.
  - rewrite handle_post_seed. pose proof (seed_demo_500 s) as H5.
    destruct (seed_demo s) as [r s']. apply respond_status in H5. set_solver.
  - rewrite handle_get_pros. apply with_limit_status3. intros. apply rmap_500, list_docs_500.
  - rewrite handle_get_skills. apply with_limit_status3. intros. apply rmap_500, list_docs_500.
  - rewrite handle_get_requests. apply with_limit_status3. intros. apply rmap_500, list_docs_500.
Qed.


(** Routing, [redirect_slashes]: a request for a routed path other than
    ["/"] with a trailing slash is redirected, whatever its method, by a
    307 to the path without the slash that keeps the query; the handlers
    and the store are not reached. *)
Theorem handle_trailing_slash e m p q s :
  p ∈ map snd routes -> p <> "/" -> handle e (Req m (p +:+ "/") q) s = (Resp 307 (BRedirect p q), s).
Proof.
  intros Hp Hne. unfold routes in Hp. cbn [map flat_map docs_paths app snd] in Hp.
  repeat (apply elem_of_cons in Hp as [->|Hp]); [..|by apply elem_of_nil in Hp];
    try congruence; destruct m; reflexivity.
Qed.

(** Safety (spec section 3, create and read only): no request updates or
    deletes a stored document; after any request every collection
    extends what it held before. *)
Theorem handle_append_only e rq s c : coll s c `prefix_of` coll (handle e rq s).2 c.
Proof. destruct (handle_state e rq s) as [->| ->]; [done|apply seed_demo_prefix]. Qed.

(** Type of the stored data: every request keeps every stored document a
    dict with pairwise distinct keys that starts with its store-assigned
    ["_id"]. *)
Theorem handle_store_wf e rq s : store_wf s -> store_wf (handle e rq s).2.
Proof.
  intros Hwf c. destruct (handle_state e rq s) as [->| ->]; [done|].
  destruct (seed_demo_seeded s c) as [->|[[_ Hst]|[_ ->]]]; [done| |done].
  eapply stamped_doc_wf; [exact Hst|apply demo_docs_wf].
Qed.
End Routing.

Section EndToEnd.
Context {S : Type} `{DocStoreCore S}.


Lemma seeded_from_empty demo after : seeded [] after demo -> stamped demo after.
Proof. by intros [[_ Hs]|[? _]]. Qed.

(** C7. Seeding an empty store fills the three collections with exactly the
    demo records of main.py, in order. *)
Theorem seed_demo_empty_contents s :
  db_ready s = true -> db_live s = true ->
  coll s "pro" = [] -> coll s "skill" = [] -> coll s "request" = [] ->
  exists s', seed_demo s = (Ok seed_ok, s') /\
    map (dict_get "name") (coll s' "pro")
      = map (fun n => Some (VStr n)) ["Aisha Khan"; "Marco Silva"; "Yuki Tanaka"] /\
    map (dict_get "title") (coll s' "skill")
      = map (fun n => Some (VStr n)) ["Intro to Python"; "Figma Essentials"; "Exam Prep: Calc I"] /\
    map (dict_get "title") (coll s' "request")
      = map (fun n => Some (VStr n)) ["Debug my JS app"; "Logo critique"; "Calc homework help"].
Proof.
  intros Hr Hl Hp Hs Hq.
  destruct (seed_demo_live_spec s Hr Hl) as (s' & E & P & K & Q & _).
  rewrite Hp in P. rewrite Hs in K. rewrite Hq in Q.
  exists s'. split_and!; [done|..];
    [rewrite (stamped_get "name" _ _ ltac:(done) (seeded_from_empty _ _ P))
    |rewrite (stamped_get "title" _ _ ltac:(done) (seeded_from_empty _ _ K))
    |rewrite (stamped_get "title" _ _ ltac:(done) (seeded_from_empty _ _ Q))]; reflexivity.
Qed.

(** C15. [POST /seed] on an unconfigured store answers 500 "Database not
    configured" and writes nothing. *)
Theorem seed_unconfigured_500 e q s :
  db_ready s = false ->
  handle e (Req POST "/seed" q) s = (Resp 500 (BDetail "Database not configured"), s).
Proof. intros Hr. rewrite handle_post_seed. by rewrite seed_demo_not_ready. Qed.

(** C29. [POST /seed] on an unreachable store fails with 500 before any write. *)
Theorem seed_unreachable_500 e q s :
  db_ready s = true -> db_live s = false ->
  handle e (Req POST "/seed" q) s = (Resp 500 (BText "Internal Server Error"), s).
Proof.
  intros Hr Hl. destruct (seed_demo_down s Hr Hl) as [m Hm].
  rewrite handle_post_seed. by rewrite Hm.
Qed.

(** *** GET /test *)

(** C19. The health check always answers 200; when the store is configured
    but unreachable it reports the (truncated) error and no
    collections. *)
Theorem test_unreachable e q (s : S) :
  db_ready s = true -> db_live s = false ->
  exists m r, handle e (Req GET "/test" q) s = (Resp 200 (BTest r), s) /\
    database r = String.append "⚠️ Connected but Error: " (String.substring 0 50 m) /\
    connection_status r = "Connected" /\ collections r = [].
Proof.
  intros Hr Hl. destruct (names_down s Hl) as [m Hm].
  exists m. eexists. split.
  - rewrite handle_get_test. unfold test_database. rewrite Hr, Hm. reflexivity.
  - split_and!; reflexivity.
Qed.

(** C30. When the store answers, the health check lists at most ten
    collections, each of them non-empty. *)
Theorem test_live e s :
  db_ready s = true -> db_live s = true ->
  database (test_database e s) = "✅ Connected & Working" /\
  length (collections (test_database e s)) <= 10 /\
  (forall c, c ∈ collections (test_database e s) -> coll s c <> []).
Proof.
  intros Hr Hl. destruct (names_live s Hr Hl) as (l & Hn & Hspec).
  unfold test_database. rewrite Hr, Hn. cbn. split_and!; [done| |].
  - rewrite length_take. lia.
  - intros c Hc. apply Hspec. apply elem_of_take in Hc as (i & Hi & _).
    by eapply list_elem_of_lookup_2.
Qed.

(** C31. The health check reports the value of [DATABASE_NAME] itself, not
    only whether it is set. *)
Theorem test_reports_db_name e s n :
  db_ready s = true -> DATABASE_NAME e = Some n -> n <> "" ->
  database_name (test_database e s) = n.
Proof.
  intros Hr Hn Hne. unfold test_database. rewrite Hr, Hn. cbn.
  destruct (String.eqb_spec n ""); [done|]. by destruct (list_collection_names s).
Qed.

(** *** The [limit] query parameter *)

(** C28. A [limit] without a decimal digit (and at most 4300 characters
    long) is answered with 422 and the [int_parsing] error on
    [("query", "limit")], before the handler runs. *)
Theorem pros_bad_limit_422 e s v :
  has_digit v = false -> (String.length v <= 4300)%nat ->
  handle e (Req GET "/pros" [("limit", v)]) s
  = (Resp 422 (BQueryErrors [FieldError [LKey "query"; LKey "limit"] IntParsing]), s).
Proof.
  intros Hv Hl. rewrite handle_get_pros. unfold with_limit, with_limit_o, query_int.
  change (query_get "limit" [("limit", v)]) with (Some v). cbn [coerce_int].
  by rewrite str_as_int_no_digit.
Qed.

(** C27. A client that sends [limit=str(n)], with any whitespace around
    it and at most 4300 characters long, is served with limit [n]. *)
Theorem pros_limit_roundtrip e n s ws ws' :
  forallb rust_space (String.list_ascii_of_string ws) = true ->
  forallb rust_space (String.list_ascii_of_string ws') = true ->
  (String.length (print_int n) <= 4300)%nat ->
  fst (handle e (Req GET "/pros" [("limit", ws +:+ print_int n +:+ ws')]) s)
  = respond (rmap BPros (list_pros n s)).
Proof.
  intros Hws Hws' Hl. rewrite handle_get_pros. cbn [fst].
  apply (with_limit_print _ _ (ws +:+ print_int n +:+ ws') n (fun lim => rmap BPros (list_pros lim s)));
    [reflexivity|by apply str_as_int_print].
Qed.
(** C2. [seed_demo] on a configured, reachable store: it answers
    [{"status": "ok", ...}], fills each empty collection with its three
    demo documents, leaves non-empty ones and every other collection
    unchanged, and keeps the store configured and reachable. *)
Theorem seed_demo_live s :
  db_ready s = true -> db_live s = true ->
  exists s', seed_demo s = (Ok seed_ok, s') /\
    seeded (coll s "pro") (coll s' "pro") (map Pro.dump (values_of demo_pros)) /\
    seeded (coll s "skill") (coll s' "skill") (map Skill.dump (values_of demo_skills)) /\
    seeded (coll s "request") (coll s' "request")
      (map Request.dump (values_of demo_requests)) /\
    (forall c, c ∉ ["pro"; "skill"; "request"] -> coll s' c = coll s c) /\
    db_ready s' = true /\ db_live s' = true.
Proof. apply seed_demo_live_spec. Qed.
End EndToEnd.

Section Claims.
Context {S : Type} `{DocStoreLaws S}.

(** C8. [GET /pros?limit=2] after seeding an empty store returns the first
    two demo profiles, each serialised without ["_id"]. *)
Theorem seed_then_list_pros_2 e s :
  db_ready s = true -> db_live s = true -> coll s "pro" = [] ->
  exists s' ps, seed_demo s = (Ok seed_ok, s') /\
    fst (handle e (Req GET "/pros" [("limit", "2")]) s') = Resp 200 (BPros ps) /\
    map Pro.name ps = ["Aisha Khan"; "Marco Silva"] /\
    Forall (fun p => "_id" ∉ keys (Pro.dump p)) ps.
Proof.
  intros Hr Hl Hp.
  destruct (seed_demo_live_spec s Hr Hl) as (s' & E & P & _ & _ & _ & Hr' & Hl').
  rewrite Hp in P. apply seeded_from_empty in P.
  exists s', (take 2 (values_of demo_pros)). split_and!; [done| | reflexivity |].
  - rewrite handle_get_pros. cbn [fst]. rewrite (with_limit_print _ _ _ 2) by reflexivity.
    rewrite list_pros_eq by done.
    by rewrite (validate_all_stamped "Pro" Pro.validate Pro.dump _ _ (Z.to_nat 2)
                  demo_pros_valid dump_no_id_pro P).
  - apply Forall_forall. intros. apply dump_no_id_pro.
Qed.

(** C20. Stripping ["_id"] before [Pro( **...)] in [list_pros] is redundant:
    the listing equals the one that validates the stored documents
    as they are. *)
Theorem list_pros_strip_redundant lim s :
  db_ready s = true -> db_live s = true ->
  list_pros lim s = mapR (fun d => lift_v "Pro" (Pro.validate d)) (take (Z.to_nat lim) (coll s "pro")).
Proof.
  intros Hr Hl. rewrite list_pros_eq by done. unfold validate_all.
  apply mapR_ext. intros d. by rewrite Pro.validate_strip_id.
Qed.
End Claims.

Section AnyOrder.
Context {S : Type} `{DocStoreAnyOrder S}.

(** C9. Spec section 8 under the store contract read literally, where
    [find] may return documents in any order: [GET /pros?limit=v],
    where Pydantic reads [v] as the int [k], after seeding an empty
    store answers 200 with exactly [min(k, 3)]
    profiles, each one of the seeded demo profiles and none repeated
    more often than it was seeded. *)
Theorem seed_then_list_pros_any e s v k :
  db_ready s = true -> db_live s = true -> coll s "pro" = [] -> str_as_int v = Ok k ->
  exists s' ps, seed_demo s = (Ok seed_ok, s') /\
    fst (handle e (Req GET "/pros" [("limit", v)]) s') = Resp 200 (BPros ps) /\
    length ps = Nat.min (Z.to_nat k) 3 /\ ps ⊆+ values_of demo_pros.
Proof.
  intros Hr Hl Hp Hv.
  destruct (seed_demo_live_spec s Hr Hl) as (s' & E & P & _ & _ & _ & Hr' & Hl').
  rewrite Hp in P. apply seeded_from_empty in P.
  destruct (get_documents_any "pro" k s' Hr' Hl') as (l & El & Hsub & Hlen).
  destruct (validate_all_sub "Pro" Pro.validate Pro.dump Pro.validate_strip_id _ _ l
              demo_pros_valid dump_no_id_pro P Hsub) as (ps & Ev & Hps & Hlenps).
  exists s', ps. split_and!; [done| | |done].
  - rewrite handle_get_pros. cbn [fst]. rewrite (with_limit_print _ _ v k) by done.
    unfold list_pros. rewrite El. cbn [rbind]. unfold validate_all in Ev. by rewrite Ev.
  - by rewrite Hlenps, Hlen, (stamped_length _ _ P), length_map.
Qed.
End AnyOrder.
