(* ===== verification/Server.v ===== *)
(** * The server process: start-up and the CORS layer

    - Module [Startup]: main.py lines 106-109, [port = int(os.getenv("PORT",
      8000))] then [uvicorn.run(app, host="0.0.0.0", port=port)]: Python's
      [int(str)] on the [PORT] value ([py_int_str]: surrounding
      whitespace, a sign, digits with single underscores between them),
      the default when [PORT] is unset, and the port range the socket
      bind of [uvicorn.run] accepts.
    - Module [Cors]: main.py lines 11-19, the [CORSMiddleware] the app is
      built with, placed as Starlette places it, between the outermost
      [ServerErrorMiddleware] and the router ([Api.route]). *)
From S2P Require Import Prelude Values Coerce Schemas Store Api.
From Stdlib Require Import Ascii.
Local Close Scope Q_scope.

(** ** Python string helpers *)

(** Python's whitespace on one ASCII character ([_Py_ascii_whitespace]):
    \t \n \v \f \r (9-13), the separators 28-31, and space. *)
Definition py_space (c : ascii) : bool :=
  let n := nat_of_ascii c in
  (n =? 32)%nat || ((9 <=? n)%nat && (n <=? 13)%nat) || ((28 <=? n)%nat && (n <=? 31)%nat).

(** [str.strip()] *)
Definition strip (s : string) : string := strip_with py_space s.

Definition all_space (s : string) : bool := forallb py_space (String.list_ascii_of_string s).

Definition no_space (s : string) : bool := forallb (fun c => negb (py_space c)) (String.list_ascii_of_string s).

Module Startup.

(** The digits after the first: an underscore must be followed by a
    digit (CPython's [PyLong_FromString], base 10). *)
Fixpoint py_digits (acc : Z) (s : string) : option Z :=
  match s with
  | EmptyString => Some acc
  | String c s' =>
      if Ascii.eqb c "_" then
        match s' with
        | String c' s'' =>
            match digit_val c' with Some d => py_digits (10 * acc + d)%Z s'' | None => None end
        | EmptyString => None
        end
      else match digit_val c with Some d => py_digits (10 * acc + d)%Z s' | None => None end
  end.

(** An unsigned numeral starts with a digit. *)
Definition py_uint (s : string) : option Z :=
  match s with
  | EmptyString => None
  | String c s' => match digit_val c with Some d => py_digits d s' | None => None end
  end.

(** [int(s)] for a [str]: [None] is the [ValueError]. *)
Definition py_int_str (s : string) : option Z :=
  match strip s with
  | String "-" s' => Z.opp <$> py_uint s'
  | String "+" s' => py_uint s'
  | s' => py_uint s'
  end.

Inductive startup_error : Type :=
  | PortValueError (v : string)
  | PortOutOfRange (port : Z).

(** [port = int(os.getenv("PORT", 8000))]: [os.getenv] returns the
    value when the variable is set, even to the empty string. *)
Definition startup_port (PORT : option string) : result startup_error Z :=
  match PORT with
  | None => Ok 8000%Z
  | Some v => match py_int_str v with Some p => Ok p | None => Err (PortValueError v) end
  end.

(** [uvicorn.run(app, host="0.0.0.0", port=port)]: the socket bind
    raises [OverflowError] for a port outside [0..65535]. *)
Definition serve_port (PORT : option string) : result startup_error Z :=
  p <- startup_port PORT ;;
  if (0 <=? p)%Z && (p <=? 65535)%Z then Ok p else Err (PortOutOfRange p).

(** *** Lemmas *)






End Startup.


(** [PORT] set but blank (e.g. [PORT=] in a deployment file) is not the
    default 8000: [int("")] raises and the process does not start. *)
Lemma startup_port_blank v : all_space v = true -> Startup.startup_port (Some v) = Err (Startup.PortValueError v).
Proof.
  intros Hv. unfold Startup.startup_port, Startup.py_int_str, strip, strip_with.
  rewrite <- (append_empty_r v), lstrip_with_all by done. by rewrite append_empty_r.
Qed.

(** ** The CORS layer *)

Module Cors.

Abbreviation headers := (list (string * string)).

(** [Headers.get(k)]: the first header with that name, ignoring case. *)
Fixpoint hget (k : string) (hs : headers) : option string :=
  match hs with
  | [] => None
  | (k', v) :: hs' => if String.eqb (lower k') (lower k) then Some v else hget k hs'
  end.

Definition hdel (k : string) (hs : headers) : headers :=
  List.filter (fun kv => negb (String.eqb (lower kv.1) (lower k))) hs.

(** [headers[k] = v]: the first header of that name takes the value (the
    others are dropped), or a new header is appended; names are stored
    lower-case. *)
Fixpoint hset (k v : string) (hs : headers) : headers :=
  match hs with
  | [] => [(lower k, v)]
  | (k', v') :: hs' =>
      if String.eqb (lower k') (lower k) then (lower k, v) :: hdel k hs' else (k', v') :: hset k v hs'
  end.

Definition hupdate (upd hs : headers) : headers := fold_left (fun acc kv => hset kv.1 kv.2 acc) upd hs.

(** [MutableHeaders.add_vary_header] *)
Definition add_vary (vary : string) (hs : headers) : headers :=
  match hget "vary" hs with
  | Some existing => hset "vary" (existing +:+ ", " +:+ vary) hs
  | None => hset "vary" vary hs
  end.

(** [sep.join(l)] *)
Fixpoint join (sep : string) (l : list string) : string :=
  match l with
  | [] => ""
  | [x] => x
  | x :: l' => x +:+ sep +:+ join sep l'
  end.

(** [s.split(",")] *)
Fixpoint split_commas (s : string) : list string :=
  match s with
  | EmptyString => [""]
  | String c s' =>
      match split_commas s' with
      | cur :: rest => if Ascii.eqb c "," then "" :: cur :: rest else String c cur :: rest
      | [] => [String c ""]
      end
  end.

(** [sorted(set(l))] *)
Fixpoint insert_sorted (x : string) (l : list string) : list string :=
  match l with
  | [] => [x]
  | y :: l' =>
      match String.compare x y with
      | Lt => x :: l
      | Eq => l
      | Gt => y :: insert_sorted x l'
      end
  end.

Definition sorted_set (l : list string) : list string := fold_right insert_sorted [] l.

Definition ALL_METHODS : list string := ["DELETE"; "GET"; "HEAD"; "OPTIONS"; "PATCH"; "POST"; "PUT"].

Definition SAFELISTED_HEADERS : list string := ["Accept"; "Accept-Language"; "Content-Language"; "Content-Type"].

(** The arguments of [CORSMiddleware] (no [allow_origin_regex]). *)
Record cors_config : Type := CorsConfig {
  allow_origins : list string;
  allow_methods : list string;
  allow_headers : list string;
  allow_credentials : bool;
  expose_headers : list string;
  max_age : Z
}.

(** main.py lines 13-19; [expose_headers] and [max_age] keep their
    defaults. *)
Definition app_cors : cors_config := CorsConfig ["*"] ["*"] ["*"] true [] 600.

(** What [CORSMiddleware.__init__] derives from its arguments. *)
Definition star_in (l : list string) : bool := existsb (String.eqb "*") l.

Definition methods (cfg : cors_config) : list string :=
  if star_in (allow_methods cfg) then ALL_METHODS else allow_methods cfg.

Definition all_origins (cfg : cors_config) : bool := star_in (allow_origins cfg).

Definition all_headers (cfg : cors_config) : bool := star_in (allow_headers cfg).

Definition explicit_origin (cfg : cors_config) : bool := negb (all_origins cfg) || allow_credentials cfg.

Definition header_list (cfg : cors_config) : list string := sorted_set (SAFELISTED_HEADERS ++ allow_headers cfg).

Definition simple_headers (cfg : cors_config) : headers :=
  (if all_origins cfg then [("Access-Control-Allow-Origin", "*")] else []) ++
  (if allow_credentials cfg then [("Access-Control-Allow-Credentials", "true")] else []) ++
  (match expose_headers cfg with
   | [] => []
   | l => [("Access-Control-Expose-Headers", join ", " l)]
   end).

Definition preflight_headers (cfg : cors_config) : headers :=
  let h0 := if explicit_origin cfg then hset "Vary" "Origin" [] else hset "Access-Control-Allow-Origin" "*" [] in
  let h1 := hset "Access-Control-Max-Age" (print_int (max_age cfg))
              (hset "Access-Control-Allow-Methods" (join ", " (methods cfg)) h0) in
  let h2 := if negb (all_headers cfg) then hset "Access-Control-Allow-Headers" (join ", " (header_list cfg)) h1
            else h1 in
  if allow_credentials cfg then hset "Access-Control-Allow-Credentials" "true" h2 else h2.

Definition is_allowed_origin (cfg : cors_config) (origin : string) : bool :=
  all_origins cfg || existsb (String.eqb origin) (allow_origins cfg).

(** A response and its headers (the content headers are not modelled). *)
Record http_response : Type := HResp {
  h_resp : response;
  h_headers : headers
}.

(** [preflight_response(request_headers)] *)
Definition preflight (cfg : cors_config) (hs : headers) (origin : string) : http_response :=
  let requested_method := default "" (hget "access-control-request-method" hs) in
  let '(h, f_origin) :=
    if is_allowed_origin cfg origin
    then (if explicit_origin cfg then hset "Access-Control-Allow-Origin" origin (preflight_headers cfg)
          else preflight_headers cfg, [])
    else (preflight_headers cfg, ["origin"]) in
  let f_method := if existsb (String.eqb requested_method) (methods cfg) then [] else ["method"] in
  let '(h, f_headers) :=
    match hget "access-control-request-headers" hs with
    | Some rh =>
        if all_headers cfg then (hset "Access-Control-Allow-Headers" rh h, [])
        else if forallb (fun x => existsb (String.eqb (strip (lower x))) (map lower (header_list cfg)))
                        (split_commas rh)
        then (h, []) else (h, ["headers"])
    | None => (h, [])
    end in
  match f_origin ++ f_method ++ f_headers with
  | [] => HResp (Resp 200 (BText "OK")) h
  | failures => HResp (Resp 400 (BText ("Disallowed CORS " +:+ join ", " failures))) h
  end.

(** [send]: the headers of a response to a simple cross-origin request. *)
Definition simple_send (cfg : cors_config) (hs : headers) (origin : string) (h : headers) : headers :=
  let h := hupdate (simple_headers cfg) h in
  let has_cookie := bool_decide (is_Some (hget "cookie" hs)) in
  if (all_origins cfg && has_cookie) || (negb (all_origins cfg) && is_allowed_origin cfg origin)
  then add_vary "Origin" (hset "Access-Control-Allow-Origin" origin h)
  else h.

Record http_request : Type := HReq {
  h_req : request;
  h_req_headers : headers
}.

Section Stack.
Context {S : Type} `{DocStore S}.

(** The application as Starlette assembles it:
    [ServerErrorMiddleware(CORSMiddleware(ExceptionMiddleware(router)))].
    An exception no handler catches passes through the CORS layer before
    [ServerErrorMiddleware] turns it into a 500. *)
Definition app_stack (cfg : cors_config) (e : env) (hrq : http_request) (s : S) : http_response * S :=
  let rq := h_req hrq in
  let hs := h_req_headers hrq in
  match hget "origin" hs with
  | None => let '(o, s') := route e rq s in (HResp (server_error o) [], s')
  | Some origin =>
      if bool_decide (req_method rq = OPTIONS) && bool_decide (is_Some (hget "access-control-request-method" hs))
      then (preflight cfg hs origin, s)
      else
        let '(o, s') := route e rq s in
        match o with
        | Answer r => (HResp r (simple_send cfg hs origin []), s')
        | Uncaught _ => (HResp (server_error o) [], s')
        end
  end.

(** [app = FastAPI(...)] with [app.add_middleware(CORSMiddleware, ...)]. *)
Definition app (e : env) (hrq : http_request) (s : S) : http_response * S := app_stack app_cors e hrq s.
End Stack.

(** *** Header maps *)

Lemma lower_ascii_idem c : lower_ascii (lower_ascii c) = lower_ascii c.
Proof. destruct c as [[] [] [] [] [] [] [] []]; reflexivity. Qed.

Lemma lower_idem k : lower (lower k) = lower k.
Proof.
  unfold lower. rewrite String.list_ascii_of_string_of_list_ascii, map_map.
  f_equal. apply map_ext, lower_ascii_idem.
Qed.

Lemma hget_hdel_ne k k' hs : String.eqb (lower k) (lower k') = false -> hget k' (hdel k hs) = hget k' hs.
Proof.
  intros Hne. induction hs as [|[k0 v0] hs IH]; [done|]. unfold hdel. cbn [List.filter fst].
  destruct (String.eqb (lower k0) (lower k)) eqn:E; cbn [negb hget].
  - apply String.eqb_eq in E. rewrite E, Hne. apply IH.
  - fold (hdel k hs). by rewrite IH.
Qed.

Lemma hget_hset_eq k k' v hs : lower k = lower k' -> hget k' (hset k v hs) = Some v.
Proof.
  intros Hk. induction hs as [|[k0 v0] hs IH]; cbn [hset hget];
    [by rewrite lower_idem, Hk, String.eqb_refl|].
  destruct (String.eqb (lower k0) (lower k)) eqn:E; cbn [hget].
  - by rewrite lower_idem, Hk, String.eqb_refl.
  - by rewrite <- Hk, E.
Qed.

Lemma hget_hset_ne k k' v hs :
  String.eqb (lower k) (lower k') = false -> hget k' (hset k v hs) = hget k' hs.
Proof.
  intros Hne. induction hs as [|[k0 v0] hs IH]; cbn [hset hget]; [by rewrite lower_idem, Hne|].
  destruct (String.eqb (lower k0) (lower k)) eqn:E; cbn [hget].
  - apply String.eqb_eq in E. rewrite lower_idem, Hne, E, Hne. by apply hget_hdel_ne.
  - by rewrite IH.
Qed.

(** [add_vary] only touches the [vary] header. *)
Lemma hget_add_vary_ne k v hs : String.eqb "vary" (lower k) = false -> hget k (add_vary v hs) = hget k hs.
Proof. intros Hne. unfold add_vary. by destruct (hget "vary" hs); apply hget_hset_ne. Qed.

Section CorsTheorems.
Context {S : Type} `{DocStore S}.

(** C22. Spec section 6, "cross-origin requests are accepted from any origin,
    with any method/header, credentials allowed", as main.py configures
    Starlette: a preflight from any origin never reaches the handlers, is
    answered with that origin, credentials allowed and the requested
    headers echoed, and succeeds exactly when the requested method is
    one of the seven methods ["*"] stands for. *)
Theorem preflight_any_origin e p q hs origin m (s : S) :
  hget "origin" hs = Some origin -> hget "access-control-request-method" hs = Some m ->
  exists r, app e (HReq (Req OPTIONS p q) hs) s = (r, s) /\
    (status_code (h_resp r) = 200%Z <-> m ∈ ALL_METHODS) /\
    hget "access-control-allow-origin" (h_headers r) = Some origin /\
    hget "access-control-allow-credentials" (h_headers r) = Some "true" /\
    (forall rh, hget "access-control-request-headers" hs = Some rh ->
       hget "access-control-allow-headers" (h_headers r) = Some rh).
Proof.
  intros Ho Hm. unfold app, app_stack. cbn [h_req h_req_headers req_method]. rewrite Ho, Hm.
  rewrite (bool_decide_eq_true_2 (OPTIONS = OPTIONS)), (bool_decide_eq_true_2 (is_Some (Some m))) by eauto.
  cbn [andb]. eexists. split; [reflexivity|]. unfold preflight. rewrite Hm.
  change (is_allowed_origin app_cors origin) with true. change (explicit_origin app_cors) with true.
  change (methods app_cors) with ALL_METHODS. change (all_headers app_cors) with true.
  change (default "" (Some m)) with m.
  destruct (hget "access-control-request-headers" hs) as [rh|] eqn:Hrh;
    destruct (existsb (String.eqb m) ALL_METHODS) eqn:Hmeth; cbn [app h_resp h_headers status_code];
    (split; [rewrite <- existsb_eqb_elem, Hmeth; split; discriminate || done|]);
    rewrite ?hget_hset_ne by reflexivity; rewrite ?hget_hset_eq by reflexivity;
    (split; [done|]); (split; [reflexivity|]); intros rh' [= <-]; by apply hget_hset_eq.
Qed.

Lemma not_preflight_false rq hs :
  req_method rq <> OPTIONS \/ hget "access-control-request-method" hs = None ->
  bool_decide (req_method rq = OPTIONS) && bool_decide (is_Some (hget "access-control-request-method" hs))
  = false.
Proof.
  intros [Hm|Hn]; [by rewrite bool_decide_eq_false_2|].
  rewrite Hn, (bool_decide_eq_false_2 (is_Some None)); [apply andb_false_r|]. by intros [? ?].
Qed.

(** C23. Composition with the CORS layer: a cross-origin request that is not
    a preflight is served exactly as [handle] serves it (same status,
    body and store).  A response the application produced carries
    [Access-Control-Allow-Origin] ("*", or the origin itself when the
    request sends cookies) and [Access-Control-Allow-Credentials: true];
    the 500 of an exception no handler caught carries no CORS header,
    since [ServerErrorMiddleware] sits outside the CORS layer. *)
Theorem cors_simple e rq hs origin (s : S) :
  hget "origin" hs = Some origin ->
  req_method rq <> OPTIONS \/ hget "access-control-request-method" hs = None ->
  exists r, app e (HReq rq hs) s = (r, (handle e rq s).2) /\ h_resp r = (handle e rq s).1 /\
    (forall r0, (route e rq s).1 = Answer r0 ->
       hget "access-control-allow-origin" (h_headers r) =
         Some (if bool_decide (is_Some (hget "cookie" hs)) then origin else "*") /\
       hget "access-control-allow-credentials" (h_headers r) = Some "true") /\
    (forall ex, (route e rq s).1 = Uncaught ex -> h_headers r = []).
Proof.
  intros Ho Hp. unfold app, app_stack, handle. cbn [h_req h_req_headers]. rewrite Ho, not_preflight_false by done.
  destruct (route e rq s) as [[r0|ex] s']; cbn [fst snd]; eexists; (split; [reflexivity|]);
    (split; [reflexivity|]); (split; intros ? [=]); [|done]. subst.
  unfold simple_send. change (hupdate (simple_headers app_cors) [])
    with [("access-control-allow-origin", "*"); ("access-control-allow-credentials", "true")].
  change (all_origins app_cors) with true. cbn [andb negb orb h_headers].
  destruct (bool_decide (is_Some (hget "cookie" hs))); cbn [orb].
  - rewrite !hget_add_vary_ne by reflexivity. rewrite hget_hset_eq, hget_hset_ne by reflexivity. done.
  - done.
Qed.

(** Without an [Origin] header the CORS layer is transparent: the
    response and the store are those of [handle], so every theorem about
    [handle] holds of the application as deployed. *)
Theorem app_no_origin e rq hs (s : S) :
  hget "origin" hs = None -> app e (HReq rq hs) s = (HResp (handle e rq s).1 [], (handle e rq s).2).
Proof. intros Ho. unfold app, app_stack, handle. cbn [h_req h_req_headers]. rewrite Ho. by destruct (route e rq s). Qed.

End CorsTheorems.

End Cors.
