(* ===== verification/Race.v ===== *)
(** * Concurrent seeding

    FastAPI runs the synchronous handler [seed_demo] of several requests
    in parallel threads; between two store operations of one call,
    operations of the others may run.  A call is a thread whose program
    is the list of its remaining atomic store operations: [ACheck c docs]
    is [db[c].count_documents({}) == 0] followed, when it holds, by one
    [AInsert c d] ([create_document(c, d)]) per demo document.  [step]
    runs the next operation of any thread; an exception ends the thread.

    The check-then-insert of main.py (lines 60, 69, 78) is not atomic:
    the spec (sections 4.2 and 5) accepts that two concurrent calls may
    both insert.  The theorems show that a non-empty collection is never
    written (the check), that after all calls have finished an empty
    store holds [3k] profiles with [1 <= k <= n] (invariant [quiet_inv]),
    and that [k = n] is reached by some interleaving for every [n].  The
    action language itself has no loop: every interleaving terminates (a
    weight every step decreases) and none is stuck before every call has
    finished, whatever the programs of the threads.  The
    invariant [race_valid] (a valid store, and valid documents in every
    pending insert) composes the race with listing: a [GET /pros] that
    runs at any point of an interleaving answers 200. *)
From S2P Require Import Prelude Values Coerce Schemas Store Api ApiTheorems.
Local Close Scope Q_scope.

Inductive action : Type :=
  | ACheck (c : string) (docs : list document)
  | AInsert (c : string) (d : document).

Abbreviation thread := (list action).

(** The program of one [seed_demo] call on a configured store. *)
Definition seed_prog : thread :=
  [ACheck "pro" (map Pro.dump (values_of demo_pros));
   ACheck "skill" (map Skill.dump (values_of demo_skills));
   ACheck "request" (map Request.dump (values_of demo_requests))].

Section Race.
Context {St : Type} `{DocStore St}.

Abbreviation config := (St * list thread)%type.

Inductive step : config -> config -> Prop :=
  | step_check_empty s ts i c docs rest :
      ts !! i = Some (ACheck c docs :: rest) -> count_documents c s = Ok 0 ->
      step (s, ts) (s, <[i := map (AInsert c) docs ++ rest]> ts)
  | step_check_full s ts i c docs rest n :
      ts !! i = Some (ACheck c docs :: rest) -> count_documents c s = Ok (S n) ->
      step (s, ts) (s, <[i := rest]> ts)
  | step_check_raise s ts i c docs rest e :
      ts !! i = Some (ACheck c docs :: rest) -> count_documents c s = Err e ->
      step (s, ts) (s, <[i := []]> ts)
  | step_insert s ts i c d rest d' s' :
      ts !! i = Some (AInsert c d :: rest) -> create_document c d s = Ok (d', s') ->
      step (s, ts) (s', <[i := rest]> ts)
  | step_insert_raise s ts i c d rest e :
      ts !! i = Some (AInsert c d :: rest) -> create_document c d s = Err e ->
      step (s, ts) (s, <[i := []]> ts).

(** The same step as a function of the thread that moves. *)
Definition step_fn (i : nat) (cfg : config) : option config :=
  let '(s, ts) := cfg in
  match ts !! i with
  | Some (ACheck c docs :: rest) =>
      match count_documents c s with
      | Ok 0 => Some (s, <[i := map (AInsert c) docs ++ rest]> ts)
      | Ok (S _) => Some (s, <[i := rest]> ts)
      | Err _ => Some (s, <[i := []]> ts)
      end
  | Some (AInsert c d :: rest) =>
      match create_document c d s with
      | Ok (_, s') => Some (s', <[i := rest]> ts)
      | Err _ => Some (s, <[i := []]> ts)
      end
  | _ => None
  end.

(** A schedule: the threads that move, in order; an idle thread's turn
    is skipped. *)
Fixpoint run (sched : list nat) (cfg : config) : config :=
  match sched with
  | [] => cfg
  | i :: sched' =>
      match step_fn i cfg with
      | Some cfg' => run sched' cfg'
      | None => run sched' cfg
      end
  end.

(** Documents of collection [c] an action may still insert. *)
Definition act_potential (c : string) (a : action) : nat :=
  match a with
  | ACheck c' docs => if String.eqb c' c then length docs else 0
  | AInsert c' _ => if String.eqb c' c then 1 else 0
  end.

Definition potential (c : string) (t : thread) : nat := sum_list_with (act_potential c) t.

Definition measure (c : string) (cfg : config) : nat :=
  length (coll cfg.1 c) + sum_list_with (potential c) cfg.2.

End Race.

(** A configuration where one store is shared by the remaining programs
    of [n] concurrent calls. *)
Definition seed_calls {St} (s : St) (n : nat) : St * list thread := (s, replicate n seed_prog).

(** A call whose profile check has found the collection empty. *)
Definition seed_prog_checked : thread :=
  map (AInsert "pro") (map Pro.dump (values_of demo_pros)) ++ drop 1 seed_prog.

(** The environment of the race example. *)
Definition race_env : env := Env (Some "mongodb://db:27017") (Some "karma").

(** Pending inserts into, and pending checks of, collection [c], summed
    over all threads. *)
Definition act_pending (c : string) (a : action) : nat :=
  match a with
  | AInsert c' _ => if String.eqb c' c then 1 else 0
  | ACheck _ _ => 0
  end.

Definition act_checks (c : string) (a : action) : nat :=
  match a with
  | ACheck c' _ => if String.eqb c' c then 1 else 0
  | AInsert _ _ => 0
  end.

Definition tsum (f : action -> nat) (ts : list thread) : nat := sum_list_with (sum_list_with f) ts.

(** Actions as [seed_prog] produces them: documents without ["_id"], and
    three of them for the profile check. *)
Definition clean_action (a : action) : Prop :=
  match a with
  | ACheck c docs => Forall (fun d => "_id" ∉ keys d) docs /\ (c = "pro" -> length docs = 3)
  | AInsert _ d => "_id" ∉ keys d
  end.

(** On a reachable store, stored plus pending profiles are a multiple of
    three, and at least three once no thread is left to check. *)
Definition quiet_inv {St} `{DocStore St} (cfg : St * list thread) : Prop :=
  db_ready cfg.1 = true /\ db_live cfg.1 = true /\ Forall (Forall clean_action) cfg.2 /\
  (length (coll cfg.1 "pro") + tsum (act_pending "pro") cfg.2) mod 3 = 0 /\
  (3 <= length (coll cfg.1 "pro") + tsum (act_pending "pro") cfg.2 \/
   1 <= tsum (act_checks "pro") cfg.2).

(** The work an action has left: a check, plus the inserts it may add. *)
Definition act_weight (a : action) : nat :=
  match a with
  | ACheck _ docs => S (length docs)
  | AInsert _ _ => 1
  end.

Definition weight {St} (cfg : St * list thread) : nat := sum_list_with (sum_list_with act_weight) cfg.2.

(** A configuration where every call has finished. *)
Definition all_done (ts : list thread) : bool := forallb (fun t => bool_decide (t = [])) ts.

(** A document the listing of collection [c] reads back: the model of
    [c] accepts it. *)
Definition doc_valid (c : string) (d : document) : Prop :=
  (c = "pro" -> exists p, Pro.validate d = Ok p) /\
  (c = "skill" -> exists x, Skill.validate d = Ok x) /\
  (c = "request" -> exists r, Request.validate d = Ok r).

Definition act_valid (a : action) : Prop :=
  match a with
  | ACheck c docs => Forall (doc_valid c) docs
  | AInsert c d => doc_valid c d
  end.

(** The store is valid and every pending insert writes a valid document
    without ["_id"]. *)
Definition race_valid {St} `{DocStore St} (cfg : St * list thread) : Prop :=
  valid_store cfg.1 /\ Forall (Forall act_valid) cfg.2 /\ Forall (Forall clean_action) cfg.2.

Lemma replicate_app_lookup {A} k m (x y : A) : (replicate k y ++ replicate (S m) x) !! k = Some x.
Proof. by induction k. Qed.

Lemma replicate_app_insert {A} k m (x y : A) :
  <[k := y]> (replicate k y ++ replicate (S m) x) = replicate (S k) y ++ replicate m x.
Proof.
  induction k as [|k IH]; [done|].
  simpl. change (x :: replicate m x) with (replicate (S m) x). by rewrite IH.
Qed.

Section RaceTheorems.
Context {St : Type} `{DocStoreCore St}.

Lemma step_fn_sound i (cfg cfg' : St * list thread) : step_fn i cfg = Some cfg' -> step cfg cfg'.
Proof.
  destruct cfg as [s ts]. unfold step_fn. destruct (ts !! i) as [[|[c docs|c d] rest]|] eqn:Hi; try discriminate.
  - destruct (count_documents c s) as [[|n]|e] eqn:Hc; intros [= <-].
    + by eapply step_check_empty.
    + by eapply step_check_full.
    + by eapply step_check_raise.
  - destruct (create_document c d s) as [[d' s']|e] eqn:Hc; intros [= <-].
    + by eapply step_insert.
    + by eapply step_insert_raise.
Qed.

(** Every schedule is an execution of the step relation. *)
Lemma run_sound sched (cfg : St * list thread) : rtc step cfg (run sched cfg).
Proof.
  revert cfg. induction sched as [|i sched IH]; intros cfg; cbn; [done|].
  destruct (step_fn i cfg) eqn:E; [|apply IH]. eapply rtc_l; [by apply (step_fn_sound i)|]. apply IH.
Qed.

Lemma sum_insert (f : thread -> nat) (ts : list thread) i t t' :
  ts !! i = Some t ->
  sum_list_with f (<[i := t']> ts) + f t = sum_list_with f ts + f t'.
Proof.
  revert i. induction ts as [|t0 ts IH]; intros [|i] Hi; try discriminate.
  - injection Hi as ->. change (<[0 := t']> (t :: ts)) with (t' :: ts). cbn [sum_list_with]. lia.
  - change (<[S i := t']> (t0 :: ts)) with (t0 :: <[i := t']> ts). cbn [sum_list_with].
    specialize (IH i Hi). lia.
Qed.

Lemma potential_cons c a t : potential c (a :: t) = act_potential c a + potential c t.
Proof. reflexivity. Qed.

Lemma potential_app c t1 t2 : potential c (t1 ++ t2) = potential c t1 + potential c t2.
Proof. apply sum_list_with_app. Qed.

Lemma potential_inserts c c' docs :
  potential c (map (AInsert c') docs) = if String.eqb c' c then length docs else 0.
Proof.
  induction docs as [|d docs IH]; [by destruct (String.eqb c' c)|].
  cbn [map]. rewrite potential_cons, IH. cbn [act_potential length]. by destruct (String.eqb c' c).
Qed.

Lemma create_document_effect c d s d' s' :
  create_document c d s = Ok (d', s') ->
  coll s' c = coll s c ++ [d'] /\ (forall c', c' <> c -> coll s' c' = coll s c').
Proof.
  unfold create_document. destruct (db_ready s); [|discriminate].
  intros E. by destruct (insert_effect s c d d' s' E) as (? & ? & _).
Qed.

(** No step increases the number of stored plus still insertable
    documents of a collection. *)
Lemma measure_step c (cfg cfg' : St * list thread) : step cfg cfg' -> measure c cfg' <= measure c cfg.
Proof.
  unfold measure. destruct 1 as [s ts i c' docs rest Hi _ |s ts i c' docs rest n Hi _
    |s ts i c' docs rest e Hi _ |s ts i c' d rest d' s' Hi Hins |s ts i c' d rest e Hi _]; cbn [fst snd];
    pose proof (fun t' => sum_insert (potential c) ts i _ t' Hi) as Hs.
  - specialize (Hs (map (AInsert c') docs ++ rest)).
    rewrite potential_app, potential_inserts, potential_cons in Hs. cbn [act_potential] in Hs. lia.
  - specialize (Hs rest). rewrite potential_cons in Hs. lia.
  - specialize (Hs []). rewrite potential_cons in Hs. cbn [potential sum_list_with] in Hs. lia.
  - specialize (Hs rest). rewrite potential_cons in Hs. cbn [act_potential] in Hs.
    destruct (create_document_effect _ _ _ _ _ Hins) as [Hc Ho].
    destruct (String.eqb_spec c' c) as [->|Hne].
    + rewrite Hc, length_app. cbn [length]. lia.
    + rewrite (Ho c) by congruence. lia.
  - specialize (Hs []). rewrite potential_cons in Hs. cbn [potential sum_list_with] in Hs. lia.
Qed.

Lemma measure_rtc c (cfg cfg' : St * list thread) : rtc step cfg cfg' -> measure c cfg' <= measure c cfg.
Proof. induction 1 as [|x y z Hxy _ IH]; [done|]. pose proof (measure_step c _ _ Hxy). lia. Qed.

(** *** Quiescence: each call inserts all three profiles or none *)

Lemma sum_map_const {A} (f : A -> nat) (g : document -> A) docs k :
  (forall d, f (g d) = k) -> sum_list_with f (map g docs) = k * length docs.
Proof. intros Hf. induction docs as [|d docs IH]; cbn [map sum_list_with length]; [lia|]. rewrite Hf, IH. lia. Qed.

Lemma create_document_flags c d s d' s' :
  create_document c d s = Ok (d', s') -> db_ready s' = db_ready s /\ db_live s' = db_live s.
Proof.
  unfold create_document. destruct (db_ready s) eqn:Er; [|discriminate].
  intros E. destruct (insert_effect s c d d' s' E) as (_ & _ & ? & ?). split; congruence.
Qed.

Lemma create_document_live c d s :
  db_ready s = true -> db_live s = true -> "_id" ∉ keys d -> exists d' s', create_document c d s = Ok (d', s').
Proof.
  intros Hr Hl Hd. unfold create_document. rewrite Hr.
  destruct (insert_live s c d Hr Hl Hd) as (oid & s' & -> & _). eauto.
Qed.

(** The invariant [quiet_inv] holds along every interleaving. *)
Lemma quiet_inv_step (cfg cfg' : St * list thread) : step cfg cfg' -> quiet_inv cfg -> quiet_inv cfg'.
Proof.
  unfold quiet_inv. destruct 1 as [s ts i c docs rest Hi _ |s ts i c docs rest n Hi Hc
    |s ts i c docs rest e Hi Hc |s ts i c d rest d' s' Hi Hins |s ts i c d rest e Hi Hins]; cbn [fst snd];
    intros (Hr & Hl & Hcl & Hmod & Hlb);
    pose proof (fun f t' => sum_insert (sum_list_with f) ts i _ t' Hi) as Hs;
    pose proof (Forall_lookup_1 _ _ _ _ Hcl Hi) as Ht; apply Forall_cons in Ht as [Ha Hrest];
    unfold tsum in *.
  - destruct Ha as [Hdocs Hlen].
    pose proof (Hs (act_pending "pro") (map (AInsert c) docs ++ rest)) as Hp.
    pose proof (Hs (act_checks "pro") (map (AInsert c) docs ++ rest)) as Hk.
    rewrite !sum_list_with_app in Hp, Hk. cbn [sum_list_with act_pending act_checks] in Hp, Hk.
    rewrite (sum_map_const _ _ _ (if String.eqb c "pro" then 1 else 0)) in Hp by done.
    rewrite (sum_map_const _ _ _ 0) in Hk by done.
    split_and!; [done|done| | |];
      [|destruct (String.eqb_spec c "pro") as [->|Hne]; [specialize (Hlen eq_refl)|]; lia..].
    apply Forall_insert; [done|]. apply Forall_app. split; [|done].
    apply Forall_map. by apply (Forall_impl _ _ _ Hdocs).
  - rewrite count_live in Hc by done. injection Hc as Hc.
    pose proof (Hs (act_pending "pro") rest) as Hp. pose proof (Hs (act_checks "pro") rest) as Hk.
    cbn [sum_list_with act_pending act_checks] in Hp, Hk.
    split_and!; [done|done|by apply Forall_insert|lia|destruct (String.eqb_spec c "pro") as [->|Hne]; lia].
  - by rewrite count_live in Hc.
  - destruct (create_document_flags _ _ _ _ _ Hins) as [Hr' Hl'].
    destruct (create_document_effect _ _ _ _ _ Hins) as [Hc Ho].
    pose proof (Hs (act_pending "pro") rest) as Hp. pose proof (Hs (act_checks "pro") rest) as Hk.
    cbn [sum_list_with act_pending act_checks] in Hp, Hk.
    split_and!; [congruence|congruence|by apply Forall_insert|..];
      (destruct (String.eqb_spec c "pro") as [->|Hne];
       [rewrite Hc, length_app; cbn [length]; lia | rewrite (Ho "pro") by congruence; lia]).
  - destruct (create_document_live c d s Hr Hl Ha) as (? & ? & E). congruence.
Qed.

Lemma quiet_inv_rtc (cfg cfg' : St * list thread) : rtc step cfg cfg' -> quiet_inv cfg -> quiet_inv cfg'.
Proof. induction 1 as [|x y z Hxy _ IH]; [done|]. intros Hx. apply IH. by apply (quiet_inv_step x). Qed.

(** *** A single call alone is [seed_demo] *)

Lemma create_all_steps c docs s s' (ts : list thread) i rest :
  create_all c docs s = (Ok tt, s') -> ts !! i = Some (map (AInsert c) docs ++ rest) ->
  rtc step (s, ts) (s', <[i := rest]> ts).
Proof.
  revert s ts. induction docs as [|d docs IH]; intros s ts E Hi; cbn in *.
  - injection E as <-. by rewrite list_insert_id.
  - unfold sbind, st_create in E. destruct (create_document c d s) as [[d' s1]|e] eqn:Hc; [|discriminate].
    eapply rtc_l; [by eapply step_insert|].
    replace (<[i := rest]> ts) with (<[i := rest]> (<[i := map (AInsert c) docs ++ rest]> ts))
      by (by rewrite list_insert_insert_eq).
    apply IH; [done|]. apply list_lookup_insert_eq. eapply lookup_lt_Some. exact Hi.
Qed.

Lemma seed_coll_steps {A} c (xs : list A) dump s s' (ts : list thread) i rest :
  seed_coll c (Ok xs) dump s = (Ok tt, s') -> ts !! i = Some (ACheck c (map dump xs) :: rest) ->
  rtc step (s, ts) (s', <[i := rest]> ts).
Proof.
  unfold seed_coll, sbind at 1, st_count. intros E Hi.
  destruct (count_documents c s) as [[|n]|e] eqn:Hc; cbn in E; [|injection E as <-|discriminate].
  - eapply rtc_l; [by eapply step_check_empty|].
    replace (<[i := rest]> ts)
      with (<[i := rest]> (<[i := map (AInsert c) (map dump xs) ++ rest]> ts))
      by (by rewrite list_insert_insert_eq).
    apply (create_all_steps c (map dump xs)); [exact E|].
    apply list_lookup_insert_eq. eapply lookup_lt_Some. exact Hi.
  - apply rtc_once. by eapply step_check_full.
Qed.
(** A property of actions that every check passes on to the inserts it
    schedules holds of every pending action along any step. *)
Lemma threads_step (P : action -> Prop) (cfg cfg' : St * list thread) :
  (forall c docs, P (ACheck c docs) -> Forall P (map (AInsert c) docs)) ->
  step cfg cfg' -> Forall (Forall P) cfg.2 -> Forall (Forall P) cfg'.2.
Proof.
  intros HP. destruct 1 as [s ts i c docs rest Hi _|s ts i c docs rest n Hi _|s ts i c docs rest e Hi _
    |s ts i c d rest d' s' Hi _|s ts i c d rest e Hi _]; cbn [snd]; intros Hall;
    pose proof (Forall_lookup_1 _ _ _ _ Hall Hi) as Ht; apply Forall_cons in Ht as [Ha Hrest];
    apply Forall_insert; try done.
  apply Forall_app. split; [by apply HP|done].
Qed.

(** A successful [create_document] stores the document behind its new
    ["_id"]. *)
Lemma create_document_stamp c d s d' s' :
  "_id" ∉ keys d -> create_document c d s = Ok (d', s') -> exists oid, d' = ("_id", VOid oid) :: d.
Proof.
  intros Hd. unfold create_document. destruct (db_ready s) eqn:Hr; [|discriminate].
  destruct (db_live s) eqn:Hl.
  - destruct (insert_live s c d Hr Hl Hd) as (oid & s1 & -> & _). intros [= <- _]. eauto.
  - destruct (insert_down s c d Hl) as [m ->]. discriminate.
Qed.

Lemma race_valid_step (cfg cfg' : St * list thread) : step cfg cfg' -> race_valid cfg -> race_valid cfg'.
Proof.
  intros Hst (Hv & Ha & Hc). split_and!;
    [|eapply threads_step; [|exact Hst|exact Ha]; intros c docs Hd; by apply Forall_map
     |eapply threads_step; [|exact Hst|exact Hc]; intros c docs [Hd _]; by apply Forall_map].
  destruct Hst as [| | |s ts i c d rest d' s' Hi Hins|]; try exact Hv. cbn [fst] in *.
  pose proof (Forall_lookup_1 _ _ _ _ Ha Hi) as [Hdv _]%Forall_cons.
  pose proof (Forall_lookup_1 _ _ _ _ Hc Hi) as [Hdc _]%Forall_cons.
  destruct (create_document_stamp _ _ _ _ _ Hdc Hins) as [oid ->].
  destruct (create_document_effect _ _ _ _ _ Hins) as [Hcs Ho].
  destruct Hdv as (Hp & Hk & Hq). destruct Hv as (Vp & Vk & Vq).
  split_and!; [destruct (decide (c = "pro")) as [->|Hne] | destruct (decide (c = "skill")) as [->|Hne]
    | destruct (decide (c = "request")) as [->|Hne]]; try (rewrite Ho by congruence; assumption);
    rewrite Hcs; apply Forall_app; (split; [assumption|]); apply Forall_singleton;
    [rewrite <- Pro.validate_strip_id | rewrite <- Skill.skill_validate_strip_id
    | rewrite <- Request.request_validate_strip_id];
    rewrite strip_id_cons_id, strip_id_no_id by done; auto.
Qed.

Lemma race_valid_rtc (cfg cfg' : St * list thread) : rtc step cfg cfg' -> race_valid cfg -> race_valid cfg'.
Proof. induction 1 as [|x y z Hxy _ IH]; [done|]. intros Hx. apply IH. by apply (race_valid_step x). Qed.

(** *** A collection that holds documents is never written *)

Lemma pending_step c (cfg cfg' : St * list thread) :
  step cfg cfg' -> db_ready cfg.1 = true -> coll cfg.1 c <> [] -> tsum (act_pending c) cfg.2 = 0 ->
  db_ready cfg'.1 = true /\ coll cfg'.1 c = coll cfg.1 c /\ tsum (act_pending c) cfg'.2 = 0.
Proof.
  unfold tsum. destruct 1 as [s ts i c' docs rest Hi Hc |s ts i c' docs rest n Hi _
    |s ts i c' docs rest e Hi _ |s ts i c' d rest d' s' Hi Hins |s ts i c' d rest e Hi _]; cbn [fst snd];
    intros Hr Hne Hp; pose proof (fun t' => sum_insert (sum_list_with (act_pending c)) ts i _ t' Hi) as Hs.
  - destruct (String.eqb_spec c' c) as [->|Hc'].
    + destruct (db_live s) eqn:Hl.
      * rewrite count_live in Hc by done. injection Hc as Hc. by destruct (coll s c).
      * destruct (count_down s c Hl) as [m Hm]. congruence.
    + specialize (Hs (map (AInsert c') docs ++ rest)).
      rewrite sum_list_with_app, (sum_map_const _ _ _ 0) in Hs by (cbn; by destruct (String.eqb_spec c' c)).
      cbn [sum_list_with act_pending] in Hs. split_and!; [done|done|lia].
  - specialize (Hs rest). cbn [sum_list_with act_pending] in Hs. split_and!; [done|done|lia].
  - specialize (Hs []). cbn [sum_list_with act_pending] in Hs. split_and!; [done|done|lia].
  - specialize (Hs rest). cbn [sum_list_with act_pending] in Hs.
    destruct (String.eqb_spec c' c) as [->|Hc']; [lia|].
    destruct (create_document_flags _ _ _ _ _ Hins) as [Hr' _].
    destruct (create_document_effect _ _ _ _ _ Hins) as [_ Ho].
    split_and!; [congruence|by apply Ho|lia].
  - specialize (Hs []). cbn [sum_list_with act_pending] in Hs. split_and!; [done|done|lia].
Qed.

Lemma pending_rtc c (cfg cfg' : St * list thread) :
  rtc step cfg cfg' -> db_ready cfg.1 = true -> coll cfg.1 c <> [] -> tsum (act_pending c) cfg.2 = 0 ->
  coll cfg'.1 c = coll cfg.1 c.
Proof.
  induction 1 as [|x y z Hxy _ IH]; intros Hr Hne Hp; [done|].
  destruct (pending_step c x y Hxy Hr Hne Hp) as (Hr' & Hc & Hp'). rewrite IH; congruence.
Qed.

Lemma flags_rtc (cfg cfg' : St * list thread) :
  rtc step cfg cfg' -> db_ready cfg'.1 = db_ready cfg.1 /\ db_live cfg'.1 = db_live cfg.1.
Proof.
  induction 1 as [|x y z Hxy _ IH]; [done|]. rewrite !(proj1 IH), !(proj2 IH).
  destruct Hxy as [| | |s ts i c d rest d' s' Hi Hins|]; try done. exact (create_document_flags _ _ _ _ _ Hins).
Qed.
End RaceTheorems.

(** *** Termination and progress *)

Section Progress.
Context {St : Type} `{DocStore St}.

(** Every step consumes work: the weight strictly decreases. *)
Lemma weight_step (cfg cfg' : St * list thread) : step cfg cfg' -> weight cfg' < weight cfg.
Proof.
  unfold weight. destruct 1 as [s ts i c docs rest Hi _ |s ts i c docs rest n Hi _
    |s ts i c docs rest e Hi _ |s ts i c d rest d' s' Hi _ |s ts i c d rest e Hi _]; cbn [fst snd];
    pose proof (fun t' => sum_insert (sum_list_with act_weight) ts i _ t' Hi) as Hs.
  - specialize (Hs (map (AInsert c) docs ++ rest)). rewrite sum_list_with_app in Hs.
    rewrite (sum_map_const _ _ _ 1) in Hs by done. cbn [sum_list_with act_weight] in Hs. lia.
  - specialize (Hs rest). cbn [sum_list_with act_weight] in Hs. lia.
  - specialize (Hs []). cbn [sum_list_with act_weight] in Hs. lia.
  - specialize (Hs rest). cbn [sum_list_with act_weight] in Hs. lia.
  - specialize (Hs []). cbn [sum_list_with act_weight] in Hs. lia.
Qed.

(** Executions bounded by the weight: [nsteps] of length [k] needs [k <= weight]. *)
Lemma nsteps_weight k (cfg cfg' : St * list thread) : nsteps step k cfg cfg' -> k + weight cfg' <= weight cfg.
Proof. induction 1 as [|k x y z Hxy _ IH]; [lia|]. pose proof (weight_step _ _ Hxy). lia. Qed.

(** Strong normalisation: no configuration starts an infinite execution. *)
Lemma step_sn (cfg : St * list thread) : sn step cfg.
Proof.
  remember (weight cfg) as w eqn:Hw. revert cfg Hw.
  induction (lt_wf w) as [w _ IH]. intros cfg ->. constructor. intros cfg' Hs.
  by apply (IH (weight cfg')); [apply weight_step|].
Qed.

Lemma step_length (cfg cfg' : St * list thread) : step cfg cfg' -> length cfg'.2 = length cfg.2.
Proof. destruct 1; cbn [snd]; apply length_insert. Qed.

Lemma rtc_step_length (cfg cfg' : St * list thread) : rtc step cfg cfg' -> length cfg'.2 = length cfg.2.
Proof. induction 1 as [|x y z Hxy _ IH]; [done|]. by rewrite IH, (step_length _ _ Hxy). Qed.

(** Progress: a thread with work left can always move. *)
Lemma thread_red s (ts : list thread) i a rest : ts !! i = Some (a :: rest) -> red step (s, ts).
Proof.
  intros Hi. destruct a as [c docs|c d].
  - destruct (count_documents c s) as [[|n]|e] eqn:Hc; eexists;
      [eapply step_check_empty|eapply step_check_full|eapply step_check_raise]; eauto.
  - destruct (create_document c d s) as [[d' s']|e] eqn:Hc; eexists;
      [eapply step_insert|eapply step_insert_raise]; eauto.
Qed.

Lemma all_done_spec (ts : list thread) : all_done ts = true <-> ts = replicate (length ts) [].
Proof.
  unfold all_done. rewrite forallb_forall. induction ts as [|t ts IH]; cbn; [done|].
  split.
  - intros Hall. rewrite (bool_decide_eq_true_1 _ (Hall t (or_introl eq_refl))). f_equal.
    apply IH. intros x Hx. by apply Hall; right.
  - intros [= -> Hts] x [<-|Hx]; [done|]. apply IH; [done|]. done.
Qed.

Lemma not_all_done (ts : list thread) :
  all_done ts = false -> exists i a rest, ts !! i = Some (a :: rest).
Proof.
  induction ts as [|t ts IH]; [done|]. unfold all_done. cbn [forallb].
  destruct t as [|a rest]; cbn.
  - intros Hts. destruct (IH Hts) as (i & a & rest & Hi). by exists (S i), a, rest.
  - intros _. by exists 0, a, rest.
Qed.

(** The normal forms are exactly the configurations where every call
    has finished. *)
Lemma nf_step_iff s (ts : list thread) : nf step (s, ts) <-> ts = replicate (length ts) [].
Proof.
  rewrite <- all_done_spec. split.
  - intros Hnf. destruct (all_done ts) eqn:E; [done|].
    destruct (not_all_done ts E) as (i & a & rest & Hi). destruct Hnf. by eapply thread_red.
  - intros Hd%all_done_spec [cfg' Hs]. inversion Hs; subst;
      match goal with Hi : ts !! _ = Some _ |- _ => rewrite Hd in Hi; apply lookup_replicate in Hi as [? _] end;
      discriminate.
Qed.

(** From any configuration, every call can be run to completion. *)
Lemma step_completes (cfg : St * list thread) :
  exists s', rtc step cfg (s', replicate (length cfg.2) []).
Proof.
  induction (step_sn cfg) as [[s ts] _ IH].
  destruct (all_done ts) eqn:E.
  - exists s. apply all_done_spec in E. cbn [snd]. rewrite <- E. done.
  - destruct (not_all_done ts E) as (i & a & rest & Hi).
    destruct (thread_red s ts i a rest Hi) as [cfg' Hs].
    destruct (IH cfg' Hs) as [s' Hrun]. exists s'. rewrite <- (step_length _ _ Hs).
    by eapply rtc_l.
Qed.
End Progress.

Lemma potential_seed_prog : potential "pro" seed_prog = 3.
Proof. reflexivity. Qed.

Lemma sum_list_with_replicate {A} (f : A -> nat) n t :
  sum_list_with f (replicate n t) = n * f t.
Proof. induction n as [|n IH]; cbn [replicate sum_list_with]; [done|]. rewrite IH. lia. Qed.

Lemma seed_prog_valid : Forall act_valid seed_prog.
Proof.
  unfold seed_prog. apply Forall_forall. intros a Ha.
  repeat (apply elem_of_cons in Ha as [->|Ha]); [..|by apply elem_of_nil in Ha];
    cbn [act_valid]; apply Forall_map, Forall_forall; intros x Hx;
    split_and!; intros Hc; try discriminate; eexists;
    [by apply demo_pros_valid|apply Skill.skill_validate_dump|by apply demo_requests_valid].
Qed.

Lemma seed_prog_clean : Forall clean_action seed_prog.
Proof.
  unfold seed_prog. repeat (apply Forall_cons; split); [..|by apply Forall_nil];
    cbn [clean_action]; (split; [apply Forall_map, Forall_forall; intros|done]);
    [apply dump_no_id_pro|apply dump_no_id_skill|apply dump_no_id_request].
Qed.

Lemma quiet_inv_seed_calls {St} `{DocStore St} (s : St) n :
  db_ready s = true -> db_live s = true -> coll s "pro" = [] -> 1 <= n -> quiet_inv (seed_calls s n).
Proof.
  intros Hr Hl He Hn. unfold quiet_inv, seed_calls, tsum. cbn [fst snd].
  rewrite He, !sum_list_with_replicate. cbn [length].
  change (sum_list_with (act_pending "pro") seed_prog) with 0.
  change (sum_list_with (act_checks "pro") seed_prog) with 1.
  split_and!; [done|done|apply Forall_replicate, seed_prog_clean|..]; lia.
Qed.


Section RaceClaims.
Context {St : Type} `{DocStoreCore St}.

(** C10. Refinement: one [POST /seed] running alone takes, step by step,
    the store from [s] to the state [seed_demo] produces. *)
Theorem seed_demo_sequential s b s' :
  seed_demo s = (Ok b, s') -> rtc step (seed_calls s 1) (s', [[]]).
Proof.
  unfold seed_demo, seed_calls. rewrite (sbind_Ok _ _ s (db_ready s) s) by done.
  destruct (db_ready s); cbn [negb]; [|discriminate].
  rewrite demo_pros_Ok, demo_skills_Ok, demo_requests_Ok.
  destruct (seed_coll "pro" (Ok (values_of demo_pros)) Pro.dump s) as [[[]|e] s1] eqn:E1;
    [rewrite (sbind_Ok _ _ _ _ _ E1) | by rewrite (sbind_Err _ _ _ _ _ E1)].
  destruct (seed_coll "skill" (Ok (values_of demo_skills)) Skill.dump s1) as [[[]|e] s2] eqn:E2;
    [rewrite (sbind_Ok _ _ _ _ _ E2) | by rewrite (sbind_Err _ _ _ _ _ E2)].
  destruct (seed_coll "request" (Ok (values_of demo_requests)) Request.dump s2) as [[[]|e] s3] eqn:E3;
    [rewrite (sbind_Ok _ _ _ _ _ E3) | by rewrite (sbind_Err _ _ _ _ _ E3)].
  intros [= _ <-].
  eapply rtc_trans.
  { apply (seed_coll_steps "pro" _ Pro.dump s s1 [seed_prog] 0 (drop 1 seed_prog) E1). reflexivity. }
  eapply rtc_trans.
  { apply (seed_coll_steps "skill" _ Skill.dump s1 s2 [drop 1 seed_prog] 0 (drop 2 seed_prog) E2).
    reflexivity. }
  apply (seed_coll_steps "request" _ Request.dump s2 s3 [drop 2 seed_prog] 0 [] E3). reflexivity.
Qed.

(** However the operations of [n] concurrent [POST /seed] calls
    interleave, the profile collection never holds more than [3 * n]
    documents beyond what it held before (each call's program has three
    profile inserts). *)
Lemma concurrent_seed_bound n s cfg :
  rtc step (seed_calls s n) cfg -> length (coll cfg.1 "pro") <= length (coll s "pro") + 3 * n.
Proof.
  intros Hrun. apply (measure_rtc "pro") in Hrun.
  unfold measure, seed_calls in Hrun. cbn [fst snd] in Hrun.
  rewrite sum_list_with_replicate, potential_seed_prog in Hrun. lia.
Qed.

(** C11. The emptiness check of main.py (lines 60, 69, 78) under
    interleaving: however the operations of [n] concurrent [POST /seed]
    calls on a configured store interleave, a collection that holds a
    document when they start is never written to. *)
Theorem concurrent_seed_nonempty n s cfg c :
  db_ready s = true -> coll s c <> [] -> rtc step (seed_calls s n) cfg -> coll cfg.1 c = coll s c.
Proof.
  intros Hr Hne Hrun. apply (pending_rtc c _ _ Hrun Hr Hne).
  cbn [seed_calls snd]. unfold tsum. rewrite sum_list_with_replicate.
  change (sum_list_with (act_pending c) seed_prog) with 0. lia.
Qed.

(** [k] calls have checked an empty profile collection, [m] have not
    started: the [m] may check it too. *)
Lemma checks_phase s m k :
  db_ready s = true -> db_live s = true -> coll s "pro" = [] ->
  rtc step (s, replicate k seed_prog_checked ++ replicate m seed_prog) (s, replicate (k + m) seed_prog_checked).
Proof.
  intros Hr Hl Hp. revert k. induction m as [|m IH]; intros k.
  { by rewrite app_nil_r, Nat.add_0_r. }
  eapply rtc_l.
  { eapply (step_check_empty _ _ k "pro" _ (drop 1 seed_prog)); [apply replicate_app_lookup|].
    by rewrite count_live, Hp. }
  fold seed_prog_checked. rewrite replicate_app_insert, Nat.add_succ_r. apply (IH (S k)).
Qed.

(** [k] calls have inserted their profiles, [m] have checked and not
    inserted yet: the [m] may insert theirs, three each. *)
Lemma inserts_phase m k s :
  db_ready s = true -> db_live s = true -> length (coll s "pro") = 3 * k ->
  exists s', rtc step (s, replicate k (drop 1 seed_prog) ++ replicate m seed_prog_checked)
                      (s', replicate (k + m) (drop 1 seed_prog)) /\
    length (coll s' "pro") = 3 * (k + m).
Proof.
  revert k s. induction m as [|m IH]; intros k s Hr Hl Hk.
  { exists s. by rewrite app_nil_r, Nat.add_0_r. }
  destruct (create_all_spec "pro" (map Pro.dump (values_of demo_pros)) s Hr Hl)
    as (s1 & new & E & Hst & Hc & _ & Hr1 & Hl1); [apply Forall_map, Forall_forall; intros; apply dump_no_id_pro|].
  destruct (IH (S k) s1 Hr1 Hl1) as (s' & R & Hlen).
  { rewrite Hc, length_app, (stamped_length _ _ Hst), length_map, Hk.
    change (length (values_of demo_pros)) with 3. lia. }
  exists s'. rewrite Nat.add_succ_r. split; [|done].
  eapply rtc_trans; [|rewrite <- replicate_app_insert in R; exact R].
  eapply create_all_steps; [exact E|]. apply replicate_app_lookup.
Qed.

(** C13. The race the spec accepts (section 4.2), for any number of
    calls: on an empty, reachable store there is an interleaving of [n]
    concurrent [POST /seed] calls in which every call finds the profile
    collection empty and inserts, leaving [3 * n] profiles, the largest
    count [concurrent_seed_quiescent] allows. *)
Theorem concurrent_seed_all_insert n s :
  db_ready s = true -> db_live s = true -> coll s "pro" = [] ->
  exists cfg, rtc step (seed_calls s n) cfg /\ length (coll cfg.1 "pro") = 3 * n.
Proof.
  intros Hr Hl Hp. destruct (inserts_phase n 0 s Hr Hl) as (s' & R & Hlen); [by rewrite Hp|].
  exists (s', replicate n (drop 1 seed_prog)). split; [|done].
  eapply rtc_trans; [apply (checks_phase s n 0 Hr Hl Hp)|exact R].
Qed.

(** C12. Functional behaviour under interleaving: once [n >= 1] concurrent
    [POST /seed] calls on an empty, live store have all finished, however
    their operations interleaved, the profile collection holds [3 * k]
    documents with [1 <= k <= n]: each call inserts all three demo
    profiles or none, and at least one call inserts them. *)
Theorem concurrent_seed_quiescent n s s' :
  db_ready s = true -> db_live s = true -> coll s "pro" = [] -> 1 <= n ->
  rtc step (seed_calls s n) (s', replicate n []) ->
  exists k, length (coll s' "pro") = 3 * k /\ 1 <= k <= n.
Proof.
  intros Hr Hl He Hn Hrun.
  destruct (quiet_inv_rtc _ _ Hrun (quiet_inv_seed_calls s n Hr Hl He Hn)) as (_ & _ & _ & Hmod & Hlb).
  apply (measure_rtc "pro") in Hrun.
  unfold measure, seed_calls, tsum in *. cbn [fst snd] in *.
  rewrite He, !sum_list_with_replicate, potential_seed_prog in Hrun.
  rewrite !sum_list_with_replicate in Hmod. rewrite !sum_list_with_replicate in Hlb. cbn [sum_list_with potential length] in *.
  exists (length (coll s' "pro") / 3). lia.
Qed.

Lemma weight_seed_calls (s : St) n : weight (seed_calls s n) = 12 * n.
Proof. unfold weight, seed_calls. cbn [snd]. rewrite sum_list_with_replicate. change (sum_list_with act_weight seed_prog) with 12. lia. Qed.

(** Termination: however the scheduler interleaves them, [n] concurrent
    [POST /seed] calls stop after at most [12 * n] atomic store
    operations (one count and three inserts per collection and call). *)
Theorem seed_calls_terminate s n k cfg : nsteps step k (seed_calls s n) cfg -> k <= 12 * n.
Proof. intros Hk. pose proof (nsteps_weight _ _ _ Hk). rewrite weight_seed_calls in *. lia. Qed.

(** Liveness: from every configuration [n] concurrent calls reach, all
    of them can still run to completion, and a configuration where no
    operation can run is one where every call has finished (no
    deadlock). *)
Theorem seed_calls_complete s n cfg :
  rtc step (seed_calls s n) cfg ->
  (exists s', rtc step cfg (s', replicate n [])) /\ (nf step cfg -> cfg.2 = replicate n []).
Proof.
  intros Hrun. pose proof (rtc_step_length _ _ Hrun) as Hlen.
  unfold seed_calls in Hlen. cbn [snd] in Hlen. rewrite length_replicate in Hlen. rewrite <- Hlen.
  split; [apply step_completes|]. destruct cfg as [s' ts]. apply nf_step_iff.
Qed.
End RaceClaims.


Section RaceListing.
Context {St : Type} `{DocStoreAnyOrder St}.

(** C14. Composition of concurrent seeding with listing: at every point
    of every interleaving of [n] concurrent [POST /seed] calls on a
    reachable store holding valid documents, [GET /pros?limit=v] with
    any [v] Pydantic reads as an int answers 200
    with a list of profiles: each insert writes one complete valid
    document, so a listing that runs between two inserts never meets an
    invalid one. *)
Theorem list_pros_during_seeding e n s cfg v k :
  valid_store s -> db_ready s = true -> db_live s = true -> rtc step (seed_calls s n) cfg ->
  str_as_int v = Ok k ->
  exists ps, fst (handle e (Req GET "/pros" [("limit", v)]) cfg.1) = Resp 200 (BPros ps).
Proof.
  intros Hv Hr Hl Hrtc Hk.
  destruct (race_valid_rtc _ _ Hrtc) as ((Vp & _) & _);
    [split_and!; [done|apply Forall_replicate, seed_prog_valid|apply Forall_replicate, seed_prog_clean]|].
  destruct (flags_rtc _ _ Hrtc) as [Hr' Hl']. cbn [seed_calls fst] in Hr', Hl'.
  destruct (list_any_total "pro" "Pro" Pro.validate k cfg.1 Pro.validate_strip_id Vp) as [ps E];
    [congruence|congruence|].
  exists ps. rewrite handle_get_pros. cbn [fst]. rewrite (with_limit_print _ _ v k) by done.
  unfold list_pros. by rewrite E.
Qed.
End RaceListing.
