(* ===== verification/Examples.v ===== *)
(** * Concrete runs

    Concrete documents and in-memory stores, and, for each theorem of
    the development with hypotheses, a closed instance where the
    hypotheses hold by evaluation. *)
From S2P Require Import Prelude Values Coerce Schemas Store Api ApiTheorems Server Race.
Local Close Scope Q_scope.

(** ** Inputs *)

Definition env_ok : env := Env (Some "mongodb://localhost:27017") (Some "karma").

(** A fresh store on a configured, reachable server. *)
Definition s_empty : MemStore.t := MemStore.connect env_ok.

(** The same, behind a store that answers [find] newest first. *)
Definition r_empty : RevStore.t := RevStore.Rev s_empty.

(** The process started without [DATABASE_URL]. *)
Definition s_unconf : MemStore.t := MemStore.connect (Env None (Some "karma")).

(** Configured, but the server does not answer. *)
Definition s_down : MemStore.t := MemStore.MStore true false ∅ 0%N.

(** A reachable store whose "pro" collection holds a document written by
    another client, with an integer where a name should be. *)
Definition bad_pro : document := [("_id", VOid 0%N); ("bio", VStr "no name")].
Definition s_bad : MemStore.t := MemStore.MStore true true {["pro" := [bad_pro]]} 1%N.

Definition aisha : Pro.t :=
  Pro.mk "Aisha Khan" None (Some "State University") (Some "CS")
    (Some "ML tutor and Python mentor.") ["Python"; "ML"; "Data"] (49 # 10)%Q 112 true 25.

Definition too_high : document := [("name", VStr "Z"); ("rating", VFloat 6%Q)].
Definition nameless : document := [("bio", VStr "no name")].

Definition s_seeded : MemStore.t := snd (seed_demo s_empty).

(** ** Witnesses: Schemas *)


Lemma Pro_validate_dump_witness : Pro.wf aisha /\ Pro.validate (Pro.dump aisha) = Ok aisha.
Proof.
  assert (Hw : Pro.wf aisha).
  { split_and!; cbn; try lia; apply Qle_bool_iff; reflexivity. }
  split; [exact Hw|]. apply Pro.validate_dump. exact Hw.
Defined.

Lemma Pro_validate_rating_bounds_witness :
  dict_get "rating" too_high = Some (VFloat 6%Q) /\ (5 < 6)%Q /\
  has_err (FieldError [LKey "rating"] LessThanEqual) (Pro.validate too_high).
Proof.
  assert (Hq : (5 < 6)%Q) by (apply Qnot_le_lt; intros H%Qle_bool_iff; discriminate).
  split_and!; [reflexivity|exact Hq|].
  destruct (Pro.validate_rating_bounds too_high 6%Q) as (_ & H5 & _ & _); [reflexivity|exact (H5 Hq)].
Defined.

Lemma Pro_validate_name_missing_witness :
  dict_get "name" nameless = None /\ has_err (FieldError [LKey "name"] Missing) (Pro.validate nameless).
Proof. split; [reflexivity|]. apply Pro.validate_name_missing. reflexivity. Defined.

Lemma User_validate_wf_witness :
  exists u, User.validate Some [("name", VStr "Ana"); ("email", VStr "ana@uni.edu")] = Ok u /\
            User.wf u.
Proof.
  eexists. split; [reflexivity|].
  apply (User.user_validate_wf Some [("name", VStr "Ana"); ("email", VStr "ana@uni.edu")]). reflexivity.
Defined.

(** ** Witnesses: the API over the in-memory store *)

Lemma seed_demo_live_witness :
  db_ready s_empty = true /\ db_live s_empty = true /\
  exists s', seed_demo s_empty = (Ok seed_ok, s') /\
    seeded (coll s_empty "pro") (coll s' "pro") (map Pro.dump (values_of demo_pros)) /\
    seeded (coll s_empty "skill") (coll s' "skill") (map Skill.dump (values_of demo_skills)) /\
    seeded (coll s_empty "request") (coll s' "request") (map Request.dump (values_of demo_requests)) /\
    (forall c, c ∉ ["pro"; "skill"; "request"] -> coll s' c = coll s_empty c) /\
    db_ready s' = true /\ db_live s' = true.
Proof. split_and!; [reflexivity|reflexivity|]. apply (seed_demo_live s_empty); reflexivity. Defined.

Lemma seed_demo_idempotent_witness :
  seed_demo s_empty = (Ok seed_ok, s_seeded) /\
  exists s2, seed_demo s_seeded = (Ok seed_ok, s2) /\ forall c, coll s2 c = coll s_seeded c.
Proof.
  assert (E : seed_demo s_empty = (Ok seed_ok, s_seeded)) by (vm_compute; reflexivity).
  split; [exact E|]. exact (seed_demo_idempotent s_empty seed_ok s_seeded E).
Defined.

Lemma seed_demo_empty_contents_witness :
  exists s', seed_demo s_empty = (Ok seed_ok, s') /\
    map (dict_get "name") (coll s' "pro")
      = map (fun n => Some (VStr n)) ["Aisha Khan"; "Marco Silva"; "Yuki Tanaka"] /\
    map (dict_get "title") (coll s' "skill")
      = map (fun n => Some (VStr n)) ["Intro to Python"; "Figma Essentials"; "Exam Prep: Calc I"] /\
    map (dict_get "title") (coll s' "request")
      = map (fun n => Some (VStr n)) ["Debug my JS app"; "Logo critique"; "Calc homework help"].
Proof. apply (seed_demo_empty_contents s_empty); reflexivity. Defined.

Lemma seed_then_list_pros_2_witness :
  db_ready s_empty = true /\ db_live s_empty = true /\ coll s_empty "pro" = [] /\
  exists s' ps, seed_demo s_empty = (Ok seed_ok, s') /\
    fst (handle env_ok (Req GET "/pros" [("limit", "2")]) s') = Resp 200 (BPros ps) /\
    map Pro.name ps = ["Aisha Khan"; "Marco Silva"] /\
    Forall (fun p => "_id" ∉ keys (Pro.dump p)) ps.
Proof. split_and!; [reflexivity..|]. apply (seed_then_list_pros_2 env_ok s_empty); reflexivity. Defined.

(** On a store that answers [find] newest first. *)
Lemma seed_then_list_pros_any_witness :
  db_ready r_empty = true /\ db_live r_empty = true /\ coll r_empty "pro" = [] /\
  exists s' ps, seed_demo r_empty = (Ok seed_ok, s') /\
    fst (handle env_ok (Req GET "/pros" [("limit", " 2 ")]) s') = Resp 200 (BPros ps) /\
    length ps = Nat.min (Z.to_nat 2) 3 /\ ps ⊆+ values_of demo_pros.
Proof. split_and!; [reflexivity..|]. apply (seed_then_list_pros_any env_ok r_empty " 2 " 2); reflexivity. Defined.

(** On that store the two profiles listed are the newest two, not the
    first two of the insertion order. *)
Lemma rev_store_lists_newest_first :
  exists s', seed_demo r_empty = (Ok seed_ok, s') /\
    rmap (map Pro.name) (list_pros 2 s') = Ok ["Yuki Tanaka"; "Marco Silva"].
Proof. exists (seed_demo r_empty).2. split; vm_compute; reflexivity. Qed.

Lemma seed_unconfigured_500_witness :
  db_ready s_unconf = false /\
  handle env_ok (Req POST "/seed" []) s_unconf = (Resp 500 (BDetail "Database not configured"), s_unconf).
Proof. split; [reflexivity|]. apply seed_unconfigured_500. reflexivity. Defined.

Lemma seed_unreachable_500_witness :
  db_ready s_down = true /\ db_live s_down = false /\
  handle env_ok (Req POST "/seed" []) s_down = (Resp 500 (BText "Internal Server Error"), s_down).
Proof. split_and!; [reflexivity|reflexivity|]. apply seed_unreachable_500; reflexivity. Defined.

Lemma handle_valid_witness :
  valid_store s_empty /\ valid_store (snd (handle env_ok (Req POST "/seed" []) s_empty)).
Proof.
  assert (V : valid_store s_empty) by (split_and!; constructor).
  split; [exact V|]. apply handle_valid. exact V.
Defined.

(** The seeded store satisfies the invariant. *)
Lemma s_seeded_valid : valid_store s_seeded.
Proof.
  apply (seed_demo_valid s_empty (fst (seed_demo s_empty))); [split_and!; constructor|].
  apply surjective_pairing.
Qed.

Lemma list_pros_total_witness :
  valid_store s_seeded /\ exists ps, list_pros 5 s_seeded = Ok ps.
Proof.
  split; [exact s_seeded_valid|]. apply list_pros_total; [exact s_seeded_valid|reflexivity|reflexivity].
Defined.

Lemma list_skills_requests_total_witness :
  valid_store s_seeded /\
  (exists xs, list_skills 2 s_seeded = Ok xs) /\ (exists rs, list_requests 2 s_seeded = Ok rs).
Proof.
  split; [exact s_seeded_valid|].
  apply list_skills_requests_total; [exact s_seeded_valid|reflexivity|reflexivity].
Defined.

Lemma pros_bad_limit_422_witness :
  has_digit "ten" = false /\ (String.length "ten" <= 4300)%nat /\
  handle env_ok (Req GET "/pros" [("limit", "ten")]) s_seeded
  = (Resp 422 (BQueryErrors [FieldError [LKey "query"; LKey "limit"] IntParsing]), s_seeded).
Proof.
  assert (Hl : (String.length "ten" <= 4300)%nat) by (cbn; lia).
  split_and!; [reflexivity|exact Hl|]. apply pros_bad_limit_422; [reflexivity|exact Hl].
Defined.

(** [limit=" 5"] is read as 5. *)
Lemma pros_limit_roundtrip_witness :
  forallb rust_space (String.list_ascii_of_string " ") = true /\
  (String.length (print_int 5) <= 4300)%nat /\
  fst (handle env_ok (Req GET "/pros" [("limit", " " +:+ print_int 5 +:+ "")]) s_seeded)
  = respond (rmap BPros (list_pros 5 s_seeded)).
Proof.
  assert (Hl : (String.length (print_int 5) <= 4300)%nat) by (apply Nat.leb_le; vm_compute; reflexivity).
  split_and!; [reflexivity|exact Hl|]. apply pros_limit_roundtrip; [reflexivity|reflexivity|exact Hl].
Defined.

Lemma list_pros_invalid_500_witness :
  dict_get "name" bad_pro = None /\
  handle env_ok (Req GET "/pros" []) s_bad = (Resp 500 (BText "Internal Server Error"), s_bad).
Proof.
  split; [reflexivity|].
  apply (list_pros_invalid_500 env_ok [] 12 s_bad bad_pro);
    [reflexivity|reflexivity|reflexivity|cbn; left|reflexivity].
Defined.

Lemma list_pros_length_witness :
  exists ps, list_pros 2 s_seeded = Ok ps /\
    length ps = Nat.min (Z.to_nat 2) (length (coll s_seeded "pro")).
Proof.
  eexists. split; [reflexivity|].
  apply (list_pros_length 2 s_seeded); [reflexivity|reflexivity|reflexivity].
Defined.

Lemma list_pros_strip_redundant_witness :
  db_ready s_seeded = true /\
  list_pros 3 s_seeded = mapR (fun d => lift_v "Pro" (Pro.validate d)) (take 3 (coll s_seeded "pro")).
Proof. split; [reflexivity|]. apply (list_pros_strip_redundant 3 s_seeded); reflexivity. Defined.

Lemma test_unreachable_witness :
  db_live s_down = false /\
  exists m r, handle env_ok (Req GET "/test" []) s_down = (Resp 200 (BTest r), s_down) /\
    database r = String.append "⚠️ Connected but Error: " (String.substring 0 50 m) /\
    connection_status r = "Connected" /\ collections r = [].
Proof. split; [reflexivity|]. apply test_unreachable; reflexivity. Defined.

Lemma test_live_witness :
  db_live s_seeded = true /\
  database (test_database env_ok s_seeded) = "✅ Connected & Working" /\
  length (collections (test_database env_ok s_seeded)) <= 10 /\
  (forall c, c ∈ collections (test_database env_ok s_seeded) -> coll s_seeded c <> []).
Proof. split; [reflexivity|]. apply test_live; reflexivity. Defined.

Lemma test_reports_db_name_witness :
  DATABASE_NAME env_ok = Some "karma" /\ database_name (test_database env_ok s_empty) = "karma".
Proof. split; [reflexivity|]. apply test_reports_db_name; [reflexivity|reflexivity|discriminate]. Defined.

(** ** Witnesses: concurrent seeding *)

Lemma seed_demo_sequential_witness :
  seed_demo s_empty = (Ok seed_ok, s_seeded) /\ rtc step (seed_calls s_empty 1) (s_seeded, [[]]).
Proof.
  assert (E : seed_demo s_empty = (Ok seed_ok, s_seeded)) by (vm_compute; reflexivity).
  split; [exact E|]. exact (seed_demo_sequential s_empty seed_ok s_seeded E).
Defined.

(** Two calls on the seeded store, part-way through: the profiles are
    untouched. *)
Lemma concurrent_seed_nonempty_witness :
  let cfg := run [0; 1; 0; 1; 0] (seed_calls s_seeded 2) in
  db_ready s_seeded = true /\ coll s_seeded "pro" <> [] /\ rtc step (seed_calls s_seeded 2) cfg /\
  coll cfg.1 "pro" = coll s_seeded "pro".
Proof.
  intros cfg. assert (R : rtc step (seed_calls s_seeded 2) cfg) by apply run_sound.
  assert (Hne : coll s_seeded "pro" <> []) by (vm_compute; discriminate).
  split_and!; [reflexivity|exact Hne|exact R|].
  exact (concurrent_seed_nonempty 2 s_seeded cfg "pro" eq_refl Hne R).
Defined.

Lemma concurrent_seed_all_insert_witness :
  db_ready s_empty = true /\ db_live s_empty = true /\ coll s_empty "pro" = [] /\
  exists cfg, rtc step (seed_calls s_empty 2) cfg /\ length (coll cfg.1 "pro") = 3 * 2.
Proof. split_and!; [reflexivity..|]. apply concurrent_seed_all_insert; reflexivity. Defined.

(** Both calls check the profile collection before either inserts, then
    each runs to completion: every thread finishes, with six profiles. *)
Definition race_sched : list nat := [0; 1] ++ replicate 30 0 ++ replicate 30 1.

Lemma concurrent_seed_quiescent_witness :
  let s' := (run race_sched (seed_calls s_empty 2)).1 in
  rtc step (seed_calls s_empty 2) (s', replicate 2 []) /\
  length (coll s' "pro") = 6 /\
  exists k, length (coll s' "pro") = 3 * k /\ 1 <= k <= 2.
Proof.
  intros s'.
  assert (R : rtc step (seed_calls s_empty 2) (s', replicate 2 [])).
  { assert (E : run race_sched (seed_calls s_empty 2) = (s', replicate 2 [])) by (vm_compute; reflexivity).
    rewrite <- E. apply run_sound. }
  split; [exact R|]. split; [vm_compute; reflexivity|].
  apply (concurrent_seed_quiescent 2 s_empty s'); [reflexivity|reflexivity|reflexivity|lia|exact R].
Defined.

(** Mid-race: both calls have checked, the first has inserted two of
    its three profiles. *)
Lemma list_pros_during_seeding_witness :
  let cfg := run [0; 1; 0; 0] (seed_calls s_empty 2) in
  valid_store s_empty /\ db_ready s_empty = true /\ db_live s_empty = true /\
  rtc step (seed_calls s_empty 2) cfg /\
  exists ps, fst (handle env_ok (Req GET "/pros" [("limit", "12.0")]) cfg.1) = Resp 200 (BPros ps).
Proof.
  intros cfg. assert (R : rtc step (seed_calls s_empty 2) cfg) by apply run_sound.
  assert (V : valid_store s_empty) by (split_and!; constructor).
  split_and!; [exact V|reflexivity|reflexivity|exact R|].
  exact (list_pros_during_seeding env_ok 2 s_empty cfg "12.0" 12 V eq_refl eq_refl R eq_refl).
Defined.

(** ** The server process *)


Definition web_origin : string := "https://karma.example.edu".

(** A browser's preflight for a PUT with a custom header. *)
Definition preflight_hdrs : Cors.headers :=
  [("origin", web_origin); ("access-control-request-method", "PUT");
   ("access-control-request-headers", "x-token")].

Lemma preflight_any_origin_witness :
  Cors.hget "origin" preflight_hdrs = Some web_origin /\
  Cors.hget "access-control-request-method" preflight_hdrs = Some "PUT" /\
  exists r, Cors.app env_ok (Cors.HReq (Req OPTIONS "/pros" []) preflight_hdrs) s_empty = (r, s_empty) /\
    (status_code (Cors.h_resp r) = 200%Z <-> "PUT" ∈ Cors.ALL_METHODS) /\
    Cors.hget "access-control-allow-origin" (Cors.h_headers r) = Some web_origin /\
    Cors.hget "access-control-allow-credentials" (Cors.h_headers r) = Some "true" /\
    (forall rh, Cors.hget "access-control-request-headers" preflight_hdrs = Some rh ->
       Cors.hget "access-control-allow-headers" (Cors.h_headers r) = Some rh).
Proof.
  split; [reflexivity|]. split; [reflexivity|].
  apply (Cors.preflight_any_origin env_ok "/pros" [] preflight_hdrs web_origin "PUT" s_empty); reflexivity.
Defined.

(** A logged-in browser page lists the profiles of a store holding an
    invalid document: the 500 reaches it without CORS headers. *)
Definition cookie_hdrs : Cors.headers := [("origin", web_origin); ("cookie", "session=1")].

Lemma cors_simple_witness :
  Cors.hget "origin" cookie_hdrs = Some web_origin /\
  (route env_ok (Req GET "/pros" []) s_bad).1 = Uncaught (ValidationError "Pro" [FieldError [LKey "name"] Missing]) /\
  exists r, Cors.app env_ok (Cors.HReq (Req GET "/pros" []) cookie_hdrs) s_bad = (r, (handle env_ok (Req GET "/pros" []) s_bad).2) /\
    Cors.h_resp r = (handle env_ok (Req GET "/pros" []) s_bad).1 /\
    (forall r0, (route env_ok (Req GET "/pros" []) s_bad).1 = Answer r0 ->
       Cors.hget "access-control-allow-origin" (Cors.h_headers r) =
         Some (if bool_decide (is_Some (Cors.hget "cookie" cookie_hdrs)) then web_origin else "*") /\
       Cors.hget "access-control-allow-credentials" (Cors.h_headers r) = Some "true") /\
    (forall ex, (route env_ok (Req GET "/pros" []) s_bad).1 = Uncaught ex -> Cors.h_headers r = []).
Proof.
  split; [reflexivity|]. split; [vm_compute; reflexivity|].
  apply (Cors.cors_simple env_ok (Req GET "/pros" []) cookie_hdrs web_origin s_bad); [reflexivity|by left].
Defined.

